(** * SimplyPrint bridge (moonraker/components/simplyprint.py)

    A shallow embedding of the parts of the component that its
    specification makes statements about: the diff helper, the layer
    detector, the inbound protocol dispatcher, demand handling, the
    missed-job-event queue, the state push, the job-progress tick and the
    temperature evaluation.

    Conventions of the embedding.
    - A Python [float] is a binary64 primitive float; a Python [int] is a
      [Z]. [int(x)], [float(n)], division and the comparison of a float
      with an int raise and round as Python does.
    - What [json.loads] returns and what the dictionaries hold is a
      [pyval]. Where the code does float arithmetic on such a value
      ([val / 1000.], [reported_temp + .5], [progress * 100]), an int is
      taken at its float value and anything but a number is a [TypeError].
    - A Python exception is a value of [exn]; a method of an object with
      state [S] is a function [S -> result A * S], so that the state left
      behind by a raise is the state that had been reached.
    - Dictionaries are [gmap string _]; the order of [.items()] is the order
      of [map_to_list]. The heater map is kept as the list of its items.
    - The socket is the list of the frames written to it; the event loop is
      the list of the tasks handed to it; a coroutine is cut at its
      [await]s.
    - Calls to the logger are not modelled. *)

From Stdlib Require Import ZArith Lia Bool.
From Stdlib Require Import Floats.PrimFloat Floats.FloatOps Floats.SpecFloat.
From stdpp Require Import gmap strings list fin_maps.

Set Warnings "-inexact-float,-register-all".
Open Scope Z_scope.

(** * Part I: the component *)

(** ** Exceptions and results *)

Inductive exn :=
| KeyError (key : string)
| IndexError
| TypeError
| AttributeError
| UnboundLocalError (name : string)
| ValueError
| OverflowError
| ZeroDivisionError.

Inductive result (A : Type) :=
| Ok (a : A)
| Raise (e : exn).
Arguments Ok {A} a.
Arguments Raise {A} e.

Definition result_bind {A B} (f : A → result B) (r : result A) : result B :=
  match r with
  | Ok a => f a
  | Raise e => Raise e
  end.

#[global] Instance result_ret : MRet result := @Ok.
#[global] Instance result_mbind : MBind result := @result_bind.

(** ** Methods: state passing with exceptions *)

Module Method.

Definition t (S A : Type) : Type := S → result A * S.

Definition ret {S A} (a : A) : t S A := λ s, (Ok a, s).

Definition bind {S A B} (m : t S A) (k : A → t S B) : t S B :=
  λ s, match m s with
       | (Ok a, s') => k a s'
       | (Raise e, s') => (Raise e, s')
       end.

Definition raise {S A} (e : exn) : t S A := λ s, (Raise e, s).

Definition get {S} : t S S := λ s, (Ok s, s).

Definition gets {S A} (f : S → A) : t S A := λ s, (Ok (f s), s).

Definition modify {S} (f : S → S) : t S unit := λ s, (Ok tt, f s).

(** A pure fallible computation used inside a method. *)
Definition lift {S A} (r : result A) : t S A := λ s, (r, s).

(** The state a method leaves behind, and what it returned or raised. *)
Definition exec {S A} (m : t S A) (s : S) : S := snd (m s).

Definition eval {S A} (m : t S A) (s : S) : result A := fst (m s).

(** [for x in xs: body x]. *)
Fixpoint for_each {S X} (xs : list X) (body : X → t S unit) : t S unit :=
  match xs with
  | [] => ret tt
  | x :: rest => bind (body x) (λ _, for_each rest body)
  end.

End Method.

#[global] Instance method_ret {S} : MRet (Method.t S) := @Method.ret S.
#[global] Instance method_bind {S} : MBind (Method.t S) :=
  λ A B k m, Method.bind m k.

(** ** Python numbers *)

Module Py.

(** [int(f)]: truncation toward zero; [OverflowError] on an infinity,
    [ValueError] on a NaN. *)
Definition trunc_SF (x : spec_float) : result Z :=
  match x with
  | S754_zero _ => Ok 0
  | S754_finite s m e =>
      let a := match e with
               | Z0 => Zpos m
               | Zpos p => Z.shiftl (Zpos m) (Zpos p)
               | Zneg p => Z.shiftr (Zpos m) (Zpos p)
               end in
      Ok (if s then - a else a)
  | S754_infinity _ => Raise OverflowError
  | S754_nan => Raise ValueError
  end.

Definition int (f : float) : result Z := trunc_SF (Prim2SF f).

(** [math.floor(f)], for comparison with [int]. *)
Definition floor_SF (x : spec_float) : result Z :=
  match x with
  | S754_zero _ => Ok 0
  | S754_finite s m e =>
      let v := if s then Zneg m else Zpos m in
      Ok match e with
         | Z0 => v
         | Zpos p => Z.shiftl v (Zpos p)
         | Zneg p => Z.shiftr v (Zpos p)
         end
  | S754_infinity _ => Raise OverflowError
  | S754_nan => Raise ValueError
  end.

Definition floor (f : float) : result Z := floor_SF (Prim2SF f).

(** [float(z)]: the nearest binary64, [OverflowError] when there is none. *)
Definition float_of_int (z : Z) : result float :=
  match binary_normalize prec emax z 0 false with
  | S754_infinity _ => Raise OverflowError
  | x => Ok (SF2Prim x)
  end.

(** [a / b] on floats raises on a zero divisor. *)
Definition truediv (a b : float) : result float :=
  if PrimFloat.eqb b 0%float then Raise ZeroDivisionError
  else Ok (PrimFloat.div a b).

(** Exact comparison of a float with an int, as [float.__eq__] and
    friends do it; [None] for a NaN, which is unordered. *)
Definition compare_int (f : float) (z : Z) : option comparison :=
  match Prim2SF f with
  | S754_zero _ => Some (0 ?= z)
  | S754_finite s m e =>
      let v := if s then Zneg m else Zpos m in
      Some match e with
           | Z0 => v ?= z
           | Zpos p => Z.shiftl v (Zpos p) ?= z
           | Zneg p => v ?= Z.shiftl z (Zpos p)
           end
  | S754_infinity s => Some (if s then Lt else Gt)
  | S754_nan => None
  end.

(** [round(f)] with one argument: the nearest int, a tie going to the
    even one; it raises as [int(f)] does. *)
Definition round_SF (x : spec_float) : result Z :=
  match x with
  | S754_zero _ => Ok 0
  | S754_finite s m e =>
      let a := match e with
               | Z0 => Zpos m
               | Zpos p => Z.shiftl (Zpos m) (Zpos p)
               | Zneg p =>
                   let q := Z.shiftr (Zpos m) (Zpos p) in
                   let r := Zpos m - Z.shiftl q (Zpos p) in
                   let half := Z.shiftl 1 (Zpos p - 1) in
                   match r ?= half with
                   | Lt => q
                   | Gt => q + 1
                   | Eq => if Z.even q then q else q + 1
                   end
               end in
      Ok (if s then - a else a)
  | S754_infinity _ => Raise OverflowError
  | S754_nan => Raise ValueError
  end.

Definition round (f : float) : result Z := round_SF (Prim2SF f).

(** [a / 2] for an int [a]: the binary64 nearest to the quotient. *)
Definition half (a : Z) : result float :=
  match binary_normalize prec emax a (-1) false with
  | S754_infinity _ => Raise OverflowError
  | x => Ok (SF2Prim x)
  end.

End Py.

(** ** The diff helper *)

Section object_diff.
Context {V : Type} {V_eq_dec : EqDecision V}.

(** One turn of [for key, val in new_obj.items()]: the entry is skipped
    when [key in cached_obj and val == cached_obj[key]], and recorded in
    [diff] otherwise. *)
Definition diff_entry (cached_obj : gmap string V)
    (key : string) (val : V) (diff : gmap string V) : gmap string V :=
  if decide (cached_obj !! key = Some val) then diff
  else <[key := val]> diff.

Definition _get_object_diff (new_obj cached_obj : gmap string V)
    : gmap string V :=
  if decide (cached_obj = ∅) then new_obj
  else map_fold (diff_entry cached_obj) ∅ new_obj.

End object_diff.

(** ** Job metadata

    The fields of the file manager's metadata that the component reads,
    with the types its annotations give them; a field is [None] when the
    dictionary has no such key. *)

Record Metadata := {
  filament_total : option float;
  estimated_time : option float;
  layer_height : option float;
  first_layer_height : option float;
  layer_count : option Z;
  object_height : option float;
}.

Definition no_metadata : Metadata :=
  {| filament_total := None; estimated_time := None; layer_height := None;
     first_layer_height := None; layer_count := None; object_height := None |}.

(** ** class LayerDetect *)

Module LayerDetect.
Import Method.

Record t := {
  _layer : Z;
  _layer_z : float;
  _active : bool;
  _layer_height : float;
  _fl_height : float;
  _layer_count : Z;
  _check_next : bool;
}.

Definition __init__ : t :=
  {| _layer := 0; _layer_z := 0%float; _active := false;
     _layer_height := 0%float; _fl_height := 0%float;
     _layer_count := 99999999999; _check_next := false |}.

Definition set_layer (v : Z) (self : t) : t :=
  {| _layer := v; _layer_z := _layer_z self; _active := _active self;
     _layer_height := _layer_height self; _fl_height := _fl_height self;
     _layer_count := _layer_count self; _check_next := _check_next self |}.
Definition set_layer_z (v : float) (self : t) : t :=
  {| _layer := _layer self; _layer_z := v; _active := _active self;
     _layer_height := _layer_height self; _fl_height := _fl_height self;
     _layer_count := _layer_count self; _check_next := _check_next self |}.
Definition set_active (v : bool) (self : t) : t :=
  {| _layer := _layer self; _layer_z := _layer_z self; _active := v;
     _layer_height := _layer_height self; _fl_height := _fl_height self;
     _layer_count := _layer_count self; _check_next := _check_next self |}.
Definition set_layer_height (v : float) (self : t) : t :=
  {| _layer := _layer self; _layer_z := _layer_z self;
     _active := _active self;
     _layer_height := v; _fl_height := _fl_height self;
     _layer_count := _layer_count self; _check_next := _check_next self |}.
Definition set_fl_height (v : float) (self : t) : t :=
  {| _layer := _layer self; _layer_z := _layer_z self;
     _active := _active self;
     _layer_height := _layer_height self; _fl_height := v;
     _layer_count := _layer_count self; _check_next := _check_next self |}.
Definition set_layer_count (v : Z) (self : t) : t :=
  {| _layer := _layer self; _layer_z := _layer_z self;
     _active := _active self;
     _layer_height := _layer_height self; _fl_height := _fl_height self;
     _layer_count := v; _check_next := _check_next self |}.
Definition set_check_next (v : bool) (self : t) : t :=
  {| _layer := _layer self; _layer_z := _layer_z self;
     _active := _active self;
     _layer_height := _layer_height self; _fl_height := _fl_height self;
     _layer_count := _layer_count self; _check_next := v |}.

(** The property [layer]. *)
Definition layer (self : t) : Z := _layer self.

(** [new_pos[i]]. *)
Definition item (new_pos : list float) (i : nat) : result float :=
  match new_pos !! i with
  | Some x => Ok x
  | None => Raise IndexError
  end.

Definition update (new_pos : list float) : Method.t t unit :=
  self ← get;
  unchanged ← (if negb (_active self) then mret true
               else z ← lift (item new_pos 2);
                    mret (PrimFloat.eqb (_layer_z self) z));
  if (unchanged : bool) then modify (set_check_next false)
  else if negb (_check_next self) then
    (* Try to avoid z-hops by skipping the first detected change *)
    modify (set_check_next true)
  else
    modify (set_check_next false);;
    z ← lift (item new_pos 2);
    q ← lift (Py.truediv (PrimFloat.sub z (_fl_height self))
                         (_layer_height self));
    n ← lift (Py.int (PrimFloat.add q 0.5%float));
    let layer := 1 + n in
    modify (λ self, set_layer (Z.min layer (_layer_count self)) self);;
    modify (set_layer_z z).

Definition reset : Method.t t unit :=
  modify (set_active false);;
  modify (set_layer 0);;
  modify (set_layer_z 0%float);;
  modify (set_layer_height 0%float);;
  modify (set_fl_height 0%float);;
  modify (set_layer_count 99999999999);;
  modify (set_check_next false).

Definition start (metadata : Metadata) : Method.t t unit :=
  reset;;
  let lh := layer_height metadata in
  let flh := match first_layer_height metadata with
             | Some v => Some v
             | None => lh
             end in
  match lh, flh with
  | Some lh, Some flh =>
      modify (set_active true);;
      modify (set_layer_height lh);;
      modify (set_fl_height flh);;
      match layer_count metadata, object_height metadata with
      | Some layer_count, _ => modify (set_layer_count layer_count)
      | None, Some obj_height =>
          q ← lift (Py.truediv (PrimFloat.sub obj_height flh) lh);
          n ← lift (Py.int (PrimFloat.add q 0.5%float));
          modify (set_layer_count n)
      | None, None => mret tt
      end
  | _, _ => mret tt
  end.

Definition resume : Method.t t unit := modify (set_active true).
Definition stop : Method.t t unit := modify (set_active false).
End LayerDetect.

(** ** Python values

    What [json.loads] produces and what the dictionaries of the component
    hold. *)

Inductive pyval :=
| PNone
| PBool (b : bool)
| PInt (z : Z)
| PFloat (f : float)
| PStr (s : string)
| PList (l : list pyval)
| PDict (d : gmap string pyval).

(** A number, as the result of Python arithmetic. *)
Inductive num :=
| NInt (z : Z)
| NFloat (f : float).

Module Val.

(** [d.get(key, default)]; only a dict has [get]. *)
Definition get (d : pyval) (key : string) (default : pyval) : result pyval :=
  match d with
  | PDict m => Ok (match m !! key with Some v => v | None => default end)
  | _ => Raise AttributeError
  end.

(** [d.pop(key, default)]: the value and the dict without the key. The
    [pop] of a list takes no default, and other values have no [pop]. *)
Definition pop (d : pyval) (key : string) (default : pyval)
    : result (pyval * pyval) :=
  match d with
  | PDict m =>
      Ok (match m !! key with Some v => v | None => default end,
          PDict (delete key m))
  | PList _ => Raise TypeError
  | _ => Raise AttributeError
  end.

(** [v is None]. *)
Definition is_none (v : pyval) : bool :=
  match v with PNone => true | _ => false end.

(** [isinstance(v, str)]. *)
Definition isinstance_str (v : pyval) : bool :=
  match v with PStr _ => true | _ => false end.

(** [v == s] for a string literal [s]. *)
Definition eq_str (v : pyval) (s : string) : bool :=
  match v with PStr s' => String.eqb s' s | _ => false end.

(** [v in [s1, ..., sn]] for string literals: the literal found. *)
Definition in_strs (v : pyval) (l : list string) : option string :=
  match v with
  | PStr s => if existsb (String.eqb s) l then Some s else None
  | _ => None
  end.

(** Truth value of [v] in a condition. *)
Definition truthy (v : pyval) : bool :=
  match v with
  | PNone => false
  | PBool b => b
  | PInt z => negb (z =? 0)
  | PFloat f => negb (PrimFloat.eqb f 0%float)
  | PStr s => negb (String.eqb s EmptyString)
  | PList l => match l with [] => false | _ => true end
  | PDict m => negb (bool_decide (dom m = ∅))
  end.

(** The float a number stands for in arithmetic with a float; an int
    may be too large for one. Anything but a number is a [TypeError]. *)
Definition to_float (v : pyval) : result float :=
  match v with
  | PFloat f => Ok f
  | PInt z => Py.float_of_int z
  | PBool b => Ok (if b then 1%float else 0%float)
  | _ => Raise TypeError
  end.

(** [v / d] for a float [d]. *)
Definition div_float (v : pyval) (d : float) : result float :=
  x ← to_float v; Py.truediv x d.

(** [v - z] for an int [z]. *)
Definition sub_int (v : pyval) (z : Z) : result num :=
  match v with
  | PInt a => Ok (NInt (a - z))
  | PBool b => Ok (NInt (Z.b2z b - z))
  | PFloat f => zf ← Py.float_of_int z; Ok (NFloat (PrimFloat.sub f zf))
  | _ => Raise TypeError
  end.

(** [n >= k] for an int [k]. *)
Definition ge_int (n : num) (k : Z) : bool :=
  match n with
  | NInt a => k <=? a
  | NFloat f => match Py.compare_int f k with
                | Some Gt | Some Eq => true
                | _ => false
                end
  end.

(** [z == v] for an int [z]. *)
Definition eq_int (z : Z) (v : pyval) : bool :=
  match v with
  | PInt a => z =? a
  | PBool b => z =? Z.b2z b
  | PFloat f => match Py.compare_int f z with
                | Some Eq => true
                | _ => false
                end
  | _ => false
  end.

(** The strings that iterating over [v] yields, for [sep.join(v)]. *)
Definition iter_strs (v : pyval) : result (list string) :=
  match v with
  | PList l =>
      foldr (λ x acc, match x, acc with
                      | PStr s, Ok ss => Ok (s :: ss)
                      | PStr _, Raise e => Raise e
                      | _, _ => Raise TypeError
                      end) (Ok []) l
  | PStr s => Ok ((λ c, String c EmptyString) <$> String.list_ascii_of_string s)
  | PDict m => Ok ((map_to_list m).*1)
  | _ => Raise TypeError
  end.

Definition newline : string := String (Ascii.ascii_of_nat 10) EmptyString.

(** ["\n".join(v)]. *)
Definition join_lines (v : pyval) : result string :=
  ss ← iter_strs v; Ok (String.concat newline ss).

End Val.

(** ** class ReportCache *)

Module ReportCache.

Record t := {
  state : string;
  temps : gmap string (Z * Z);
  metadata : Metadata;
  mesh : gmap string pyval;
  job_info : gmap string pyval;
  active_extruder : string;
  firmware_info : gmap string pyval;
  machine_info : gmap string pyval;
  cpu_info : gmap string pyval;
  current_wsid : option Z;
}.

Definition set_state (v : string) (self : t) : t :=
  {| state := v; temps := temps self; metadata := metadata self;
     mesh := mesh self; job_info := job_info self;
     active_extruder := active_extruder self;
     firmware_info := firmware_info self; machine_info := machine_info self;
     cpu_info := cpu_info self; current_wsid := current_wsid self |}.
Definition set_temps (v : gmap string (Z * Z)) (self : t) : t :=
  {| state := state self; temps := v; metadata := metadata self;
     mesh := mesh self; job_info := job_info self;
     active_extruder := active_extruder self;
     firmware_info := firmware_info self; machine_info := machine_info self;
     cpu_info := cpu_info self; current_wsid := current_wsid self |}.
Definition set_metadata (v : Metadata) (self : t) : t :=
  {| state := state self; temps := temps self; metadata := v;
     mesh := mesh self; job_info := job_info self;
     active_extruder := active_extruder self;
     firmware_info := firmware_info self; machine_info := machine_info self;
     cpu_info := cpu_info self; current_wsid := current_wsid self |}.
Definition set_mesh (v : gmap string pyval) (self : t) : t :=
  {| state := state self; temps := temps self; metadata := metadata self;
     mesh := v; job_info := job_info self;
     active_extruder := active_extruder self;
     firmware_info := firmware_info self; machine_info := machine_info self;
     cpu_info := cpu_info self; current_wsid := current_wsid self |}.
Definition set_job_info (v : gmap string pyval) (self : t) : t :=
  {| state := state self; temps := temps self; metadata := metadata self;
     mesh := mesh self; job_info := v;
     active_extruder := active_extruder self;
     firmware_info := firmware_info self; machine_info := machine_info self;
     cpu_info := cpu_info self; current_wsid := current_wsid self |}.
Definition set_active_extruder (v : string) (self : t) : t :=
  {| state := state self; temps := temps self; metadata := metadata self;
     mesh := mesh self; job_info := job_info self; active_extruder := v;
     firmware_info := firmware_info self; machine_info := machine_info self;
     cpu_info := cpu_info self; current_wsid := current_wsid self |}.
Definition set_firmware_info (v : gmap string pyval) (self : t) : t :=
  {| state := state self; temps := temps self; metadata := metadata self;
     mesh := mesh self; job_info := job_info self;
     active_extruder := active_extruder self; firmware_info := v;
     machine_info := machine_info self; cpu_info := cpu_info self;
     current_wsid := current_wsid self |}.
Definition set_machine_info (v : gmap string pyval) (self : t) : t :=
  {| state := state self; temps := temps self; metadata := metadata self;
     mesh := mesh self; job_info := job_info self;
     active_extruder := active_extruder self;
     firmware_info := firmware_info self; machine_info := v;
     cpu_info := cpu_info self; current_wsid := current_wsid self |}.
Definition set_cpu_info (v : gmap string pyval) (self : t) : t :=
  {| state := state self; temps := temps self; metadata := metadata self;
     mesh := mesh self; job_info := job_info self;
     active_extruder := active_extruder self;
     firmware_info := firmware_info self; machine_info := machine_info self;
     cpu_info := v; current_wsid := current_wsid self |}.
Definition set_current_wsid (v : option Z) (self : t) : t :=
  {| state := state self; temps := temps self; metadata := metadata self;
     mesh := mesh self; job_info := job_info self;
     active_extruder := active_extruder self;
     firmware_info := firmware_info self; machine_info := machine_info self;
     cpu_info := cpu_info self; current_wsid := v |}.

Definition __init__ : t :=
  {| state := "offline"; temps := ∅; metadata := no_metadata; mesh := ∅;
     job_info := ∅; active_extruder := ""; firmware_info := ∅;
     machine_info := ∅; cpu_info := ∅; current_wsid := None |}.

Definition reset_print_state (self : t) : t :=
  set_job_info ∅ (set_mesh ∅ (set_temps ∅ self)).

End ReportCache.

(** ** class AmbientDetect

    Only the estimate that [SimplyPrint] reads through the property
    [ambient]; the sampling timer follows in [Ambient] below, on the state
    of the whole component. *)

Module AmbientDetect.

Record t := {
  _ambient : Z;
}.

Definition INITIAL_AMBIENT : Z := 85.

Definition ambient (self : t) : Z := _ambient self.

End AmbientDetect.

(** ** The collaborators of the component *)

(** What the host answers when the component asks:
    [eventloop.get_loop_time()], [klippy_connection.is_connected()] and
    [job_state.get_last_stats()["print_duration"]]. *)
Record Host := {
  loop_time : float;
  klippy_connected : bool;
  print_duration : float;
}.

(** A frame handed to [ws.write_message]: [{"type": evt_name, "data": data}]. *)
Record packet := {
  evt_name : string;
  data : pyval;
}.

(** The connect url: the configured one, or [f"{ep}/{printer_id}/{token}"]
    kept as its three parts. *)
Inductive url :=
| ConfiguredUrl (u : string)
| EndpointUrl (ep : string) (printer_id token : pyval).

(** The coroutines handed to [eventloop.create_task]. *)
Inductive task :=
| RequestPrintAction (action : string)
| RunGcode (script : string)
| SendMachineData.

(** The requests of [klippy_apis] that [_request_print_action] awaits. *)
Inductive klippy_call :=
| pause_print
| resume_print
| cancel_print.

(** A coroutine of an object with state [S], from a point where it was
    started or resumed up to where it returns or awaits again. *)
Inductive coro (S A : Type) :=
| Done (a : A)
| AwaitKlippy (call : klippy_call) (k : option string → Method.t S (coro S A))
| AwaitSleep (secs : float) (k : Method.t S (coro S A)).
Arguments Done {S A} a.
Arguments AwaitKlippy {S A} call k.
Arguments AwaitSleep {S A} secs k.

(** ** class SimplyPrint *)

Module SimplyPrint.
Import Method.

Definition TEST_ENDPOINT : string := "wss://testws.simplyprint.io/0.1/p".
Definition PROD_ENDPOINT : string := "wss://ws.simplyprint.io/0.1/p".
Definition KEEPALIVE_TIME : float := 96%float.

(** The attributes of the object that the methods below read or write.
    [host] stands for the collaborators reached through [self.server],
    [self.eventloop] and [self.job_state]; [spdb] is the database
    namespace; [ws] is the live socket with the frames written to it, in
    order; [keepalive_hdl] is the delay of the pending keepalive timer;
    [heaters] is the heater map in the order of its items; [tasks] are
    the tasks handed to the event loop, in order. *)
Record t := {
  host : Host;
  spdb : gmap string pyval;
  sp_info : gmap string pyval;
  is_closing : bool;
  test : bool;
  ws : option (list packet);
  cache : ReportCache.t;
  amb_detect : AmbientDetect.t;
  layer_detect : LayerDetect.t;
  last_received_temps : gmap string float;
  intervals : gmap string float;
  printer_status : gmap string (gmap string pyval);
  heaters : list (string * string);
  missed_job_events : list (gmap string pyval);
  keepalive_hdl : option float;
  reconnect_delay : float;
  reconnect_token : pyval;
  next_temp_update_time : float;
  gcode_terminal_enabled : pyval;
  connected : bool;
  is_set_up : bool;
  connect_url : url;
  tasks : list task;
}.

Definition set_host (v : Host) (self : t) : t :=
  {| host := v; spdb := spdb self; sp_info := sp_info self;
     is_closing := is_closing self; test := test self; ws := ws self;
     cache := cache self; amb_detect := amb_detect self;
     layer_detect := layer_detect self;
     last_received_temps := last_received_temps self;
     intervals := intervals self; printer_status := printer_status self;
     heaters := heaters self; missed_job_events := missed_job_events self;
     keepalive_hdl := keepalive_hdl self;
     reconnect_delay := reconnect_delay self;
     reconnect_token := reconnect_token self;
     next_temp_update_time := next_temp_update_time self;
     gcode_terminal_enabled := gcode_terminal_enabled self;
     connected := connected self; is_set_up := is_set_up self;
     connect_url := connect_url self; tasks := tasks self |}.
Definition set_spdb (v : gmap string pyval) (self : t) : t :=
  {| host := host self; spdb := v; sp_info := sp_info self;
     is_closing := is_closing self; test := test self; ws := ws self;
     cache := cache self; amb_detect := amb_detect self;
     layer_detect := layer_detect self;
     last_received_temps := last_received_temps self;
     intervals := intervals self; printer_status := printer_status self;
     heaters := heaters self; missed_job_events := missed_job_events self;
     keepalive_hdl := keepalive_hdl self;
     reconnect_delay := reconnect_delay self;
     reconnect_token := reconnect_token self;
     next_temp_update_time := next_temp_update_time self;
     gcode_terminal_enabled := gcode_terminal_enabled self;
     connected := connected self; is_set_up := is_set_up self;
     connect_url := connect_url self; tasks := tasks self |}.
Definition set_sp_info (v : gmap string pyval) (self : t) : t :=
  {| host := host self; spdb := spdb self; sp_info := v;
     is_closing := is_closing self; test := test self; ws := ws self;
     cache := cache self; amb_detect := amb_detect self;
     layer_detect := layer_detect self;
     last_received_temps := last_received_temps self;
     intervals := intervals self; printer_status := printer_status self;
     heaters := heaters self; missed_job_events := missed_job_events self;
     keepalive_hdl := keepalive_hdl self;
     reconnect_delay := reconnect_delay self;
     reconnect_token := reconnect_token self;
     next_temp_update_time := next_temp_update_time self;
     gcode_terminal_enabled := gcode_terminal_enabled self;
     connected := connected self; is_set_up := is_set_up self;
     connect_url := connect_url self; tasks := tasks self |}.
Definition set_is_closing (v : bool) (self : t) : t :=
  {| host := host self; spdb := spdb self; sp_info := sp_info self;
     is_closing := v; test := test self; ws := ws self; cache := cache self;
     amb_detect := amb_detect self; layer_detect := layer_detect self;
     last_received_temps := last_received_temps self;
     intervals := intervals self; printer_status := printer_status self;
     heaters := heaters self; missed_job_events := missed_job_events self;
     keepalive_hdl := keepalive_hdl self;
     reconnect_delay := reconnect_delay self;
     reconnect_token := reconnect_token self;
     next_temp_update_time := next_temp_update_time self;
     gcode_terminal_enabled := gcode_terminal_enabled self;
     connected := connected self; is_set_up := is_set_up self;
     connect_url := connect_url self; tasks := tasks self |}.
Definition set_test (v : bool) (self : t) : t :=
  {| host := host self; spdb := spdb self; sp_info := sp_info self;
     is_closing := is_closing self; test := v; ws := ws self;
     cache := cache self; amb_detect := amb_detect self;
     layer_detect := layer_detect self;
     last_received_temps := last_received_temps self;
     intervals := intervals self; printer_status := printer_status self;
     heaters := heaters self; missed_job_events := missed_job_events self;
     keepalive_hdl := keepalive_hdl self;
     reconnect_delay := reconnect_delay self;
     reconnect_token := reconnect_token self;
     next_temp_update_time := next_temp_update_time self;
     gcode_terminal_enabled := gcode_terminal_enabled self;
     connected := connected self; is_set_up := is_set_up self;
     connect_url := connect_url self; tasks := tasks self |}.
Definition set_ws (v : option (list packet)) (self : t) : t :=
  {| host := host self; spdb := spdb self; sp_info := sp_info self;
     is_closing := is_closing self; test := test self; ws := v;
     cache := cache self; amb_detect := amb_detect self;
     layer_detect := layer_detect self;
     last_received_temps := last_received_temps self;
     intervals := intervals self; printer_status := printer_status self;
     heaters := heaters self; missed_job_events := missed_job_events self;
     keepalive_hdl := keepalive_hdl self;
     reconnect_delay := reconnect_delay self;
     reconnect_token := reconnect_token self;
     next_temp_update_time := next_temp_update_time self;
     gcode_terminal_enabled := gcode_terminal_enabled self;
     connected := connected self; is_set_up := is_set_up self;
     connect_url := connect_url self; tasks := tasks self |}.
Definition set_cache (v : ReportCache.t) (self : t) : t :=
  {| host := host self; spdb := spdb self; sp_info := sp_info self;
     is_closing := is_closing self; test := test self; ws := ws self;
     cache := v; amb_detect := amb_detect self;
     layer_detect := layer_detect self;
     last_received_temps := last_received_temps self;
     intervals := intervals self; printer_status := printer_status self;
     heaters := heaters self; missed_job_events := missed_job_events self;
     keepalive_hdl := keepalive_hdl self;
     reconnect_delay := reconnect_delay self;
     reconnect_token := reconnect_token self;
     next_temp_update_time := next_temp_update_time self;
     gcode_terminal_enabled := gcode_terminal_enabled self;
     connected := connected self; is_set_up := is_set_up self;
     connect_url := connect_url self; tasks := tasks self |}.
Definition set_amb_detect (v : AmbientDetect.t) (self : t) : t :=
  {| host := host self; spdb := spdb self; sp_info := sp_info self;
     is_closing := is_closing self; test := test self; ws := ws self;
     cache := cache self; amb_detect := v; layer_detect := layer_detect self;
     last_received_temps := last_received_temps self;
     intervals := intervals self; printer_status := printer_status self;
     heaters := heaters self; missed_job_events := missed_job_events self;
     keepalive_hdl := keepalive_hdl self;
     reconnect_delay := reconnect_delay self;
     reconnect_token := reconnect_token self;
     next_temp_update_time := next_temp_update_time self;
     gcode_terminal_enabled := gcode_terminal_enabled self;
     connected := connected self; is_set_up := is_set_up self;
     connect_url := connect_url self; tasks := tasks self |}.
Definition set_layer_detect (v : LayerDetect.t) (self : t) : t :=
  {| host := host self; spdb := spdb self; sp_info := sp_info self;
     is_closing := is_closing self; test := test self; ws := ws self;
     cache := cache self; amb_detect := amb_detect self; layer_detect := v;
     last_received_temps := last_received_temps self;
     intervals := intervals self; printer_status := printer_status self;
     heaters := heaters self; missed_job_events := missed_job_events self;
     keepalive_hdl := keepalive_hdl self;
     reconnect_delay := reconnect_delay self;
     reconnect_token := reconnect_token self;
     next_temp_update_time := next_temp_update_time self;
     gcode_terminal_enabled := gcode_terminal_enabled self;
     connected := connected self; is_set_up := is_set_up self;
     connect_url := connect_url self; tasks := tasks self |}.
Definition set_last_received_temps (v : gmap string float) (self : t) : t :=
  {| host := host self; spdb := spdb self; sp_info := sp_info self;
     is_closing := is_closing self; test := test self; ws := ws self;
     cache := cache self; amb_detect := amb_detect self;
     layer_detect := layer_detect self; last_received_temps := v;
     intervals := intervals self; printer_status := printer_status self;
     heaters := heaters self; missed_job_events := missed_job_events self;
     keepalive_hdl := keepalive_hdl self;
     reconnect_delay := reconnect_delay self;
     reconnect_token := reconnect_token self;
     next_temp_update_time := next_temp_update_time self;
     gcode_terminal_enabled := gcode_terminal_enabled self;
     connected := connected self; is_set_up := is_set_up self;
     connect_url := connect_url self; tasks := tasks self |}.
Definition set_intervals (v : gmap string float) (self : t) : t :=
  {| host := host self; spdb := spdb self; sp_info := sp_info self;
     is_closing := is_closing self; test := test self; ws := ws self;
     cache := cache self; amb_detect := amb_detect self;
     layer_detect := layer_detect self;
     last_received_temps := last_received_temps self; intervals := v;
     printer_status := printer_status self; heaters := heaters self;
     missed_job_events := missed_job_events self;
     keepalive_hdl := keepalive_hdl self;
     reconnect_delay := reconnect_delay self;
     reconnect_token := reconnect_token self;
     next_temp_update_time := next_temp_update_time self;
     gcode_terminal_enabled := gcode_terminal_enabled self;
     connected := connected self; is_set_up := is_set_up self;
     connect_url := connect_url self; tasks := tasks self |}.
Definition set_printer_status (v : gmap string (gmap string pyval)) (self : t) : t :=
  {| host := host self; spdb := spdb self; sp_info := sp_info self;
     is_closing := is_closing self; test := test self; ws := ws self;
     cache := cache self; amb_detect := amb_detect self;
     layer_detect := layer_detect self;
     last_received_temps := last_received_temps self;
     intervals := intervals self; printer_status := v;
     heaters := heaters self; missed_job_events := missed_job_events self;
     keepalive_hdl := keepalive_hdl self;
     reconnect_delay := reconnect_delay self;
     reconnect_token := reconnect_token self;
     next_temp_update_time := next_temp_update_time self;
     gcode_terminal_enabled := gcode_terminal_enabled self;
     connected := connected self; is_set_up := is_set_up self;
     connect_url := connect_url self; tasks := tasks self |}.
Definition set_heaters (v : list (string * string)) (self : t) : t :=
  {| host := host self; spdb := spdb self; sp_info := sp_info self;
     is_closing := is_closing self; test := test self; ws := ws self;
     cache := cache self; amb_detect := amb_detect self;
     layer_detect := layer_detect self;
     last_received_temps := last_received_temps self;
     intervals := intervals self; printer_status := printer_status self;
     heaters := v; missed_job_events := missed_job_events self;
     keepalive_hdl := keepalive_hdl self;
     reconnect_delay := reconnect_delay self;
     reconnect_token := reconnect_token self;
     next_temp_update_time := next_temp_update_time self;
     gcode_terminal_enabled := gcode_terminal_enabled self;
     connected := connected self; is_set_up := is_set_up self;
     connect_url := connect_url self; tasks := tasks self |}.
Definition set_missed_job_events (v : list (gmap string pyval)) (self : t) : t :=
  {| host := host self; spdb := spdb self; sp_info := sp_info self;
     is_closing := is_closing self; test := test self; ws := ws self;
     cache := cache self; amb_detect := amb_detect self;
     layer_detect := layer_detect self;
     last_received_temps := last_received_temps self;
     intervals := intervals self; printer_status := printer_status self;
     heaters := heaters self; missed_job_events := v;
     keepalive_hdl := keepalive_hdl self;
     reconnect_delay := reconnect_delay self;
     reconnect_token := reconnect_token self;
     next_temp_update_time := next_temp_update_time self;
     gcode_terminal_enabled := gcode_terminal_enabled self;
     connected := connected self; is_set_up := is_set_up self;
     connect_url := connect_url self; tasks := tasks self |}.
Definition set_keepalive_hdl (v : option float) (self : t) : t :=
  {| host := host self; spdb := spdb self; sp_info := sp_info self;
     is_closing := is_closing self; test := test self; ws := ws self;
     cache := cache self; amb_detect := amb_detect self;
     layer_detect := layer_detect self;
     last_received_temps := last_received_temps self;
     intervals := intervals self; printer_status := printer_status self;
     heaters := heaters self; missed_job_events := missed_job_events self;
     keepalive_hdl := v; reconnect_delay := reconnect_delay self;
     reconnect_token := reconnect_token self;
     next_temp_update_time := next_temp_update_time self;
     gcode_terminal_enabled := gcode_terminal_enabled self;
     connected := connected self; is_set_up := is_set_up self;
     connect_url := connect_url self; tasks := tasks self |}.
Definition set_reconnect_delay (v : float) (self : t) : t :=
  {| host := host self; spdb := spdb self; sp_info := sp_info self;
     is_closing := is_closing self; test := test self; ws := ws self;
     cache := cache self; amb_detect := amb_detect self;
     layer_detect := layer_detect self;
     last_received_temps := last_received_temps self;
     intervals := intervals self; printer_status := printer_status self;
     heaters := heaters self; missed_job_events := missed_job_events self;
     keepalive_hdl := keepalive_hdl self; reconnect_delay := v;
     reconnect_token := reconnect_token self;
     next_temp_update_time := next_temp_update_time self;
     gcode_terminal_enabled := gcode_terminal_enabled self;
     connected := connected self; is_set_up := is_set_up self;
     connect_url := connect_url self; tasks := tasks self |}.
Definition set_reconnect_token (v : pyval) (self : t) : t :=
  {| host := host self; spdb := spdb self; sp_info := sp_info self;
     is_closing := is_closing self; test := test self; ws := ws self;
     cache := cache self; amb_detect := amb_detect self;
     layer_detect := layer_detect self;
     last_received_temps := last_received_temps self;
     intervals := intervals self; printer_status := printer_status self;
     heaters := heaters self; missed_job_events := missed_job_events self;
     keepalive_hdl := keepalive_hdl self;
     reconnect_delay := reconnect_delay self; reconnect_token := v;
     next_temp_update_time := next_temp_update_time self;
     gcode_terminal_enabled := gcode_terminal_enabled self;
     connected := connected self; is_set_up := is_set_up self;
     connect_url := connect_url self; tasks := tasks self |}.
Definition set_next_temp_update_time (v : float) (self : t) : t :=
  {| host := host self; spdb := spdb self; sp_info := sp_info self;
     is_closing := is_closing self; test := test self; ws := ws self;
     cache := cache self; amb_detect := amb_detect self;
     layer_detect := layer_detect self;
     last_received_temps := last_received_temps self;
     intervals := intervals self; printer_status := printer_status self;
     heaters := heaters self; missed_job_events := missed_job_events self;
     keepalive_hdl := keepalive_hdl self;
     reconnect_delay := reconnect_delay self;
     reconnect_token := reconnect_token self; next_temp_update_time := v;
     gcode_terminal_enabled := gcode_terminal_enabled self;
     connected := connected self; is_set_up := is_set_up self;
     connect_url := connect_url self; tasks := tasks self |}.
Definition set_gcode_terminal_enabled (v : pyval) (self : t) : t :=
  {| host := host self; spdb := spdb self; sp_info := sp_info self;
     is_closing := is_closing self; test := test self; ws := ws self;
     cache := cache self; amb_detect := amb_detect self;
     layer_detect := layer_detect self;
     last_received_temps := last_received_temps self;
     intervals := intervals self; printer_status := printer_status self;
     heaters := heaters self; missed_job_events := missed_job_events self;
     keepalive_hdl := keepalive_hdl self;
     reconnect_delay := reconnect_delay self;
     reconnect_token := reconnect_token self;
     next_temp_update_time := next_temp_update_time self;
     gcode_terminal_enabled := v; connected := connected self;
     is_set_up := is_set_up self; connect_url := connect_url self;
     tasks := tasks self |}.
Definition set_connected (v : bool) (self : t) : t :=
  {| host := host self; spdb := spdb self; sp_info := sp_info self;
     is_closing := is_closing self; test := test self; ws := ws self;
     cache := cache self; amb_detect := amb_detect self;
     layer_detect := layer_detect self;
     last_received_temps := last_received_temps self;
     intervals := intervals self; printer_status := printer_status self;
     heaters := heaters self; missed_job_events := missed_job_events self;
     keepalive_hdl := keepalive_hdl self;
     reconnect_delay := reconnect_delay self;
     reconnect_token := reconnect_token self;
     next_temp_update_time := next_temp_update_time self;
     gcode_terminal_enabled := gcode_terminal_enabled self; connected := v;
     is_set_up := is_set_up self; connect_url := connect_url self;
     tasks := tasks self |}.
Definition set_is_set_up (v : bool) (self : t) : t :=
  {| host := host self; spdb := spdb self; sp_info := sp_info self;
     is_closing := is_closing self; test := test self; ws := ws self;
     cache := cache self; amb_detect := amb_detect self;
     layer_detect := layer_detect self;
     last_received_temps := last_received_temps self;
     intervals := intervals self; printer_status := printer_status self;
     heaters := heaters self; missed_job_events := missed_job_events self;
     keepalive_hdl := keepalive_hdl self;
     reconnect_delay := reconnect_delay self;
     reconnect_token := reconnect_token self;
     next_temp_update_time := next_temp_update_time self;
     gcode_terminal_enabled := gcode_terminal_enabled self;
     connected := connected self; is_set_up := v;
     connect_url := connect_url self; tasks := tasks self |}.
Definition set_connect_url (v : url) (self : t) : t :=
  {| host := host self; spdb := spdb self; sp_info := sp_info self;
     is_closing := is_closing self; test := test self; ws := ws self;
     cache := cache self; amb_detect := amb_detect self;
     layer_detect := layer_detect self;
     last_received_temps := last_received_temps self;
     intervals := intervals self; printer_status := printer_status self;
     heaters := heaters self; missed_job_events := missed_job_events self;
     keepalive_hdl := keepalive_hdl self;
     reconnect_delay := reconnect_delay self;
     reconnect_token := reconnect_token self;
     next_temp_update_time := next_temp_update_time self;
     gcode_terminal_enabled := gcode_terminal_enabled self;
     connected := connected self; is_set_up := is_set_up self;
     connect_url := v; tasks := tasks self |}.
Definition set_tasks (v : list task) (self : t) : t :=
  {| host := host self; spdb := spdb self; sp_info := sp_info self;
     is_closing := is_closing self; test := test self; ws := ws self;
     cache := cache self; amb_detect := amb_detect self;
     layer_detect := layer_detect self;
     last_received_temps := last_received_temps self;
     intervals := intervals self; printer_status := printer_status self;
     heaters := heaters self; missed_job_events := missed_job_events self;
     keepalive_hdl := keepalive_hdl self;
     reconnect_delay := reconnect_delay self;
     reconnect_token := reconnect_token self;
     next_temp_update_time := next_temp_update_time self;
     gcode_terminal_enabled := gcode_terminal_enabled self;
     connected := connected self; is_set_up := is_set_up self;
     connect_url := connect_url self; tasks := v |}.

Definition upd_cache (f : ReportCache.t → ReportCache.t) (self : t) : t :=
  set_cache (f (cache self)) self.

Definition _set_ws_url : Method.t t unit :=
  self ← get;
  let token := sp_info self !! "printer_token" in
  let printer_id := sp_info self !! "printer_id" in
  let ep := if test self then TEST_ENDPOINT else PROD_ENDPOINT in
  modify (set_connect_url (EndpointUrl ep (PStr "0") (PStr "0")));;
  match token with
  | Some PNone | None => mret tt
  | Some token =>
      match printer_id with
      | Some PNone | None =>
          modify (set_connect_url (EndpointUrl ep (PStr "0") token))
      | Some printer_id =>
          modify (set_is_set_up true);;
          modify (set_connect_url (EndpointUrl ep printer_id token))
      end
  end.

(** [config.get("sp_test", True)], [config.get("url", None)] and the
    persisted namespace are what [__init__] reads from its surroundings;
    a persisted ambient temperature is an int. The registration of the
    event handlers and the set-up of the logger are left out. *)
Definition __init__ (the_host : Host) (sp_test : bool)
    (connect_url : option string) (database : gmap string pyval) : t :=
  let self :=
    {| host := the_host;
       spdb := database;
       sp_info := database;
       is_closing := false;
       test := sp_test;
       ws := None;
       cache := ReportCache.__init__;
       amb_detect :=
         {| AmbientDetect._ambient :=
              match database !! "ambient_temp" with
              | Some (PInt a) => a
              | _ => AmbientDetect.INITIAL_AMBIENT
              end |};
       layer_detect := LayerDetect.__init__;
       last_received_temps := ∅;
       intervals :=
         <["job" := 1%float]> (<["temps" := 1%float]>
         (<["temps_target" := 0.25%float]> (<["cpu" := 10%float]> ∅)));
       printer_status := ∅;
       heaters := [];
       missed_job_events := [];
       keepalive_hdl := None;
       reconnect_delay := 1%float;
       reconnect_token := PNone;
       next_temp_update_time := 0%float;
       gcode_terminal_enabled := PBool false;
       connected := false;
       is_set_up := false;
       connect_url := EndpointUrl "" PNone PNone;
       tasks := [] |} in
  match connect_url with
  | Some u => set_is_set_up true (set_connect_url (ConfiguredUrl u) self)
  | None => exec _set_ws_url self
  end.

(** [eventloop.create_task(coro)]. *)
Definition create_task (c : task) : Method.t t unit :=
  modify (λ self, set_tasks (tasks self ++ [c]) self).

Definition _reset_keepalive : Method.t t unit :=
  modify (set_keepalive_hdl (Some KEEPALIVE_TIME)).

(** [_send_sp] answers whether the frame was handed to the socket. *)
Definition _send_sp (evt_name : string) (data : pyval) : Method.t t bool :=
  self ← get;
  match connected self, ws self with
  | true, Some written =>
      let packet := {| evt_name := evt_name; data := data |} in
      _reset_keepalive;;
      modify (set_ws (Some (written ++ [packet])));;
      mret true
  | _, _ => mret false
  end.

Definition _save_item (name : string) (data : pyval) : Method.t t unit :=
  modify (λ self, set_sp_info (<[name := data]> (sp_info self)) self);;
  modify (λ self, set_spdb (<[name := data]> (spdb self)) self).

(** [{"new": v}]. *)
Definition new_payload (v : pyval) : pyval := PDict {["new" := v]}.

Definition _update_state (new_state : string) : Method.t t unit :=
  self ← get;
  if String.eqb (ReportCache.state (cache self)) new_state then mret tt
  else
    modify (upd_cache (ReportCache.set_state new_state));;
    _send_sp "state_change" (new_payload (PStr new_state));;
    mret tt.

(** [cache.temps] and [temp_data] as the values that are sent. *)
Definition temps_payload (temps : gmap string (Z * Z)) : pyval :=
  PDict ((λ ct : Z * Z, PList [PInt ct.1; PInt ct.2]) <$> temps).
Definition temp_data_payload (temp_data : gmap string (list Z)) : pyval :=
  PDict ((λ l : list Z, PList (PInt <$> l)) <$> temp_data).

(** One turn of [for evt in self.missed_job_events] in
    [_push_initial_state]; [i] is the position of [evt] in the list, whose
    dict the turn changes in place. *)
Definition replay_missed_job_event (curtime : float) (i : nat)
    : Method.t t unit :=
  self ← get;
  match missed_job_events self !! i with
  | None => mret tt
  | Some evt =>
      queued ← match evt !! "delay" with
               | Some v => lift (Val.to_float v)
               | None => raise (KeyError "delay")
               end;
      delay ← lift (Py.int (PrimFloat.add (PrimFloat.sub curtime queued)
                                          0.5%float));
      let evt := <["delay" := PInt delay]> evt in
      modify (λ self,
        set_missed_job_events (<[i := evt]> (missed_job_events self)) self);;
      _send_sp "job_info" (PDict evt);;
      mret tt
  end.

Definition _push_initial_state : Method.t t unit :=
  self ← get;
  _send_sp "state_change"
    (new_payload (PStr (ReportCache.state (cache self))));;
  (if negb (bool_decide (ReportCache.temps (cache self) = ∅))
      && is_set_up self
   then _send_sp "temps" (temps_payload (ReportCache.temps (cache self)));;
        mret tt
   else mret tt);;
  (if negb (bool_decide (dom (ReportCache.firmware_info (cache self)) = ∅))
   then _send_sp "firmware"
          (PDict (<["fw" := PDict (ReportCache.firmware_info (cache self))]>
                  {["raw" := PBool false]}));;
        mret tt
   else mret tt);;
  let curtime := loop_time (host self) in
  for_each (seq 0 (length (missed_job_events self)))
           (replay_missed_job_event curtime);;
  (if negb (String.eqb (ReportCache.active_extruder (cache self)) "")
   then _send_sp "tool"
          (new_payload (PStr (ReportCache.active_extruder (cache self))));;
        mret tt
   else mret tt);;
  modify (set_missed_job_events []);;
  (if negb (bool_decide (dom (ReportCache.cpu_info (cache self)) = ∅))
   then _send_sp "cpu_info" (PDict (ReportCache.cpu_info (cache self)));;
        mret tt
   else mret tt);;
  _send_sp "ambient"
    (new_payload (PInt (AmbientDetect.ambient (amb_detect self))));;
  create_task SendMachineData.

(** The body of [for key, val in d.items(): self.intervals[key] = val / 1000.],
    shared by the [connected] and [interval_change] frames. The turns are
    taken in the order of [map_to_list], not in that of the frame's text;
    the order shows only in which intervals a turn that raises leaves
    updated. *)
Definition update_intervals (d : gmap string pyval) : Method.t t unit :=
  for_each (map_to_list d) (λ kv,
    secs ← lift (Val.div_float kv.2 1000%float);
    modify (λ self, set_intervals (<[kv.1 := secs]> (intervals self)) self)).

(** Reading a local variable of a method; [None] is a name that no
    assignment has bound on the path taken. *)
Definition local {A} (name : string) (v : option A) : Method.t t A :=
  match v with
  | Some a => mret a
  | None => raise (UnboundLocalError name)
  end.

Definition _request_print_action (action : string)
    : Method.t t (coro t unit) :=
  cur_state ← gets (λ self, ReportCache.state (cache self));
  let finish (ret : option string) : Method.t t (coro t unit) :=
    match ret with
    | None =>
        (* Make sure the event fired so we can reset *)
        mret (AwaitSleep 0.05%float
                (_update_state cur_state;; mret (Done tt)))
    | Some _ => mret (Done tt)
    end in
  if String.eqb action "pause" then
    if String.eqb cur_state "printing"
    then mret (AwaitKlippy pause_print finish)
    else finish (Some "")
  else if String.eqb action "resume" then
    if String.eqb cur_state "paused"
    then mret (AwaitKlippy resume_print finish)
    else finish (Some "")
  else if String.eqb action "cancel" then
    if existsb (String.eqb cur_state) ["printing"; "paused"]
    then mret (AwaitKlippy cancel_print finish)
    else finish (Some "")
  else finish (Some "").

Definition _process_demand (demand : pyval) (args : pyval)
    : Method.t t unit :=
  self ← get;
  if negb (klippy_connected (host self)) then mret tt
  else match Val.in_strs demand ["pause"; "resume"; "cancel"] with
  | Some action => create_task (RequestPrintAction action)
  | None =>
      if Val.eq_str demand "terminal" then
        match args with
        | PDict d =>
            match d !! "enabled" with
            | Some enabled => modify (set_gcode_terminal_enabled enabled)
            | None => mret tt
            end
        | _ => raise TypeError
        end
      else if Val.eq_str demand "gcode" then
        script_list ← lift (Val.get args "list" (PList []));
        if Val.truthy script_list then
          script ← lift (Val.join_lines script_list);
          create_task (RunGcode script)
        else mret tt
      else mret tt
  end.

(** [_process_message(msg)], from the outcome of [json.loads(msg)]:
    [None] when it raises [JSONDecodeError]. *)
Definition _process_message (loaded : option pyval) : Method.t t unit :=
  _reset_keepalive;;
  match loaded with
  | None => mret tt
  | Some packet =>
  (* [token] is a local of the method, bound in the [new_token] branch only *)
  let token : option pyval := None in
  event ← lift (Val.get packet "type" (PStr ""));
  data ← lift (Val.get packet "data" PNone);
  if Val.eq_str event "connected" then
    modify (set_connected true);;
    modify (set_reconnect_token PNone);;
    (if negb (Val.is_none data) then
       interval ← lift (Val.get data "interval" PNone);
       match interval with
       | PDict d => update_intervals d
       | _ => mret tt
       end;;
       reconnect_token ← lift (Val.get data "reconnect_token" PNone);
       modify (set_reconnect_token reconnect_token);;
       name ← lift (Val.get data "name" PNone);
       if negb (Val.is_none name) then _save_item "printer_name" name
       else mret tt
     else mret tt);;
    modify (set_reconnect_delay 1%float);;
    _push_initial_state
  else if Val.eq_str event "error" then
    modify (set_reconnect_delay 30%float);;
    modify (set_reconnect_token PNone)
  else if Val.eq_str event "new_token" then
    if Val.is_none data then mret tt
    else
      tok ← lift (Val.get data "token" PNone);
      let token := Some tok in
      tok ← local "token" token;
      if negb (Val.isinstance_str tok) then mret tt
      else
        _save_item "printer_token" tok;;
        _set_ws_url
  else if Val.eq_str event "set_up" then
    (* TODO: This is a stubbed event to receive the printer ID,
       it could change *)
    if Val.is_none data then mret tt
    else
      printer_id ← lift (Val.get data "id" PNone);
      tok ← local "token" token;
      if negb (Val.isinstance_str tok) then mret tt
      else
        _save_item "printer_id" printer_id;;
        _set_ws_url;;
        name ← lift (Val.get data "name" PNone);
        if negb (Val.isinstance_str name) then mret tt
        else _save_item "printer_name" name
  else if Val.eq_str event "demand" then
    if Val.is_none data then mret tt
    else
      popped ← lift (Val.pop data "demand" (PStr "unknown"));
      _process_demand popped.1 popped.2
  else if Val.eq_str event "interval_change" then
    match data with
    | PDict d => update_intervals d
    | _ => mret tt
    end
  else mret tt
  end.

Definition _on_pause_requested : Method.t t unit :=
  self ← get;
  if String.eqb (ReportCache.state (cache self)) "printing"
  then _update_state "pausing" else mret tt.

Definition _on_resume_requested : Method.t t unit :=
  self ← get;
  if String.eqb (ReportCache.state (cache self)) "paused"
  then _update_state "resuming" else mret tt.

Definition _on_cancel_requested : Method.t t unit :=
  self ← get;
  if existsb (String.eqb (ReportCache.state (cache self)))
       ["printing"; "paused"; "pausing"]
  then _update_state "cancelling" else mret tt.

(** [job_info] is the caller's dict; the queued entry is that dict after
    [update] with the cached job info and the time stamp. *)
Definition _send_job_event (job_info : gmap string pyval)
    : Method.t t unit :=
  self ← get;
  if connected self then
    _send_sp "job_info" (PDict job_info);; mret tt
  else
    let job_info := ReportCache.job_info (cache self) ∪ job_info in
    let job_info := <["delay" := PFloat (loop_time (host self))]> job_info in
    modify (λ self,
      set_missed_job_events (missed_job_events self ++ [job_info]) self);;
    self ← get;
    if (10 <? length (missed_job_events self))%nat then
      modify (λ self,
        set_missed_job_events (tail (missed_job_events self)) self)
    else mret tt.

(** [self.intervals[key]]. *)
Definition interval (key : string) : Method.t t float :=
  self ← get;
  match intervals self !! key with
  | Some secs => mret secs
  | None => raise (KeyError key)
  end.

(** [self.printer_status[printer_obj][field]]. *)
Definition status_item (self : t) (printer_obj field : string)
    : result pyval :=
  match printer_status self !! printer_obj with
  | None => Raise (KeyError printer_obj)
  | Some vals =>
      match vals !! field with
      | None => Raise (KeyError field)
      | Some v => Ok v
      end
  end.

(** The [time] entry of [_update_job_progress]: the remaining time and
    whether it goes into [job_info]. *)
Definition job_time_entry (est_time duration : float)
    (cached : gmap string pyval) : result (Z * bool) :=
  n ← Py.int (PrimFloat.add (PrimFloat.sub est_time duration) 0.5%float);
  let time_left := Z.max 0 n in
  default ← (tl ← Py.float_of_int time_left;
             Ok (PFloat (PrimFloat.add tl 60%float)));
  let last_time_left := match cached !! "time" with
                        | Some v => v
                        | None => default
                        end in
  time_diff ← Val.sub_int last_time_left time_left;
  Ok (time_left,
      ((time_left <? 60) || Val.ge_int time_diff 30)
      && negb (Val.eq_int time_left last_time_left)).

(** [int(progress * 100 + .5)]. *)
Definition percent (progress : pyval) : result Z :=
  p ← Val.to_float progress;
  Py.int (PrimFloat.add (PrimFloat.mul p 100%float) 0.5%float).

(** [self.cache.job_info.get(key, default)]. *)
Definition cached_job_info (self : t) (key : string) (default : pyval)
    : pyval :=
  match ReportCache.job_info (cache self) !! key with
  | Some v => v
  | None => default
  end.

(** The dict [job_info] that [_update_job_progress] builds, before it
    touches the cache or the socket. *)
Definition job_progress_info (self : t) : result (gmap string pyval) :=
  let job_info : gmap string pyval := ∅ in
  job_info ←
    match estimated_time (ReportCache.metadata (cache self)) with
    | Some est_time =>
        let duration := print_duration (host self) in
        entry ← job_time_entry est_time duration
                  (ReportCache.job_info (cache self));
        if entry.2 : bool then Ok (<["time" := PInt entry.1]> job_info)
        else Ok job_info
    | None => Ok job_info
    end;
  job_info ←
    match printer_status self !! "display_status" with
    | Some _ =>
        progress ← status_item self "display_status" "progress";
        pct_prog ← percent progress;
        if negb (Val.eq_int pct_prog (cached_job_info self "progress" (PInt 0)))
        then
          pct ← percent progress;
          Ok (<["progress" := PInt pct]> job_info)
        else Ok job_info
    | None => Ok job_info
    end;
  let layer := LayerDetect.layer (layer_detect self) in
  if negb (Val.eq_int layer (cached_job_info self "layer" (PInt (-1))))
  then Ok (<["layer" := PInt layer]> job_info)
  else Ok job_info.

Definition _update_job_progress : Method.t t unit :=
  self ← get;
  job_info ← lift (job_progress_info self);
  if negb (bool_decide (dom job_info = ∅)) then
    modify (upd_cache (λ c,
      ReportCache.set_job_info (job_info ∪ ReportCache.job_info c) c));;
    _send_sp "job_info" (PDict job_info);;
    mret tt
  else mret tt.

(** The job info timer handler: the time of its next call. *)
Definition _handle_printer_info_update (eventtime : float)
    : Method.t t float :=
  self ← get;
  (if String.eqb (ReportCache.state (cache self)) "printing"
   then _update_job_progress else mret tt);;
  secs ← interval "job";
  mret (PrimFloat.add eventtime secs).

(** The locals of [_update_temps] that its loop carries along. *)
Record temps_locals := {
  need_rapid_update : bool;
  temp_data : gmap string (list Z);
}.

(** What a turn of the loop of [_update_temps] reads for a heater:
    [reported_temp] and the list [ret] of the rounded temperature and
    target. *)
Record reading := {
  reported_temp : float;
  ret : Z * Z;
}.

Definition heater_reading (self : t) (printer_obj : string)
    : result reading :=
  temperature ← status_item self printer_obj "temperature";
  reported_temp ← Val.to_float temperature;
  cur ← Py.int (PrimFloat.add reported_temp 0.5%float);
  target ← status_item self printer_obj "target";
  target ← Val.to_float target;
  tgt ← Py.int (PrimFloat.add target 0.5%float);
  Ok {| reported_temp := reported_temp; ret := (cur, tgt) |}.

(** [self.cache.temps.get(key, [-100., -100.])]. *)
Definition last_temps (self : t) (key : string) : Z * Z :=
  match ReportCache.temps (cache self) !! key with
  | Some ct => ct
  | None => (-100, -100)
  end.

(** [seeking_target], for a target that has not changed. *)
Definition seeking (self : t) (ret : Z * Z) : bool :=
  if negb (ret.2 =? 0) then 5 <? Z.abs (ret.2 - ret.1)
  else AmbientDetect.ambient (amb_detect self) + 25 <=? ret.1.

(** The two nested tests of the debounce: the key has a last received
    reading and the heater is not seeking, and the reading moved by less
    than 0.75 from it. *)
Definition debounce (self : t) (key : string) (reported_temp : float)
    (seeking_target : bool) : bool :=
  match last_received_temps self !! key with
  | Some last_reported =>
      negb seeking_target &&
      PrimFloat.ltb (PrimFloat.abs (PrimFloat.sub reported_temp
                                                  last_reported))
                    0.75%float
  | None => false
  end.

(** One turn of [for printer_obj, key in self.heaters.items()]. *)
Definition update_heater (printer_obj key : string) (loc : temps_locals)
    : Method.t t temps_locals :=
  self ← get;
  r ← lift (heater_reading self printer_obj);
  let reported_temp := reported_temp r in
  let ret := ret r in
  let last_temps := last_temps self key in
  let record (temp_data : gmap string (list Z)) (rapid : bool)
      : Method.t t temps_locals :=
    modify (λ self, set_last_received_temps
                      (<[key := reported_temp]> (last_received_temps self))
                      self);;
    modify (upd_cache (λ c,
      ReportCache.set_temps (<[key := ret]> (ReportCache.temps c)) c));;
    mret {| need_rapid_update := rapid; temp_data := temp_data |} in
  if ret.2 =? last_temps.2 then
    let seeking_target := seeking self ret in
    let rapid := need_rapid_update loc || seeking_target in
    (* The target hasn't changed and not heating, debounce temp *)
    if debounce self key reported_temp seeking_target then
      modify (λ self, set_last_received_temps
                        (delete key (last_received_temps self)) self);;
      mret {| need_rapid_update := rapid; temp_data := temp_data loc |}
    else if ret.1 =? last_temps.1 then
      modify (λ self, set_last_received_temps
                        (<[key := reported_temp]> (last_received_temps self))
                        self);;
      mret {| need_rapid_update := rapid; temp_data := temp_data loc |}
    else record (<[key := [ret.1]]> (temp_data loc)) rapid
  else
    (* target has changed, send full data *)
    record (<[key := [ret.1; ret.2]]> (temp_data loc)) (need_rapid_update loc).

Fixpoint update_heaters (items : list (string * string)) (loc : temps_locals)
    : Method.t t temps_locals :=
  match items with
  | [] => mret loc
  | (printer_obj, key) :: rest =>
      loc ← update_heater printer_obj key loc;
      update_heaters rest loc
  end.

Definition _update_temps (eventtime : float) : Method.t t unit :=
  self ← get;
  if PrimFloat.ltb eventtime (next_temp_update_time self) then mret tt
  else
    loc ← update_heaters (heaters self)
            {| need_rapid_update := false; temp_data := ∅ |};
    (if need_rapid_update loc then
       secs ← interval "temps_target";
       if PrimFloat.ltb secs 0.2501%float
       then modify (set_next_temp_update_time 0%float)
       else
         secs ← interval "temps_target";
         modify (set_next_temp_update_time (PrimFloat.add eventtime secs))
     else
       secs ← interval "temps";
       modify (set_next_temp_update_time (PrimFloat.add eventtime secs)));;
    if bool_decide (temp_data loc = ∅) then mret tt
    else
      self ← get;
      if is_set_up self then
        _send_sp "temps" (temp_data_payload (temp_data loc));; mret tt
      else mret tt.

(** *** Running a coroutine

    While a coroutine is suspended the event loop runs other handlers;
    [World] says what the awaited request answers and what state the
    coroutine finds when it is resumed. *)
Record World := {
  klippy : klippy_call → t → option string * t;
  asleep : float → t → t;
}.

Fixpoint run_coro {A} (w : World) (c : coro t A) (self : t) : result A * t :=
  match c with
  | Done a => (Ok a, self)
  | AwaitKlippy call k =>
      let '(ret, self) := klippy w call self in
      match k ret self with
      | (Ok c, self) => run_coro w c self
      | (Raise e, self) => (Raise e, self)
      end
  | AwaitSleep secs k =>
      match k (asleep w secs self) with
      | (Ok c, self) => run_coro w c self
      | (Raise e, self) => (Raise e, self)
      end
  end.

(** A task from its start to its end. *)
Definition run_task {A} (w : World) (start : Method.t t (coro t A))
    : Method.t t A :=
  λ self, match start self with
          | (Ok c, self) => run_coro w c self
          | (Raise e, self) => (Raise e, self)
          end.

(** The frames handed to the live socket so far. *)
Definition sent (self : t) : list packet :=
  match ws self with
  | Some written => written
  | None => []
  end.

(** *** Demands in the words of the specification

    Which cached state permits which action, and the machine-control
    request that belongs to an action. *)
Definition permits (action cur_state : string) : bool :=
  if String.eqb action "pause" then String.eqb cur_state "printing"
  else if String.eqb action "resume" then String.eqb cur_state "paused"
  else if String.eqb action "cancel" then
    String.eqb cur_state "printing" || String.eqb cur_state "paused"
  else false.

Definition call_of (action : string) : klippy_call :=
  if String.eqb action "pause" then pause_print
  else if String.eqb action "resume" then resume_print
  else cancel_print.

(** *** Frames of the wire protocol *)

(** An inbound frame [{"type": event, "data": data}]. *)
Definition frame (event : string) (data : pyval) : pyval :=
  PDict (<["type" := PStr event]> {["data" := data]}).

(** A value that [val / 1000.] accepts. *)
Definition milliseconds (val : pyval) : bool :=
  match Val.div_float val 1000%float with
  | Ok _ => true
  | Raise _ => false
  end.

(** The data of a [connected] frame as the protocol has it: absent, or an
    object whose [interval], when it is an object, holds milliseconds. *)
Definition connected_data (data : pyval) : bool :=
  match data with
  | PNone => true
  | PDict d =>
      match d !! "interval" with
      | Some (PDict interval) =>
          forallb (λ kv : string * pyval, milliseconds kv.2)
                  (map_to_list interval)
      | _ => true
      end
  | _ => false
  end.

(** *** Handlers of the job and machine events

    What a handler asks of its surroundings is an argument here:
    [kstate] is the answer of [server.get_klippy_state()] and [metadata]
    that of [fm.get_file_metadata(filename)]. *)

(** A method of the layer detector, run on [self.layer_detect]. *)
Definition on_layer_detect {A} (m : Method.t LayerDetect.t A)
    : Method.t t A :=
  λ self, let '(r, ld) := m (layer_detect self) in
          (r, set_layer_detect ld self).

(** [new_extruder[8:]]. *)
Definition from_8 (s : string) : string :=
  String.substring 8 (String.length s - 8) s.

Definition _send_active_extruder (new_extruder : string)
    : Method.t t unit :=
  let tool := if String.eqb new_extruder "extruder" then "T0"
              else String.append "T" (from_8 new_extruder) in
  self ← get;
  if String.eqb tool (ReportCache.active_extruder (cache self)) then mret tt
  else
    modify (upd_cache (ReportCache.set_active_extruder tool));;
    _send_sp "tool" (new_payload (PStr tool));;
    mret tt.

Definition _send_mesh_data : Method.t t unit :=
  self ← get;
  match printer_status self !! "bed_mesh" with
  | None => raise (KeyError "bed_mesh")
  | Some mesh =>
      (* TODO: We are probably going to have to reformat the mesh *)
      modify (upd_cache (ReportCache.set_mesh mesh));;
      _send_sp "mesh_data" (PDict mesh);;
      mret tt
  end.

Definition _on_ambient_changed (new_ambient : Z) : Method.t t unit :=
  _save_item "ambient_temp" (PInt new_ambient);;
  _send_sp "ambient" (new_payload (PInt new_ambient));;
  mret tt.

Definition _update_state_from_klippy (kstate : string) : Method.t t unit :=
  let sp_state :=
    if String.eqb kstate "ready" then "operational"
    else if existsb (String.eqb kstate) ["error"; "shutdown"] then "error"
    else "offline" in
  _update_state sp_state.

Definition _on_klippy_shutdown : Method.t t unit :=
  _send_sp "printer_error" PNone;; mret tt.

Definition _on_print_start (new_stats : gmap string pyval)
    (metadata : Metadata) (need_start_event : bool) : Method.t t unit :=
  (* inlcludes started and resumed events *)
  _update_state "printing";;
  filename ← match new_stats !! "filename" with
             | Some v => mret v
             | None => raise (KeyError "filename")
             end;
  let job_info : gmap string pyval := {["filename" := filename]} in
  job_info ← match filament_total metadata with
             | Some filament =>
                 n ← lift (Py.round filament);
                 mret (<["filament" := PInt n]> job_info)
             | None => mret job_info
             end;
  let job_info := match estimated_time metadata with
                  | Some est_time => <["time" := PFloat est_time]> job_info
                  | None => job_info
                  end in
  modify (upd_cache (ReportCache.set_metadata metadata));;
  modify (upd_cache (λ c,
    ReportCache.set_job_info (job_info ∪ ReportCache.job_info c) c));;
  let job_info := if need_start_event
                  then <["started" := PBool true]> job_info
                  else job_info in
  on_layer_detect (LayerDetect.start metadata);;
  _send_job_event job_info.

Definition _on_print_paused : Method.t t unit :=
  _send_sp "job_info" (PDict {["paused" := PBool true]});;
  _update_state "paused";;
  on_layer_detect LayerDetect.stop.

Definition _on_print_resumed : Method.t t unit :=
  _update_state "printing";;
  on_layer_detect LayerDetect.resume.

Definition _on_print_cancelled (kstate : string) : Method.t t unit :=
  _send_job_event {["cancelled" := PBool true]};;
  _update_state_from_klippy kstate;;
  modify (upd_cache (ReportCache.set_job_info ∅));;
  on_layer_detect LayerDetect.stop.

Definition _on_print_error (kstate : string) : Method.t t unit :=
  _send_job_event {["failed" := PBool true]};;
  _update_state_from_klippy kstate;;
  modify (upd_cache (ReportCache.set_job_info ∅));;
  on_layer_detect LayerDetect.stop.

Definition _on_print_complete (kstate : string) : Method.t t unit :=
  _send_job_event {["finished" := PBool true]};;
  _update_state_from_klippy kstate;;
  modify (upd_cache (ReportCache.set_job_info ∅));;
  on_layer_detect LayerDetect.stop.

Definition _on_print_standby (kstate : string) : Method.t t unit :=
  _update_state_from_klippy kstate;;
  modify (upd_cache (ReportCache.set_job_info ∅));;
  on_layer_detect LayerDetect.stop.

Definition _do_keepalive : Method.t t unit :=
  modify (set_keepalive_hdl None);;
  _send_sp "keepalive" PNone;;
  mret tt.

End SimplyPrint.

(** ** The component with its timers

    [AmbientDetect] shares the cache with [SimplyPrint] and calls back
    into it, and the connection handlers schedule the reconnect; so the
    sampling timer and these handlers are methods on one state: the
    attributes above in [sp], the attributes of [AmbientDetect] besides
    its estimate, whether the two timers run, and the handle of the
    pending reconnect. What the code keeps for its log messages only
    ([_last_pong], [last_err_log_time]) is left out. *)

(** A handle of [eventloop.delay_callback]: the delay it was scheduled
    with, and whether [cancel()] was called on it. *)
Record handle := {
  hdl_delay : float;
  hdl_cancelled : bool;
}.

Module Component.
Import Method.

Record t := {
  sp : SimplyPrint.t;
  _initial_sample : Z;
  _last_sample_time : float;
  _update_interval : float;
  _detect_timer : bool;
  printer_info_timer : bool;
  reconnect_hdl : option handle;
}.

Definition set_sp (v : SimplyPrint.t) (self : t) : t :=
  {| sp := v; _initial_sample := _initial_sample self;
     _last_sample_time := _last_sample_time self;
     _update_interval := _update_interval self;
     _detect_timer := _detect_timer self;
     printer_info_timer := printer_info_timer self;
     reconnect_hdl := reconnect_hdl self |}.
Definition set_initial_sample (v : Z) (self : t) : t :=
  {| sp := sp self; _initial_sample := v;
     _last_sample_time := _last_sample_time self;
     _update_interval := _update_interval self;
     _detect_timer := _detect_timer self;
     printer_info_timer := printer_info_timer self;
     reconnect_hdl := reconnect_hdl self |}.
Definition set_last_sample_time (v : float) (self : t) : t :=
  {| sp := sp self; _initial_sample := _initial_sample self;
     _last_sample_time := v; _update_interval := _update_interval self;
     _detect_timer := _detect_timer self;
     printer_info_timer := printer_info_timer self;
     reconnect_hdl := reconnect_hdl self |}.
Definition set_update_interval (v : float) (self : t) : t :=
  {| sp := sp self; _initial_sample := _initial_sample self;
     _last_sample_time := _last_sample_time self; _update_interval := v;
     _detect_timer := _detect_timer self;
     printer_info_timer := printer_info_timer self;
     reconnect_hdl := reconnect_hdl self |}.
Definition set_detect_timer (v : bool) (self : t) : t :=
  {| sp := sp self; _initial_sample := _initial_sample self;
     _last_sample_time := _last_sample_time self;
     _update_interval := _update_interval self; _detect_timer := v;
     printer_info_timer := printer_info_timer self;
     reconnect_hdl := reconnect_hdl self |}.
Definition set_printer_info_timer (v : bool) (self : t) : t :=
  {| sp := sp self; _initial_sample := _initial_sample self;
     _last_sample_time := _last_sample_time self;
     _update_interval := _update_interval self;
     _detect_timer := _detect_timer self; printer_info_timer := v;
     reconnect_hdl := reconnect_hdl self |}.
Definition set_reconnect_hdl (v : option handle) (self : t) : t :=
  {| sp := sp self; _initial_sample := _initial_sample self;
     _last_sample_time := _last_sample_time self;
     _update_interval := _update_interval self;
     _detect_timer := _detect_timer self;
     printer_info_timer := printer_info_timer self; reconnect_hdl := v |}.

(** A method of [SimplyPrint] as above, run on [sp]. *)
Definition on_sp {A} (m : Method.t SimplyPrint.t A) : Method.t t A :=
  λ self, let '(r, s) := m (sp self) in (r, set_sp s self).

Definition AMBIENT_CHECK_TIME : float := PrimFloat.mul 5%float 60%float.
Definition TARGET_CHECK_TIME : float := PrimFloat.mul 60%float 60%float.
Definition SAMPLE_CHECK_TIME : float := 20%float.

(** [AmbientDetect.__init__] and the rest of [SimplyPrint.__init__]. *)
Definition __init__ (the_host : Host) (sp_test : bool)
    (connect_url : option string) (database : gmap string pyval) : t :=
  {| sp := SimplyPrint.__init__ the_host sp_test connect_url database;
     _initial_sample := -1000;
     _last_sample_time := 0%float;
     _update_interval := AMBIENT_CHECK_TIME;
     _detect_timer := false;
     printer_info_timer := false;
     reconnect_hdl := None |}.

End Component.

(** ** class AmbientDetect: the sampling timer *)

Module Ambient.
Import Method SimplyPrint Component.

(** The int 5, as the float it is in [eventtime + self.CHECK_INTERVAL]. *)
Definition CHECK_INTERVAL : float := 5%float.

(** [self._ambient = v]. *)
Definition set_ambient (v : Z) : Method.t Component.t unit :=
  on_sp (modify (set_amb_detect {| AmbientDetect._ambient := v |})).

Definition _handle_detect_timer (eventtime : float)
    : Method.t Component.t float :=
  self ← get;
  let next := PrimFloat.add eventtime CHECK_INTERVAL in
  match ReportCache.temps (cache (sp self)) !! "tool0" with
  | None =>
      modify (set_initial_sample (-1000));;
      mret next
  | Some (temp, target) =>
      if negb (target =? 0) then
        modify (set_initial_sample (-1000));;
        modify (set_last_sample_time eventtime);;
        modify (set_update_interval TARGET_CHECK_TIME);;
        mret next
      else if PrimFloat.ltb
                (PrimFloat.sub eventtime (_last_sample_time self))
                (_update_interval self)
      then mret next
      else
        (if _initial_sample self =? -1000 then
           modify (set_initial_sample temp);;
           modify (set_update_interval SAMPLE_CHECK_TIME)
         else
           let diff := Z.abs (temp - _initial_sample self) in
           if diff <=? 2 then
             let last_ambient := AmbientDetect.ambient (amb_detect (sp self)) in
             avg ← lift (Py.half (temp + _initial_sample self));
             new_ambient ← lift (Py.int (PrimFloat.add avg 0.5%float));
             set_ambient new_ambient;;
             modify (set_initial_sample (-1000));;
             modify (set_last_sample_time eventtime);;
             modify (set_update_interval AMBIENT_CHECK_TIME);;
             if negb (last_ambient =? new_ambient)
             then on_sp (_on_ambient_changed new_ambient)
             else mret tt
           else
             modify (set_initial_sample temp);;
             modify (set_update_interval SAMPLE_CHECK_TIME));;
        mret next
  end.

Definition start : Method.t Component.t unit :=
  self ← get;
  if _detect_timer self then mret tt
  else
    match ReportCache.temps (cache (sp self)) !! "tool0" with
    | Some (cur_temp, _) =>
        if cur_temp <? AmbientDetect.ambient (amb_detect (sp self)) then
          set_ambient cur_temp;;
          on_sp (_on_ambient_changed cur_temp)
        else mret tt
    | None => mret tt
    end;;
    modify (set_detect_timer true).

Definition stop : Method.t Component.t unit :=
  modify (set_detect_timer false).

End Ambient.

(** ** class SimplyPrint: the handlers that reach the timers *)

Module Handlers.
Import Method SimplyPrint Component.

(** What tornado hands to [_on_ws_message]: a text frame, with the
    outcome of [json.loads] on it, a binary frame, or [None] when the
    socket has closed. *)
Inductive message :=
| Text (loaded : option pyval)
| Binary
| Closed.

Definition _on_ws_message (message : message) : Method.t Component.t unit :=
  match message with
  | Text loaded => on_sp (_process_message loaded)
  | Binary => mret tt
  | Closed =>
      self ← get;
      if is_closing (sp self) then mret tt
      else
        on_sp (modify (set_connected false));;
        on_sp (modify (set_ws None));;
        (if reconnect_hdl self is None then
           modify (set_reconnect_hdl
                     (Some {| hdl_delay := reconnect_delay (sp self);
                              hdl_cancelled := false |}))
         else mret tt);;
        if keepalive_hdl (sp self) is Some _ then
          on_sp (modify (set_keepalive_hdl None))
        else mret tt
  end.

Definition _on_klippy_disconnected : Method.t Component.t unit :=
  on_sp (_update_state "offline");;
  on_sp (_send_sp "connection" (new_payload (PStr "disconnected")));;
  Ambient.stop;;
  modify (set_printer_info_timer false);;
  on_sp (modify (upd_cache ReportCache.reset_print_state));;
  on_sp (modify (set_printer_status ∅)).

(** [close()] up to its [await], answering the rest of the coroutine,
    which runs once the write has completed. The listener of the log
    queue and the closing handshake of the socket are left out. *)
Definition close : Method.t Component.t (Method.t Component.t unit) :=
  on_sp (_send_sp "shutdown" PNone);;
  mret (
    Ambient.stop;;
    modify (set_printer_info_timer false);;
    on_sp (modify (set_is_closing true));;
    self ← get;
    (if reconnect_hdl self is Some hdl then
       (* TODO, would be good to cancel the reconnect task as well *)
       modify (set_reconnect_hdl
                 (Some {| hdl_delay := hdl_delay hdl;
                          hdl_cancelled := true |}))
     else mret tt);;
    if keepalive_hdl (sp self) is Some _ then
      on_sp (modify (set_keepalive_hdl None))
    else mret tt).

End Handlers.

(** * Part II: scenarios and predicates of the properties *)

(** A method leaves an observation of the state alone, whatever it
    returns or raises. *)
Definition preserves {S A X} (f : S → X) (m : Method.t S A) : Prop :=
  ∀ self, f (m self).2 = f self.

(** ** Frames, footprints and invariants *)

Module Statement.
Import SimplyPrint.

Definition state_change (s : string) : packet :=
  {| evt_name := "state_change"; data := new_payload (PStr s) |}.

(** The entry that [_send_job_event job_info] queues. *)
Definition queued (job_info : gmap string pyval) (self : SimplyPrint.t)
    : gmap string pyval :=
  <["delay" := PFloat (loop_time (host self))]>
    (ReportCache.job_info (cache self) ∪ job_info).

Definition temps_frame (temp_data : gmap string (list Z)) : packet :=
  {| evt_name := "temps"; data := temp_data_payload temp_data |}.

Definition job_info_frame (job_info : gmap string pyval) : packet :=
  {| evt_name := "job_info"; data := PDict job_info |}.

(** [self1] is [self] but for the last received temperatures and the
    cached temperatures. *)
Definition touches_temps_only (self self1 : SimplyPrint.t) : Prop :=
  ∃ lr ct, self1 = set_last_received_temps lr
                     (upd_cache (ReportCache.set_temps ct) self).

(** What a stretch of the loop that does not meet [key] leaves alone. *)
Definition keeps (key : string) (loc : temps_locals) (self : SimplyPrint.t)
    (res : result temps_locals * SimplyPrint.t) : Prop :=
  touches_temps_only self res.2 ∧
  ReportCache.temps (cache res.2) !! key
    = ReportCache.temps (cache self) !! key ∧
  last_received_temps res.2 !! key = last_received_temps self !! key ∧
  ∀ loc1, res.1 = Ok loc1 → temp_data loc1 !! key = temp_data loc !! key.

(** The turn of the heater [printer_obj], which reports under [key], is a
    debounce suppression in the state [self]: its readings are numbers
    [r], the rounded target is the cached one, it is not seeking, and the
    reading is within 0.75 of the last received one. *)
Definition suppressed (self : SimplyPrint.t) (printer_obj key : string)
    (r : reading) : Prop :=
  heater_reading self printer_obj = Ok r ∧
  (ret r).2 = (last_temps self key).2 ∧
  seeking self (ret r) = false ∧
  ∃ last_reported,
    last_received_temps self !! key = Some last_reported ∧
    PrimFloat.ltb (PrimFloat.abs (PrimFloat.sub (reported_temp r)
                                                last_reported))
                  0.75%float = true.

(** The outcome of a turn that went by the integer comparisons with the
    cached pair: the reading is recorded as the last received one; when
    both rounded values are the cached ones, the cache entry and the
    collected data are as before; otherwise the cache entry is the new
    pair and the collected data hold the temperature, with the target
    when the target changed. *)
Definition compared (self : SimplyPrint.t) (key : string) (r : reading)
    (loc : temps_locals) (res : result temps_locals * SimplyPrint.t)
    : Prop :=
  ∀ loc1, res.1 = Ok loc1 →
    last_received_temps res.2 !! key = Some (reported_temp r) ∧
    if ((ret r).2 =? (last_temps self key).2)
       && ((ret r).1 =? (last_temps self key).1)
    then ReportCache.temps (cache res.2) !! key
           = ReportCache.temps (cache self) !! key ∧
         temp_data loc1 !! key = temp_data loc !! key
    else ReportCache.temps (cache res.2) !! key = Some (ret r) ∧
         temp_data loc1 !! key =
           Some (if (ret r).2 =? (last_temps self key).2
                 then [(ret r).1] else [(ret r).1; (ret r).2]).

(** The calls that the event loop makes into the component, as far as
    they are part of this development. *)
Inductive entry :=
| OnMessage (loaded : option pyval)
| OnJobEvent (job_info : gmap string pyval)
| OnState (new_state : string)
| OnTemps (eventtime : float)
| OnInfoTimer (eventtime : float)
| OnPauseRequested
| OnResumeRequested
| OnCancelRequested.

Definition call (e : entry) : Method.t SimplyPrint.t unit :=
  match e with
  | OnMessage loaded => _process_message loaded
  | OnJobEvent job_info => _send_job_event job_info
  | OnState new_state => _update_state new_state
  | OnTemps eventtime => _update_temps eventtime
  | OnInfoTimer eventtime =>
      _handle_printer_info_update eventtime;; mret tt
  | OnPauseRequested => _on_pause_requested
  | OnResumeRequested => _on_resume_requested
  | OnCancelRequested => _on_cancel_requested
  end.

(** The object after a sequence of calls; a call that raises leaves the
    object as it was when it raised, and the next call finds it so. *)
Definition after_calls (es : list entry) (self : SimplyPrint.t) : SimplyPrint.t :=
  foldl (λ self e, (call e self).2) self es.

Definition bounded (self : SimplyPrint.t) : Prop :=
  (length (missed_job_events self) ≤ 10)%nat.

Definition keeps_bounded {A} (m : Method.t SimplyPrint.t A) : Prop :=
  ∀ self, bounded self → bounded (m self).2.

End Statement.

(** ** Concrete sessions and frames *)

(** *** The layer detector on the Z sequence 0, 0.2, 0.2, 0.4 *)

Module LayerScenario.
Import LayerDetect.

(** Layer height 0.2 and first-layer height 0.2, nothing else known. *)
Definition metadata : Metadata :=
  {| filament_total := None; estimated_time := None;
     layer_height := Some 0.2%float; first_layer_height := Some 0.2%float;
     layer_count := None; object_height := None |}.

(** The detector as [start(metadata)] leaves a fresh one. *)
Definition started : LayerDetect.t :=
  Method.exec (start metadata) __init__.

(** A [gcode_position]: X, Y, Z, E. *)
Definition at_z (z : float) : list float := [0%float; 0%float; z; 0%float].

Definition after (zs : list float) : LayerDetect.t :=
  Method.exec (Method.for_each zs (λ z, update (at_z z))) started.

End LayerScenario.

Module Scenario.
Import SimplyPrint Statement.

(** A session with a live socket on which nothing was written yet, the
    cached state still [offline]. *)
Definition online : SimplyPrint.t :=
  set_ws (Some []) (set_connected true
    (__init__ {| loop_time := 0%float; klippy_connected := true;
                 print_duration := 0%float |} true None ∅)).

(** A component as [__init__] leaves it on a host with nothing
    persisted. *)
Definition fresh : SimplyPrint.t :=
  __init__ {| loop_time := 0%float; klippy_connected := true;
              print_duration := 0%float |} true None ∅.

(** [{"type": "set_up", "data": {"id": "1234", "name": "Voron"}}]. *)
Definition set_up_frame : pyval :=
  frame "set_up" (PDict (<["id" := PStr "1234"]> {["name" := PStr "Voron"]})).

(** [{"type": "connected", "data": {"interval": {"job": 5000}}}]. *)
Definition connected_frame : pyval :=
  frame "connected" (PDict {["interval" := PDict {["job" := PInt 5000]}]}).

(** [{"type": "error", "data": null}]. *)
Definition error_frame : pyval := frame "error" PNone.

(** A connected session whose cached state is [s]. *)
Definition session (s : string) : SimplyPrint.t :=
  upd_cache (ReportCache.set_state s) online.

(** A machine whose [pause_print] fires the [pause_requested] event and
    then fails, answering [None]; nothing happens during a sleep. *)
Definition failing_pause : World :=
  {| klippy := λ call self,
       match call with
       | pause_print => (None, Method.exec _on_pause_requested self)
       | _ => (Some "ok", self)
       end;
     asleep := λ _ self, self |}.

(** [n] job events, told apart by their [progress], sent one after the
    other. *)
Definition numbered (n : nat) : list (gmap string pyval) :=
  (λ i : nat, {["progress" := PInt (Z.of_nat i)]}) <$> seq 0 n.

Definition enqueue_all (events : list (gmap string pyval))
    : Method.t SimplyPrint.t unit :=
  Method.for_each events _send_job_event.

(** [{"temperature": temperature, "target": target}]. *)
Definition heater_status (temperature target : float) : gmap string pyval :=
  <["temperature" := PFloat temperature]> {["target" := PFloat target]}.

(** A connected, set-up session with a hot end and a bed. The hot end is
    idle at a cached 25 degrees and was last received at 25.0; the bed is
    held at its target of 60. *)
Definition printer (status : gmap string (gmap string pyval))
    : SimplyPrint.t :=
  set_heaters [("extruder", "tool0"); ("heater_bed", "bed")]
    (set_printer_status status
       (set_last_received_temps
          (<["tool0" := 25%float]> {["bed" := 60%float]})
          (upd_cache
             (ReportCache.set_temps
                (<["tool0" := (25, 0)]> {["bed" := (60, 60)]}))
             (set_is_set_up true online)))).

(** The hot end drifts by 0.5 to 25.5; the bed reads 61.4. *)
Definition first_poll : gmap string (gmap string pyval) :=
  <["extruder" := heater_status 25.5%float 0%float]>
    {["heater_bed" := heater_status 61.4%float 60%float]}.

(** The hot end drifts on to 25.7. *)
Definition second_poll : gmap string (gmap string pyval) :=
  <["extruder" := heater_status 25.7%float 0%float]>
    {["heater_bed" := heater_status 61.4%float 60%float]}.

(** A connected session 1234.56 s into a print estimated at an hour, at
    layer 5 and 34.56 percent; the job start has cached the estimate. *)
Definition printing_job : SimplyPrint.t :=
  set_layer_detect (LayerDetect.set_layer 5 LayerDetect.__init__)
    (set_printer_status
       {["display_status" := {["progress" := PFloat 0.3456%float]}]}
       (upd_cache
          (λ c, ReportCache.set_job_info
                  (<["filename" := PStr "benchy.gcode"]>
                     {["time" := PFloat 3600%float]})
                  (ReportCache.set_metadata
                     {| filament_total := None;
                        estimated_time := Some 3600%float;
                        layer_height := Some 0.2%float;
                        first_layer_height := Some 0.2%float;
                        layer_count := None; object_height := None |}
                     (ReportCache.set_state "printing" c)))
          (set_host {| loop_time := 0%float; klippy_connected := true;
                       print_duration := 1234.56%float |}
             online))).

(** What the first tick of [printing_job] reports. *)
Definition first_tick_info : gmap string pyval :=
  <["time" := PInt 2365]> (<["progress" := PInt 35]> {["layer" := PInt 5]}).

End Scenario.

(** *** The layer detector under any sequence of calls *)

Module LayerRun.
Import LayerDetect.

(** The calls that [SimplyPrint] makes into a started detector. *)
Inductive op :=
| Update (new_pos : list float)
| Stop
| Resume.

Definition step (o : op) : Method.t LayerDetect.t unit :=
  match o with
  | Update new_pos => update new_pos
  | Stop => stop
  | Resume => resume
  end.

(** The detector after the calls; one that raises leaves the detector as
    it was when it raised. *)
Definition run (ops : list op) (self : LayerDetect.t) : LayerDetect.t :=
  foldl (λ self o, Method.exec (step o) self) self ops.

(** Layer height 0.2, first layer 0.3, 50 layers: the detector at
    layer 3, Z 0.7. *)
Definition at_layer_3 : LayerDetect.t :=
  set_layer_z 0.7%float (set_layer 3
    (Method.exec
       (start {| filament_total := None; estimated_time := None;
                 layer_height := Some 0.2%float;
                 first_layer_height := Some 0.3%float;
                 layer_count := Some 50; object_height := None |})
       __init__)).

(** A detector started on a file whose layer height is 0, with a change
    of Z noted. *)
Definition zero_height : LayerDetect.t :=
  set_check_next true
    (Method.exec
       (start {| filament_total := None; estimated_time := None;
                 layer_height := Some 0%float;
                 first_layer_height := Some 0.2%float;
                 layer_count := Some 50; object_height := None |})
       __init__).

End LayerRun.

(** *** Inbound frames *)

Module Inbound.
Import SimplyPrint.

(** The values of [type] that [_process_message] has a branch for. *)
Definition known_events : list string :=
  ["connected"; "error"; "new_token"; "set_up"; "demand"; "interval_change"].

(** [isinstance(v, dict)] and [isinstance(v, str)], as propositions. *)
Definition is_dict (v : pyval) : Prop :=
  match v with PDict _ => True | _ => False end.
Definition is_str (v : pyval) : Prop :=
  match v with PStr _ => True | _ => False end.

(** The object as a frame leaves it when all it did was to restart the
    keepalive timer. *)
Definition only_keepalive (self : SimplyPrint.t) : SimplyPrint.t :=
  set_keepalive_hdl (Some KEEPALIVE_TIME) self.

(** [val / 1000.] where it is a number. *)
Definition seconds (val : pyval) : option float :=
  match Val.div_float val 1000%float with
  | Ok secs => Some secs
  | Raise _ => None
  end.

(** A [demand] frame: [{"type": "demand", "data": {"demand": demand, **args}}]. *)
Definition demand_frame (demand : string) (args : gmap string pyval)
    : pyval :=
  frame "demand" (PDict (<["demand" := PStr demand]> args)).

End Inbound.

(** *** Heaters in an evaluation of the temperatures *)

Module Heating.
Import SimplyPrint.

(** The status of the heater of an item of [self.heaters] holds a
    temperature and a target that are numbers. *)
Definition readable (self : SimplyPrint.t) (item : string * string) : Prop :=
  ∃ r, heater_reading self item.1 = Ok r.

(** The heater's rounded target is the cached one and the heater is
    seeking it: the turn that asks for the rapid update. *)
Definition seeks_target (self : SimplyPrint.t) (item : string * string)
    : bool :=
  match heater_reading self item.1 with
  | Ok r => ((ret r).2 =? (last_temps self item.2).2) && seeking self (ret r)
  | Raise _ => false
  end.

(** The set-up, connected printer of [Scenario.printer] whose hot end is
    given the target 210 while it reads 25.5. *)
Definition heating_up : SimplyPrint.t :=
  Scenario.printer
    (<["extruder" := Scenario.heater_status 25.5%float 210%float]>
       {["heater_bed" := Scenario.heater_status 60%float 60%float]}).

(** The same printer before its session is set up. *)
Definition not_set_up : SimplyPrint.t := set_is_set_up false heating_up.

End Heating.

(** *** The push after a connection *)

Module Replay.
Import SimplyPrint Statement.

(** A queued event as it is replayed at [curtime]: its [delay], the time
    it was queued at, becomes the whole seconds it waited. *)
Definition replayed (curtime : float) (evt : gmap string pyval)
    : option (gmap string pyval) :=
  match evt !! "delay" with
  | Some v =>
      match Val.to_float v with
      | Ok queued =>
          match Py.int (PrimFloat.add (PrimFloat.sub curtime queued)
                                      0.5%float) with
          | Ok delay => Some (<["delay" := PInt delay]> evt)
          | Raise _ => None
          end
      | Raise _ => None
      end
  | None => None
  end.

(** The frames of [_push_initial_state], in the order they are written;
    [events] are the replayed events. *)
Definition initial_frames (self : SimplyPrint.t)
    (events : list (gmap string pyval)) : list packet :=
  let c := cache self in
  [state_change (ReportCache.state c)]
  ++ (if negb (bool_decide (ReportCache.temps c = ∅)) && is_set_up self
      then [{| evt_name := "temps";
               data := temps_payload (ReportCache.temps c) |}]
      else [])
  ++ (if negb (bool_decide (dom (ReportCache.firmware_info c) = ∅))
      then [{| evt_name := "firmware";
               data := PDict (<["fw" := PDict (ReportCache.firmware_info c)]>
                              {["raw" := PBool false]}) |}]
      else [])
  ++ (job_info_frame <$> events)
  ++ (if negb (String.eqb (ReportCache.active_extruder c) "")
      then [{| evt_name := "tool";
               data := new_payload (PStr (ReportCache.active_extruder c)) |}]
      else [])
  ++ (if negb (bool_decide (dom (ReportCache.cpu_info c) = ∅))
      then [{| evt_name := "cpu_info";
               data := PDict (ReportCache.cpu_info c) |}]
      else [])
  ++ [{| evt_name := "ambient";
         data := new_payload
                   (PInt (AmbientDetect.ambient (amb_detect self))) |}].

(** A fresh component on a socket that has just opened, 12.3 s after a
    finished job was queued at time 100 and a cancelled one at 95.2. *)
Definition reconnected : SimplyPrint.t :=
  set_missed_job_events
    [ <["cancelled" := PBool true]> {["delay" := PFloat 95.2%float]};
      <["finished" := PBool true]> {["delay" := PFloat 100%float]} ]
    (set_host {| loop_time := 112.3%float; klippy_connected := true;
                 print_duration := 0%float |}
       Scenario.online).

End Replay.

(** *** The end of a job *)

Module JobEnd.
Import SimplyPrint.

(** The three job events that end a print with a flag. *)
Inductive job_end :=
| Cancelled
| Failed
| Finished.

Definition handler (e : job_end) (kstate : string)
    : Method.t SimplyPrint.t unit :=
  match e with
  | Cancelled => _on_print_cancelled kstate
  | Failed => _on_print_error kstate
  | Finished => _on_print_complete kstate
  end.

(** The key that the event of the handler carries. *)
Definition flag (e : job_end) : string :=
  match e with
  | Cancelled => "cancelled"
  | Failed => "failed"
  | Finished => "finished"
  end.

(** The state reported for the answer [kstate] of
    [server.get_klippy_state()]. *)
Definition reported_state (kstate : string) : string :=
  if String.eqb kstate "ready" then "operational"
  else if existsb (String.eqb kstate) ["error"; "shutdown"] then "error"
  else "offline".

(** A connected session printing [benchy.gcode] at layer 5, as
    [Scenario.printing_job], and the same session after the socket
    was lost. *)
Definition printing : SimplyPrint.t := Scenario.printing_job.
Definition printing_offline : SimplyPrint.t :=
  set_ws None (set_connected false Scenario.printing_job).

End JobEnd.

(** *** The start of a job *)

Module JobStart.
Import SimplyPrint.

(** The job info that [_on_print_start] caches for a file: its name, the
    filament rounded to an int and the estimated time, as far as the
    metadata has them; [None] when the rounding raises. *)
Definition start_info (filename : pyval) (metadata : Metadata)
    : option (gmap string pyval) :=
  let job_info : gmap string pyval := {["filename" := filename]} in
  job_info ← match filament_total metadata with
             | Some filament =>
                 match Py.round filament with
                 | Ok n => Some (<["filament" := PInt n]> job_info)
                 | Raise _ => None
                 end
             | None => Some job_info
             end;
  Some match estimated_time metadata with
       | Some est_time => <["time" := PFloat est_time]> job_info
       | None => job_info
       end.

(** [{"filename": "benchy.gcode", "print_duration": 0.}]. *)
Definition benchy_stats : gmap string pyval :=
  <["filename" := PStr "benchy.gcode"]> {["print_duration" := PFloat 0%float]}.

(** Metadata of a sliced file: 1234.5 mm of filament, an hour, layers of
    0.2 on a first layer of 0.3, 50 layers. *)
Definition benchy : Metadata :=
  {| filament_total := Some 1234.5%float;
     estimated_time := Some 3600%float;
     layer_height := Some 0.2%float;
     first_layer_height := Some 0.3%float;
     layer_count := Some 50; object_height := Some 10.1%float |}.

(** Metadata whose layer height is 0 and that gives the height of the
    object but no layer count. *)
Definition flat : Metadata :=
  {| filament_total := None; estimated_time := None;
     layer_height := Some 0%float; first_layer_height := None;
     layer_count := None; object_height := Some 10%float |}.

End JobStart.

(** *** The component with its timers *)

Module Lifetime.
Import SimplyPrint Component.

(** Calls of the ambient timer handler at the given times, one after the
    other. *)
Definition ticks (times : list float) : Method.t Component.t unit :=
  Method.for_each times (λ eventtime,
    Ambient._handle_detect_timer eventtime;; mret tt).

(** The hot end has a target, or no hot end is cached. *)
Definition not_idle (self : Component.t) : Prop :=
  match ReportCache.temps (cache (sp self)) !! "tool0" with
  | Some (_, target) => target ≠ 0
  | None => True
  end.

(** [int(x / 2 + .5)] is the quotient of [x + 1] by 2, rounded toward
    zero. *)
Definition average_is_quot (x : Z) : bool :=
  match Py.half x with
  | Ok avg =>
      match Py.int (PrimFloat.add avg 0.5%float) with
      | Ok n => n =? Z.quot (x + 1) 2
      | Raise _ => false
      end
  | Raise _ => false
  end.

(** The sums of two temperatures between -100 and 1000 that differ by at
    most 2. *)
Definition sums : list Z := (λ i : nat, Z.of_nat i - 202) <$> seq 0 2205.

(** A frame [{"type": "ambient", "data": {"new": v}}]. *)
Definition ambient_frame (v : Z) : packet :=
  {| evt_name := "ambient"; data := new_payload (PInt v) |}.

(** The component with the temperatures [temps] in its cache. *)
Definition with_temps (temps : gmap string (Z * Z)) (self : Component.t)
    : Component.t :=
  set_sp (upd_cache (ReportCache.set_temps temps) (sp self)) self.

(** A component on a connected session with a live socket. *)
Definition live : Component.t :=
  set_sp Scenario.online
    (Component.__init__ (host Scenario.fresh) true None ∅).

(** The hot end idle at 22 degrees, first sampled at 21 half a minute
    after the estimate of 85 was due. *)
Definition sampled : Component.t :=
  set_initial_sample 21
    (set_update_interval SAMPLE_CHECK_TIME
       (with_temps {["tool0" := (22, 0)]} live)).

(** The hot end at 205 degrees, held at 210. *)
Definition heating : Component.t :=
  with_temps {["tool0" := (205, 210)]} live.

(** The handlers of the component that this development covers, as the
    event loop calls them; [Closing] is [close()] with both its parts run
    back to back. *)
Inductive event :=
| Entry (e : Statement.entry)
| PrintStart (new_stats : gmap string pyval) (metadata : Metadata)
    (need_start_event : bool)
| PrintPaused
| PrintResumed
| PrintEnd (e : JobEnd.job_end) (kstate : string)
| PrintStandby (kstate : string)
| ActiveExtruder (new_extruder : string)
| MeshData
| KlippyShutdown
| Keepalive
| DetectTimer (eventtime : float)
| AmbientStart
| KlippyDisconnected
| WsMessage (message : Handlers.message)
| Closing.

Definition handle (ev : event) : Method.t Component.t unit :=
  match ev with
  | Entry e => on_sp (Statement.call e)
  | PrintStart new_stats metadata need_start_event =>
      on_sp (_on_print_start new_stats metadata need_start_event)
  | PrintPaused => on_sp _on_print_paused
  | PrintResumed => on_sp _on_print_resumed
  | PrintEnd e kstate => on_sp (JobEnd.handler e kstate)
  | PrintStandby kstate => on_sp (_on_print_standby kstate)
  | ActiveExtruder new_extruder => on_sp (_send_active_extruder new_extruder)
  | MeshData => on_sp _send_mesh_data
  | KlippyShutdown => on_sp _on_klippy_shutdown
  | Keepalive => on_sp _do_keepalive
  | DetectTimer eventtime => Ambient._handle_detect_timer eventtime;; mret tt
  | AmbientStart => Ambient.start
  | KlippyDisconnected => Handlers._on_klippy_disconnected
  | WsMessage message => Handlers._on_ws_message message
  | Closing => rest ← Handlers.close; rest
  end.

(** The component after a sequence of events; a handler that raises
    leaves the component as it was when it raised. *)
Definition after_events (evs : list event) (self : Component.t)
    : Component.t :=
  foldl (λ self ev, Method.exec (handle ev) self) self evs.

End Lifetime.

(** * Part III: properties *)

(** ** Proof support *)

Ltac method_unfold :=
  unfold mbind, method_bind, mret, method_ret, result_mbind, result_ret,
    result_bind, Method.bind, Method.ret, Method.get, Method.gets,
    Method.modify, Method.lift, Method.raise, Method.exec, Method.eval in *.

Section preserves.
Context {S X : Type} (f : S → X).

Lemma preserves_ret {A} (a : A) : preserves f (mret a : Method.t S A).
Proof. by intros self. Qed.

Lemma preserves_bind {A B} (m : Method.t S A) (k : A → Method.t S B) :
  preserves f m → (∀ a, preserves f (k a)) → preserves f (a ← m; k a).
Proof.
  intros Hm Hk self. method_unfold. specialize (Hm self).
  destruct (m self) as [[a|e] self']; simpl in *; [|done].
  by rewrite Hk.
Qed.

Lemma preserves_get : preserves f (Method.get : Method.t S S).
Proof. by intros self. Qed.

Lemma preserves_gets {A} (g : S → A) : preserves f (Method.gets g).
Proof. by intros self. Qed.

Lemma preserves_lift {A} (r : result A) :
  preserves f (Method.lift r : Method.t S A).
Proof. by intros self. Qed.

Lemma preserves_raise {A} e : preserves f (Method.raise e : Method.t S A).
Proof. by intros self. Qed.

Lemma preserves_modify (g : S → S) :
  (∀ self, f (g self) = f self) → preserves f (Method.modify g).
Proof. intros Hg self. apply Hg. Qed.

Lemma preserves_for_each {Y} (xs : list Y) (body : Y → Method.t S unit) :
  (∀ x, preserves f (body x)) → preserves f (Method.for_each xs body).
Proof.
  intros Hbody. induction xs as [|x xs IH]; simpl.
  - by intros self.
  - intros self. unfold Method.bind. specialize (Hbody x self).
    destruct (body x self) as [[[]|e] self']; simpl in *; [|done].
    by rewrite IH.
Qed.
End preserves.

(** One step of a proof that a method written with the combinators of
    [Method] preserves an observation. *)
Ltac preserves_step :=
  lazymatch goal with
  | |- preserves _ (mbind _ _) => apply preserves_bind; [|intros ?]
  | |- preserves _ (mret _) => apply preserves_ret
  | |- preserves _ Method.get => apply preserves_get
  | |- preserves _ (Method.gets _) => apply preserves_gets
  | |- preserves _ (Method.lift _) => apply preserves_lift
  | |- preserves _ (Method.raise _) => apply preserves_raise
  | |- preserves _ (Method.modify _) =>
      apply preserves_modify; intros ?; reflexivity
  | |- preserves _ (Method.for_each _ _) =>
      apply preserves_for_each; intros ?
  | |- preserves _ (if ?b then _ else _) => destruct b
  | |- preserves _ (match ?x with _ => _ end) => destruct x
  | |- preserves _ (let _ := _ in _) => cbv zeta
  end.

(** ** The diff helper *)

Section object_diff_facts.
Context {V : Type} {V_eq_dec : EqDecision V}.

Lemma diff_loop_lookup (cached_obj new_obj : gmap string V) k :
  map_fold (diff_entry cached_obj) ∅ new_obj !! k =
  match new_obj !! k with
  | Some v => if decide (cached_obj !! k = Some v) then None else Some v
  | None => None
  end.
Proof.
  revert k.
  apply (map_fold_weak_ind
           (λ r m, ∀ k, r !! k =
              match m !! k with
              | Some v => if decide (cached_obj !! k = Some v) then None
                          else Some v
              | None => None
              end)).
  - intros k. by rewrite !lookup_empty.
  - intros i x m r Hfresh IH k. unfold diff_entry.
    destruct (decide (i = k)) as [->|Hne].
    + rewrite lookup_insert_eq.
      destruct (decide (cached_obj !! k = Some x)).
      * rewrite IH, Hfresh. done.
      * by rewrite lookup_insert_eq.
    + rewrite (lookup_insert_ne m) by done.
      destruct (decide (cached_obj !! i = Some x)).
      * apply IH.
      * rewrite lookup_insert_ne by done. apply IH.
Qed.

Lemma diff_loop_self (obj : gmap string V) :
  map_fold (diff_entry obj) ∅ obj = ∅.
Proof.
  apply map_eq. intros k. rewrite diff_loop_lookup, lookup_empty.
  destruct (obj !! k) as [v|] eqn:Hk; [|done].
  by rewrite decide_True.
Qed.

(** C1. [_get_object_diff new cached] is [new] itself when [cached] is
    empty and the empty map when [new] equals [cached]; for a non-empty
    [cached] it holds exactly the entries of [new] whose value differs
    from, or whose key is missing in, [cached]; and in every case a key
    that [new] does not have (so also one that only [cached] has) is not
    reported. *)
Theorem get_object_diff_spec (new_obj cached_obj : gmap string V) :
  (cached_obj = ∅ → _get_object_diff new_obj cached_obj = new_obj) ∧
  (new_obj = cached_obj → _get_object_diff new_obj cached_obj = ∅) ∧
  (cached_obj ≠ ∅ → ∀ k v,
      _get_object_diff new_obj cached_obj !! k = Some v ↔
      new_obj !! k = Some v ∧ cached_obj !! k ≠ Some v) ∧
  (∀ k, new_obj !! k = None →
        _get_object_diff new_obj cached_obj !! k = None).
Proof.
  unfold _get_object_diff. split; [|split; [|split]].
  - intros ->. by rewrite decide_True.
  - intros ->. destruct (decide (cached_obj = ∅)) as [->|_]; [done|].
    apply diff_loop_self.
  - intros Hne k v. rewrite decide_False by done.
    rewrite diff_loop_lookup.
    destruct (new_obj !! k) as [w|]; [|split; [done|by intros [? _]]].
    destruct (decide (cached_obj !! k = Some w)) as [Hc|Hc].
    + split; [done|]. intros [[= ->] Hv]. done.
    + split; [by intros [= ->]|by intros [? _]].
  - intros k Hk. destruct (decide (cached_obj = ∅)); [done|].
    by rewrite diff_loop_lookup, Hk.
Qed.
End object_diff_facts.

(** The cpu report of [_on_proc_update] against its cache: only the
    changed reading is reported, and the key that the new report lacks is
    not. *)
Example get_object_diff_cpu :
  _get_object_diff
    (<["usage" := 12]> (<["temp" := 48]> (∅ : gmap string Z)))
    (<["usage" := 12]> (<["temp" := 47]> (<["memory" := 30]> ∅)))
  = <["temp" := 48]> ∅.
Proof. by vm_compute. Qed.

(** ** The layer detector *)

Module LayerFacts.
Import LayerDetect LayerScenario.

(** An update of an active detector, branch by branch: a Z equal to the
    one last acted on clears the pending check; a different Z is first
    only noted; seen again on the next update, it is acted on. *)
Lemma update_active (self : LayerDetect.t) (new_pos : list float) (z : float) :
  _active self = true →
  new_pos !! 2%nat = Some z →
  update new_pos self =
  if PrimFloat.eqb (_layer_z self) z then (Ok tt, set_check_next false self)
  else if negb (_check_next self) then (Ok tt, set_check_next true self)
  else
    match Py.truediv (PrimFloat.sub z (_fl_height self))
                     (_layer_height self) with
    | Raise e => (Raise e, set_check_next false self)
    | Ok q =>
        match Py.int (PrimFloat.add q 0.5%float) with
        | Raise e => (Raise e, set_check_next false self)
        | Ok n =>
            (Ok tt,
             set_layer_z z
               (set_layer (Z.min (1 + n) (_layer_count self))
                  (set_check_next false self)))
        end
    end.
Proof.
  intros Hactive Hz. unfold update, item. method_unfold.
  rewrite Hactive, Hz. simpl.
  destruct (PrimFloat.eqb _ z); [reflexivity|].
  destruct (_check_next self); [|reflexivity]. simpl.
  destruct (Py.truediv _ _) as [q|]; [|reflexivity]. simpl.
  destruct (Py.int _); reflexivity.
Qed.

(** An inactive detector only clears the pending check. *)
Lemma update_inactive (self : LayerDetect.t) (new_pos : list float) :
  _active self = false →
  update new_pos self = (Ok tt, set_check_next false self).
Proof.
  intros Hactive. unfold update. method_unfold. by rewrite Hactive.
Qed.

Lemma started_state :
  started = set_fl_height 0.2%float
              (set_layer_height 0.2%float (set_active true __init__)).
Proof. reflexivity. Qed.

(** None of the four updates raises. *)
Lemma zseq_returns :
  Method.eval
    (Method.for_each [0%float; 0.2%float; 0.2%float; 0.4%float]
       (λ z, update (at_z z))) started = Ok tt.
Proof. reflexivity. Qed.

(** C2, as the specification has it, fails: the second 0.2 is not
    ignored (it moves the layer index from 0 to 1), and after the 0.4
    update the layer index is not 2. *)
Lemma zseq_not_as_specified :
  layer (after [0%float; 0.2%float; 0.2%float]) ≠
    layer (after [0%float; 0.2%float]) ∧
  layer (after [0%float; 0.2%float; 0.2%float; 0.4%float]) ≠ 2.
Proof. split; vm_compute; discriminate. Qed.

(** C2, amended. From the started detector (layer 0, last acted-on Z 0):
    the update with Z 0 changes nothing; the first 0.2 is checked but not
    acted on; the second 0.2, still different from the last acted-on Z,
    is acted on and sets the layer index to 1 + round((0.2-0.2)/0.2) = 1
    and the last acted-on Z to 0.2; the 0.4 update is checked but not
    acted on, so the layer index is still 1. *)
Theorem zseq_trace :
  after [0%float] = started ∧
  after [0%float; 0.2%float] = set_check_next true started ∧
  after [0%float; 0.2%float; 0.2%float] =
    set_layer_z 0.2%float (set_layer 1 started) ∧
  after [0%float; 0.2%float; 0.2%float; 0.4%float] =
    set_check_next true (set_layer_z 0.2%float (set_layer 1 started)).
Proof. repeat split; reflexivity. Qed.
End LayerFacts.

(** ** The state push *)

Module StateFacts.
Import SimplyPrint Statement Scenario.

Lemma send_sp_run (self : SimplyPrint.t) evt d :
  _send_sp evt d self =
  match connected self, ws self with
  | true, Some written =>
      (Ok true,
       set_ws (Some (written ++ [{| evt_name := evt; data := d |}]))
         (set_keepalive_hdl (Some KEEPALIVE_TIME) self))
  | _, _ => (Ok false, self)
  end.
Proof.
  unfold _send_sp, _reset_keepalive. method_unfold.
  destruct (connected self), (ws self); reflexivity.
Qed.

Lemma send_sp_sent (self : SimplyPrint.t) evt d :
  sent (Method.exec (_send_sp evt d) self) =
  sent self ++
  (if connected self && bool_decide (is_Some (ws self))
   then [{| evt_name := evt; data := d |}] else []).
Proof.
  unfold Method.exec, sent. rewrite send_sp_run.
  destruct (connected self) eqn:Hc, (ws self) eqn:Hw; simpl;
    rewrite ?Hw, ?app_nil_r; reflexivity.
Qed.

Lemma send_sp_cache (self : SimplyPrint.t) evt d :
  cache (Method.exec (_send_sp evt d) self) = cache self.
Proof.
  unfold Method.exec. rewrite send_sp_run.
  destruct (connected self), (ws self); reflexivity.
Qed.

Lemma update_state_run (self : SimplyPrint.t) s :
  _update_state s self =
  if String.eqb (ReportCache.state (cache self)) s then (Ok tt, self)
  else (Ok tt,
        Method.exec (_send_sp "state_change" (new_payload (PStr s)))
          (upd_cache (ReportCache.set_state s) self)).
Proof.
  unfold _update_state. method_unfold.
  destruct (String.eqb _ s); [reflexivity|].
  rewrite send_sp_run. simpl.
  destruct (connected self), (ws self); reflexivity.
Qed.

Lemma update_state_eval (self : SimplyPrint.t) s :
  Method.eval (_update_state s) self = Ok tt.
Proof.
  unfold Method.eval. rewrite update_state_run.
  by destruct (String.eqb _ s).
Qed.

Lemma update_state_exec (self : SimplyPrint.t) s :
  Method.exec (_update_state s) self =
  if String.eqb (ReportCache.state (cache self)) s then self
  else Method.exec (_send_sp "state_change" (new_payload (PStr s)))
         (upd_cache (ReportCache.set_state s) self).
Proof.
  unfold Method.exec at 1. rewrite update_state_run.
  by destruct (String.eqb _ s).
Qed.

(** C7, as the specification has it, fails: with the socket live and the
    cached state already [offline], pushing [offline] twice writes no
    frame at all. *)
Lemma update_state_twice_no_frame :
  sent (Method.exec (_update_state "offline")
          (Method.exec (_update_state "offline") online)) = [] ∧
  ¬ (∃ frame, sent (Method.exec (_update_state "offline")
                      (Method.exec (_update_state "offline") online))
              = sent online ++ [frame]).
Proof.
  split; [reflexivity|]. intros [frame Hf]. vm_compute in Hf. discriminate.
Qed.

(** C7, amended. Two calls of [_update_state s] in a row both return; the
    second leaves the whole object, the cache and the socket included, as
    the first left it; and together they write at most one frame: the
    [state_change] frame for [s] when [s] differs from the cached state
    and the session is connected with a live socket, and none otherwise. *)
Theorem update_state_twice (self : SimplyPrint.t) (s : string) :
  let self1 := Method.exec (_update_state s) self in
  let self2 := Method.exec (_update_state s) self1 in
  Method.eval (_update_state s) self = Ok tt ∧
  Method.eval (_update_state s) self1 = Ok tt ∧
  self2 = self1 ∧
  ReportCache.state (cache self1) = s ∧
  sent self2 =
    sent self ++
    (if negb (String.eqb (ReportCache.state (cache self)) s)
        && connected self && bool_decide (is_Some (ws self))
     then [state_change s] else []).
Proof.
  cbv zeta. rewrite !update_state_eval.
  rewrite (update_state_exec self s).
  destruct (String.eqb (ReportCache.state (cache self)) s) eqn:Hs.
  - rewrite (update_state_exec self s), Hs. simpl.
    apply String.eqb_eq in Hs.
    repeat split; try done. by rewrite app_nil_r.
  - set (self1 := Method.exec (_send_sp _ _) _).
    assert (Hst : ReportCache.state (cache self1) = s).
    { unfold self1. by rewrite send_sp_cache. }
    rewrite (update_state_exec self1 s), Hst, String.eqb_refl. simpl.
    repeat split; try done.
    unfold self1. by rewrite send_sp_sent.
Qed.

End StateFacts.

(** ** The inbound dispatcher *)

Module DispatchFacts.
Import SimplyPrint Statement Scenario.

Section observation.
Context {X : Type} (f : SimplyPrint.t → X).
Hypothesis f_ws : ∀ v self, f (set_ws v self) = f self.
Hypothesis f_keepalive : ∀ v self, f (set_keepalive_hdl v self) = f self.
Hypothesis f_tasks : ∀ v self, f (set_tasks v self) = f self.
Hypothesis f_missed : ∀ v self, f (set_missed_job_events v self) = f self.

Lemma preserves_send_sp evt d : preserves f (_send_sp evt d).
Proof.
  intros self. rewrite StateFacts.send_sp_run.
  destruct (connected self), (ws self); simpl; by rewrite ?f_ws, ?f_keepalive.
Qed.

Lemma preserves_replay curtime i :
  preserves f (replay_missed_job_event curtime i).
Proof.
  unfold replay_missed_job_event.
  repeat first [ apply preserves_send_sp
               | apply preserves_modify; intros ?; apply f_missed
               | preserves_step ].
Qed.

Lemma preserves_push_initial_state : preserves f _push_initial_state.
Proof.
  unfold _push_initial_state, create_task.
  repeat first [ apply preserves_send_sp
               | apply preserves_replay
               | apply preserves_modify; intros ?;
                 first [apply f_missed | apply f_tasks]
               | preserves_step ].
Qed.
End observation.

Lemma preserves_set_ws_url_delay : preserves reconnect_delay _set_ws_url.
Proof. unfold _set_ws_url. repeat preserves_step. Qed.

Lemma init_reconnect_delay h sp_test connect_url database :
  reconnect_delay (__init__ h sp_test connect_url database) = 1%float.
Proof.
  unfold __init__. destruct connect_url; [reflexivity|].
  unfold Method.exec. by rewrite preserves_set_ws_url_delay.
Qed.

Lemma bind_ok {S A B} (m : Method.t S A) (k : A → Method.t S B) self a self1 :
  m self = (Ok a, self1) → (x ← m; k x) self = k a self1.
Proof. intros Hm. method_unfold. by rewrite Hm. Qed.

Lemma bind_raise {S A B} (m : Method.t S A) (k : A → Method.t S B)
    self e self1 :
  m self = (Raise e, self1) → (x ← m; k x) self = (Raise e, self1).
Proof. intros Hm. method_unfold. by rewrite Hm. Qed.

Lemma update_intervals_returns (d : gmap string pyval) self :
  forallb (λ kv : string * pyval, milliseconds kv.2) (map_to_list d) = true →
  ∃ self1, update_intervals d self = (Ok tt, self1).
Proof.
  unfold update_intervals. generalize (map_to_list d) as l.
  intros l. revert self. induction l as [|[k v] l IH]; intros self Hl.
  - by eexists.
  - simpl in Hl. apply andb_true_iff in Hl as [Hv Hl].
    unfold milliseconds in Hv.
    destruct (Val.div_float v 1000%float) as [secs|] eqn:Hsecs; [|done].
    simpl. unfold Method.bind at 1. method_unfold. simpl. rewrite Hsecs.
    apply IH, Hl.
Qed.

Lemma process_error_run (pk : gmap string pyval) self :
  pk !! "type" = Some (PStr "error") →
  _process_message (Some (PDict pk)) self =
  (Ok tt, set_reconnect_token PNone (set_reconnect_delay 30%float
            (set_keepalive_hdl (Some KEEPALIVE_TIME) self))).
Proof.
  intros Htype. unfold _process_message, _reset_keepalive. method_unfold.
  simpl. rewrite Htype. reflexivity.
Qed.

Lemma process_connected_delay (pk : gmap string pyval) self :
  pk !! "type" = Some (PStr "connected") →
  connected_data (match pk !! "data" with Some v => v | None => PNone end)
    = true →
  reconnect_delay (Method.exec (_process_message (Some (PDict pk))) self)
    = 1%float.
Proof.
  intros Htype Hdata.
  pose proof (preserves_push_initial_state reconnect_delay
                (λ _ _, eq_refl) (λ _ _, eq_refl) (λ _ _, eq_refl)
                (λ _ _, eq_refl)) as Hpush.
  unfold Method.exec, _process_message, _reset_keepalive.
  set (push := _push_initial_state) in *. clearbody push.
  method_unfold. simpl. rewrite Htype. simpl.
  assert (Hend : ∀ s1, reconnect_delay (push (set_reconnect_delay 1 s1)).2
                       = 1%float).
  { intros s1. by rewrite Hpush. }
  destruct (pk !! "data") as [data|]; simpl; [|apply Hend].
  destruct data as [| | | | | |d]; simpl in *; try done; try apply Hend.
  set (s0 := set_reconnect_token _ _). clearbody s0.
  assert (Hsave : ∀ name s1,
            ∃ s2, (if negb (Val.is_none name)
                   then _save_item "printer_name" name
                   else λ s, (Ok tt, s)) s1 = (Ok tt, s2)).
  { intros name s1. destruct (Val.is_none name); simpl; by eexists. }
  destruct (d !! "interval") as [[| | | | | |interval]|]; simpl;
    try (match goal with
         | |- context [(if negb (Val.is_none ?n) then _ else _) ?s] =>
             destruct (Hsave n s) as [s2 ->]
         end; apply Hend).
  destruct (update_intervals_returns interval s0 Hdata) as [s1 ->].
  match goal with
  | |- context [(if negb (Val.is_none ?n) then _ else _) ?s] =>
      destruct (Hsave n s) as [s2 ->]
  end. apply Hend.
Qed.

Lemma update_intervals_raises (d : gmap string pyval) self :
  forallb (λ kv : string * pyval, milliseconds kv.2) (map_to_list d)
    = false →
  ∃ e self1,
    update_intervals d self = (Raise e, self1) ∧
    reconnect_delay self1 = reconnect_delay self ∧
    connected self1 = connected self.
Proof.
  unfold update_intervals. generalize (map_to_list d) as l.
  intros l. revert self. induction l as [|[k v] l IH]; intros self Hl;
    [done|].
  simpl in Hl. unfold milliseconds in Hl at 1. simpl in Hl.
  simpl. unfold Method.bind at 1. method_unfold. simpl.
  destruct (Val.div_float v 1000%float) as [secs|e] eqn:Hsecs.
  - simpl in Hl.
    destruct (IH (set_intervals (<[k := secs]> (intervals self)) self) Hl)
      as (e & self1 & Hrun & Hdelay & Hconn).
    exists e, self1. by rewrite Hrun.
  - by exists e, self.
Qed.

(** A [connected] frame whose data is neither absent nor as the protocol
    has it raises while the data is read, after the session is marked
    connected and before the delay is reset. *)
Lemma process_connected_raises (pk : gmap string pyval) self :
  pk !! "type" = Some (PStr "connected") →
  connected_data (match pk !! "data" with Some v => v | None => PNone end)
    = false →
  ∃ e,
    Method.eval (_process_message (Some (PDict pk))) self = Raise e ∧
    reconnect_delay (Method.exec (_process_message (Some (PDict pk))) self)
      = reconnect_delay self ∧
    connected (Method.exec (_process_message (Some (PDict pk))) self)
      = true.
Proof.
  intros Htype Hdata.
  unfold Method.exec, Method.eval, _process_message, _reset_keepalive.
  set (push := _push_initial_state) in *. clearbody push.
  method_unfold. simpl. rewrite Htype. simpl.
  destruct (pk !! "data") as [data|]; simpl in *; [|done].
  destruct data as [| | | | | |d]; simpl in *; try done;
    try (by eexists).
  destruct (d !! "interval") as [[| | | | | |interval]|]; simpl in *;
    try done.
  match goal with
  | |- context [update_intervals interval ?s0] =>
      destruct (update_intervals_raises interval s0 Hdata)
        as (e & self1 & -> & Hdelay & Hconn)
  end.
  exists e. simpl. by rewrite Hdelay, Hconn.
Qed.

(** C6, as the specification has it, fails: after an [error] frame has
    set the delay to 30 s, the frame [{"type": "connected", "data": 5}]
    raises [AttributeError] when its data is read, and the delay is
    still 30 s, not 1 s. *)
Lemma connected_frame_delay_stays :
  let bad := frame "connected" (PInt 5) in
  let self := Method.exec (_process_message (Some error_frame)) fresh in
  reconnect_delay self = 30%float ∧
  Method.eval (_process_message (Some bad)) self = Raise AttributeError ∧
  reconnect_delay (Method.exec (_process_message (Some bad)) self)
    = 30%float ∧
  reconnect_delay (Method.exec (_process_message (Some bad)) self)
    ≠ 1%float.
Proof.
  cbv zeta. split; [by vm_compute|]. split; [by vm_compute|].
  split; [by vm_compute|]. intros Hone.
  apply (f_equal (λ x, PrimFloat.eqb x 1%float)) in Hone.
  vm_compute in Hone. discriminate.
Qed.

(** C6, amended. The reconnect delay is 1 s in every freshly constructed
    component; after an [error] frame is processed it is 30 s and no
    reconnect token is held. After a [connected] frame is processed it is
    1 s again if the data of the frame is as the protocol has it: absent,
    or an object whose [interval], when it is an object, holds numbers of
    milliseconds. On any other [connected] frame the handler raises while
    it reads the data; the session is marked connected by then, and the
    delay is what it was before the frame. *)
Theorem reconnect_delay_sequence :
  (∀ h sp_test connect_url database,
     reconnect_delay (__init__ h sp_test connect_url database) = 1%float) ∧
  (∀ self (pk : gmap string pyval),
     pk !! "type" = Some (PStr "error") →
     let self1 := Method.exec (_process_message (Some (PDict pk))) self in
     Method.eval (_process_message (Some (PDict pk))) self = Ok tt ∧
     reconnect_delay self1 = 30%float ∧
     reconnect_token self1 = PNone) ∧
  (∀ self (pk : gmap string pyval),
     pk !! "type" = Some (PStr "connected") →
     connected_data (match pk !! "data" with Some v => v | None => PNone end)
       = true →
     reconnect_delay (Method.exec (_process_message (Some (PDict pk))) self)
       = 1%float) ∧
  (∀ self (pk : gmap string pyval),
     pk !! "type" = Some (PStr "connected") →
     connected_data (match pk !! "data" with Some v => v | None => PNone end)
       = false →
     ∃ e,
       Method.eval (_process_message (Some (PDict pk))) self = Raise e ∧
       reconnect_delay (Method.exec (_process_message (Some (PDict pk))) self)
         = reconnect_delay self ∧
       connected (Method.exec (_process_message (Some (PDict pk))) self)
         = true).
Proof.
  split; [apply init_reconnect_delay|]. split; [|split].
  - intros self pk Htype. cbv zeta. unfold Method.exec, Method.eval.
    by rewrite process_error_run.
  - intros self pk. apply process_connected_delay.
  - intros self pk. apply process_connected_raises.
Qed.

Lemma reconnect_delay_sequence_witness :
  reconnect_delay fresh = 1%float ∧
  reconnect_delay (Method.exec (_process_message (Some error_frame)) fresh)
    = 30%float ∧
  reconnect_delay
    (Method.exec (_process_message (Some connected_frame))
       (Method.exec (_process_message (Some error_frame)) fresh))
    = 1%float ∧
  reconnect_delay
    (Method.exec (_process_message (Some (frame "connected" (PInt 5))))
       (Method.exec (_process_message (Some error_frame)) fresh))
    = 30%float.
Proof.
  destruct reconnect_delay_sequence
    as (Hinit & Herror & Hconnected & Hraises).
  split; [apply Hinit|]. split; [|split].
  - apply (Herror fresh (<["type" := PStr "error"]> {["data" := PNone]})).
    by vm_compute.
  - apply (Hconnected _
             (<["type" := PStr "connected"]>
                {["data" := PDict {["interval" :=
                                      PDict {["job" := PInt 5000]}]}]}));
      by vm_compute.
  - destruct (Hraises
                (Method.exec (_process_message (Some error_frame)) fresh)
                (<["type" := PStr "connected"]> {["data" := PInt 5]}))
      as (e & _ & Hdelay & _); [by vm_compute..|].
    etransitivity; [exact Hdelay|]. by vm_compute.
Defined.

(** A [connected] frame whose interval is not a number raises before the
    delay is reset. *)
Example connected_malformed_interval :
  let bad := frame "connected"
               (PDict {["interval" := PDict {["job" := PStr "soon"]}]}) in
  let self := Method.exec (_process_message (Some error_frame)) fresh in
  Method.eval (_process_message (Some bad)) self = Raise TypeError ∧
  reconnect_delay (Method.exec (_process_message (Some bad)) self)
    = 30%float.
Proof. split; by vm_compute. Qed.

Lemma process_set_up_raises (pk d : gmap string pyval) self :
  pk !! "type" = Some (PStr "set_up") →
  pk !! "data" = Some (PDict d) →
  _process_message (Some (PDict pk)) self =
  (Raise (UnboundLocalError "token"),
   set_keepalive_hdl (Some KEEPALIVE_TIME) self).
Proof.
  intros Htype Hdata. unfold _process_message, _reset_keepalive.
  method_unfold. simpl. rewrite Htype, Hdata. reflexivity.
Qed.

(** C4. On the frame
    [{"type": "set_up", "data": {"id": "1234", "name": "Voron"}}] the
    handler raises [UnboundLocalError] for its local [token]; neither the
    printer id nor the name is persisted and the connect url is the one
    there was. *)
Theorem set_up_frame_raises :
  let self := Method.exec (_process_message (Some set_up_frame)) fresh in
  Method.eval (_process_message (Some set_up_frame)) fresh
    = Raise (UnboundLocalError "token") ∧
  sp_info self !! "printer_id" = None ∧
  spdb self !! "printer_id" = None ∧
  sp_info self !! "printer_name" = None ∧
  connect_url self = connect_url fresh.
Proof. repeat split; by vm_compute. Qed.

(** The sibling [new_token] branch tests the variable it has just bound,
    persists the token and recomputes the connect url. *)
Example new_token_frame_persists :
  let msg := frame "new_token" (PDict {["token" := PStr "abcd"]}) in
  let self := Method.exec (_process_message (Some msg)) fresh in
  Method.eval (_process_message (Some msg)) fresh = Ok tt ∧
  sp_info self !! "printer_token" = Some (PStr "abcd") ∧
  connect_url self = EndpointUrl TEST_ENDPOINT (PStr "0") (PStr "abcd").
Proof. repeat split; by vm_compute. Qed.

End DispatchFacts.

(** ** Demands *)

Module DemandFacts.
Import SimplyPrint Statement Scenario.

Lemma process_demand_action (action : string) (args : pyval) self :
  action ∈ ["pause"; "resume"; "cancel"] →
  klippy_connected (host self) = true →
  _process_demand (PStr action) args self =
  (Ok tt, set_tasks (tasks self ++ [RequestPrintAction action]) self).
Proof.
  intros Hin Hconn. unfold _process_demand, create_task. method_unfold.
  rewrite Hconn. simpl.
  repeat (apply elem_of_cons in Hin as [->|Hin]; [reflexivity|]).
  by apply elem_of_nil in Hin.
Qed.

(** C3, as the specification has it, fails: a [pause] demand in a
    connected session whose cached state is [paused] creates the task, and
    the task ends at once: it neither sleeps nor writes a frame, so the
    cached state is not pushed again. *)
Lemma pause_while_paused_no_repush :
  let self := Method.exec (_process_demand (PStr "pause") (PDict ∅))
                (session "paused") in
  tasks self = [RequestPrintAction "pause"] ∧
  _request_print_action "pause" self = (Ok (Done tt), self) ∧
  (run_task failing_pause (_request_print_action "pause") self).2 = self ∧
  sent self = [].
Proof. repeat split; by vm_compute. Qed.

(** C3, amended. Processing a pause, resume or cancel demand while the
    machine is connected creates the task of the action. Once started the
    task invokes the machine-control request of the action only if the
    cached state permits it, and otherwise ends at once, leaving the object
    as it is: nothing is invoked, slept or sent. After a request that
    answers [None] the task sleeps 0.05 s and then calls [_update_state]
    with the state that was cached when it started; after any other answer
    it ends. *)
Theorem request_print_action_spec (action : string) (args : pyval)
    (self : SimplyPrint.t) :
  action ∈ ["pause"; "resume"; "cancel"] →
  klippy_connected (host self) = true →
  let cur_state := ReportCache.state (cache self) in
  _process_demand (PStr action) args self =
    (Ok tt, set_tasks (tasks self ++ [RequestPrintAction action]) self) ∧
  if permits action cur_state then
    ∃ k, _request_print_action action self =
           (Ok (AwaitKlippy (call_of action) k), self) ∧
         (∀ ret self1, k (Some ret) self1 = (Ok (Done tt), self1)) ∧
         (∀ self1, ∃ k1,
            k None self1 = (Ok (AwaitSleep 0.05%float k1), self1) ∧
            ∀ self2, k1 self2 =
                     (Ok (Done tt),
                      Method.exec (_update_state cur_state) self2))
  else _request_print_action action self = (Ok (Done tt), self).
Proof.
  intros Hin Hconn. split; [by apply process_demand_action|].
  assert (Hk1 : ∀ self2,
            (_update_state (ReportCache.state (cache self));;
             mret (Done tt) : Method.t _ (coro SimplyPrint.t unit)) self2 =
            (Ok (Done tt),
             Method.exec (_update_state (ReportCache.state (cache self)))
               self2)).
  { intros self2. method_unfold.
    pose proof (StateFacts.update_state_eval self2
                  (ReportCache.state (cache self))) as He.
    unfold Method.eval in He.
    destruct (_update_state _ self2) as [r s2]. simpl in *. by subst r. }
  unfold permits, call_of, _request_print_action. method_unfold.
  repeat (apply elem_of_cons in Hin as [->|Hin];
    [simpl; repeat (destruct (String.eqb _ _); simpl);
     try reflexivity; (eexists; split; [reflexivity|]; split;
       [reflexivity|]; intros self1; eexists; split; [reflexivity|];
       exact Hk1)|]).
  by apply elem_of_nil in Hin.
Qed.

Lemma request_print_action_spec_witness :
  let self := session "printing" in
  _process_demand (PStr "pause") (PDict ∅) self =
    (Ok tt, set_tasks (tasks self ++ [RequestPrintAction "pause"]) self) ∧
  ∃ k, _request_print_action "pause" self =
         (Ok (AwaitKlippy pause_print k), self) ∧
       (∀ ret self1, k (Some ret) self1 = (Ok (Done tt), self1)) ∧
       (∀ self1, ∃ k1,
          k None self1 = (Ok (AwaitSleep 0.05%float k1), self1) ∧
          ∀ self2, k1 self2 =
                   (Ok (Done tt),
                    Method.exec (_update_state "printing") self2)).
Proof.
  apply (request_print_action_spec "pause" (PDict ∅) (session "printing")).
  - apply elem_of_cons. by left.
  - reflexivity.
Defined.

(** The failing pause from start to end: the [pause_requested] event has
    moved the cached state to [pausing], and the task puts [printing]
    back, which writes both frames. *)
Example failing_pause_run :
  let self := session "printing" in
  let self1 := (run_task failing_pause (_request_print_action "pause")
                  self).2 in
  ReportCache.state (cache self1) = "printing" ∧
  sent self1 = [state_change "pausing";
                state_change "printing"].
Proof. split; by vm_compute. Qed.

End DemandFacts.

(** ** The missed-job-event queue *)

Module QueueFacts.
Import SimplyPrint Statement Scenario.

Lemma send_job_event_run (job_info : gmap string pyval) self :
  connected self = false →
  _send_job_event job_info self =
  (Ok tt,
   set_missed_job_events
     (let q := missed_job_events self ++ [queued job_info self] in
      if (10 <? length q)%nat then tail q else q) self).
Proof.
  intros Hconn. unfold _send_job_event, queued. method_unfold.
  rewrite Hconn. simpl.
  destruct (10 <? length _)%nat; [reflexivity|].
  by destruct self.
Qed.

Lemma queue_step_bounded {A} (q : list A) (x : A) :
  (length q ≤ 10)%nat →
  (length (let q1 := q ++ [x] in
           if (10 <? length q1)%nat then tail q1 else q1) ≤ 10)%nat.
Proof.
  intros Hq. cbv zeta.
  destruct (10 <? length (q ++ [x]))%nat eqn:Hlen.
  - destruct q as [|y q]; simpl in *; [done|].
    rewrite length_app. simpl. lia.
  - apply Nat.ltb_ge in Hlen. done.
Qed.

(** C5. While the session is disconnected, an enqueue into a queue of at
    most 10 entries returns, writes no frame, and leaves a queue of at
    most 10 entries: the new entry is appended at the end, and when the
    queue already held 10 entries its oldest entry, the head, is dropped
    and the others keep their order. *)
Theorem send_job_event_bounded (job_info : gmap string pyval)
    (self : SimplyPrint.t) :
  connected self = false →
  (length (missed_job_events self) ≤ 10)%nat →
  let self1 := Method.exec (_send_job_event job_info) self in
  Method.eval (_send_job_event job_info) self = Ok tt ∧
  sent self1 = sent self ∧
  (length (missed_job_events self1) ≤ 10)%nat ∧
  missed_job_events self1 =
    (if (length (missed_job_events self) <? 10)%nat
     then missed_job_events self
     else tail (missed_job_events self)) ++ [queued job_info self].
Proof.
  intros Hconn Hlen. cbv zeta. unfold Method.exec, Method.eval.
  rewrite send_job_event_run by done. simpl.
  split; [done|]. split; [done|]. split; [by apply queue_step_bounded|].
  rewrite length_app. simpl.
  destruct (missed_job_events self) as [|e q]; [done|]. simpl in *.
  destruct (10 <? S (length q + 1))%nat eqn:H1;
    destruct (S (length q) <? 10)%nat eqn:H2; try done.
  - apply Nat.ltb_lt in H1, H2. lia.
  - apply Nat.ltb_ge in H1, H2. lia.
Qed.

(** The eleventh enqueue on a fresh, disconnected component. *)
Lemma send_job_event_bounded_witness :
  let self := Method.exec (enqueue_all (numbered 10)) fresh in
  let job_info : gmap string pyval := {["finished" := PBool true]} in
  let self1 := Method.exec (_send_job_event job_info) self in
  Method.eval (_send_job_event job_info) self = Ok tt ∧
  sent self1 = sent self ∧
  (length (missed_job_events self1) ≤ 10)%nat ∧
  missed_job_events self1 =
    (if (length (missed_job_events self) <? 10)%nat
     then missed_job_events self
     else tail (missed_job_events self)) ++ [queued job_info self].
Proof.
  apply (send_job_event_bounded {["finished" := PBool true]}
           (Method.exec (enqueue_all (numbered 10)) fresh)).
  - by vm_compute.
  - vm_compute. lia.
Defined.

Example eleventh_enqueue :
  let self := Method.exec (enqueue_all (numbered 11)) fresh in
  length (missed_job_events self) = 10%nat ∧
  (λ e : gmap string pyval, e !! "progress") <$> missed_job_events self =
  (λ i : Z, Some (PInt i)) <$> [1; 2; 3; 4; 5; 6; 7; 8; 9; 10].
Proof. split; by vm_compute. Qed.

End QueueFacts.

(** ** The temperature evaluation *)

Module TempFacts.
Import SimplyPrint Statement Scenario.

Lemma touches_refl self : touches_temps_only self self.
Proof.
  exists (last_received_temps self), (ReportCache.temps (cache self)).
  destruct self as [? ? ? ? ? ? c ? ? ? ? ? ? ? ? ? ? ? ? ? ? ? ?].
  by destruct c.
Qed.

Lemma touches_trans self self1 self2 :
  touches_temps_only self self1 → touches_temps_only self1 self2 →
  touches_temps_only self self2.
Proof.
  intros (lr1 & ct1 & ->) (lr2 & ct2 & ->). by exists lr2, ct2.
Qed.

Lemma touches_set_lr lr self :
  touches_temps_only self (set_last_received_temps lr self).
Proof.
  exists lr, (ReportCache.temps (cache self)).
  destruct self as [? ? ? ? ? ? c ? ? ? ? ? ? ? ? ? ? ? ? ? ? ? ?].
  by destruct c.
Qed.

Lemma touches_set_temps ct self :
  touches_temps_only self (upd_cache (ReportCache.set_temps ct) self).
Proof.
  exists (last_received_temps self), ct. by destruct self.
Qed.

Lemma touches_reading self self1 printer_obj :
  touches_temps_only self self1 →
  heater_reading self1 printer_obj = heater_reading self printer_obj.
Proof. by intros (lr & ct & ->). Qed.

Lemma touches_seeking self self1 ret :
  touches_temps_only self self1 → seeking self1 ret = seeking self ret.
Proof. by intros (lr & ct & ->). Qed.

Lemma touches_sent self self1 :
  touches_temps_only self self1 → sent self1 = sent self.
Proof. by intros (lr & ct & ->). Qed.

(** The turn of a heater whose readings are numbers, branch by branch. *)
Lemma update_heater_run printer_obj key loc self r :
  heater_reading self printer_obj = Ok r →
  update_heater printer_obj key loc self =
  let record temp_data rapid :=
    (Ok {| need_rapid_update := rapid; temp_data := temp_data |},
     upd_cache (λ c, ReportCache.set_temps
                       (<[key := ret r]> (ReportCache.temps c)) c)
       (set_last_received_temps
          (<[key := reported_temp r]> (last_received_temps self)) self)) in
  if (ret r).2 =? (last_temps self key).2 then
    let rapid := need_rapid_update loc || seeking self (ret r) in
    if debounce self key (reported_temp r) (seeking self (ret r)) then
      (Ok {| need_rapid_update := rapid; temp_data := temp_data loc |},
       set_last_received_temps (delete key (last_received_temps self)) self)
    else if (ret r).1 =? (last_temps self key).1 then
      (Ok {| need_rapid_update := rapid; temp_data := temp_data loc |},
       set_last_received_temps
         (<[key := reported_temp r]> (last_received_temps self)) self)
    else record (<[key := [(ret r).1]]> (temp_data loc)) rapid
  else record (<[key := [(ret r).1; (ret r).2]]> (temp_data loc))
              (need_rapid_update loc).
Proof.
  intros Hr. unfold update_heater. method_unfold. rewrite Hr. cbv zeta.
  destruct (_ =? _); [|reflexivity].
  destruct (debounce _ _ _ _); [reflexivity|].
  destruct (_ =? _); reflexivity.
Qed.

Lemma update_heater_raise printer_obj key loc self e :
  heater_reading self printer_obj = Raise e →
  update_heater printer_obj key loc self = (Raise e, self).
Proof. intros Hr. unfold update_heater. method_unfold. by rewrite Hr. Qed.

Lemma keeps_refl key loc self : keeps key loc self (Ok loc, self).
Proof.
  split; [apply touches_refl|]. repeat split. by intros loc1 [= <-].
Qed.

Lemma update_heater_keeps printer_obj key1 key loc self :
  key1 ≠ key → keeps key loc self (update_heater printer_obj key1 loc self).
Proof.
  intros Hne.
  destruct (heater_reading self printer_obj) as [r|e] eqn:Hr.
  - rewrite (update_heater_run _ _ _ _ r Hr). cbv zeta.
    repeat match goal with
           | |- context [if ?b then _ else _] => destruct b
           end; (split; [|simpl; repeat split]);
      try (intros loc1 [= <-]; simpl);
      rewrite ?lookup_insert_ne, ?lookup_delete_ne by done; try done;
      try apply touches_set_lr;
      (eapply touches_trans; [apply touches_set_lr|apply touches_set_temps]).
  - rewrite (update_heater_raise _ _ _ _ e Hr).
    split; [apply touches_refl|]. by repeat split.
Qed.

Lemma keeps_trans key loc self res (k : temps_locals → Method.t _ _) :
  keeps key loc self res →
  (∀ loc1, res.1 = Ok loc1 → keeps key loc1 res.2 (k loc1 res.2)) →
  keeps key loc self
    match res with
    | (Ok loc1, self1) => k loc1 self1
    | (Raise e, self1) => (Raise e, self1)
    end.
Proof.
  destruct res as [[loc1|e] self1]; simpl; intros (Ht & Hc & Hl & Hd) Hk.
  - destruct (Hk loc1 eq_refl) as (Ht1 & Hc1 & Hl1 & Hd1).
    split; [by eapply touches_trans|]. rewrite Hc1, Hl1.
    repeat split; try done.
    intros loc2 H2. rewrite (Hd1 _ H2). by apply Hd.
  - repeat split; try done.
Qed.

Lemma update_heaters_keeps items key loc self :
  key ∉ items.*2 → keeps key loc self (update_heaters items loc self).
Proof.
  revert loc self. induction items as [|[printer_obj key1] items IH];
    intros loc self Hnotin.
  - apply keeps_refl.
  - simpl in *. apply not_elem_of_cons in Hnotin as [Hne Hnotin].
    method_unfold.
    apply (keeps_trans key loc self (update_heater printer_obj key1 loc self)
             (update_heaters items)).
    + by apply update_heater_keeps.
    + intros loc1 _. by apply IH.
Qed.

Lemma suppressed_turn self printer_obj key r loc :
  suppressed self printer_obj key r →
  update_heater printer_obj key loc self =
  (Ok {| need_rapid_update := need_rapid_update loc;
         temp_data := temp_data loc |},
   set_last_received_temps (delete key (last_received_temps self)) self).
Proof.
  intros (Hr & Htgt & Hseek & last & Hlast & Hnear).
  rewrite (update_heater_run _ _ _ _ r Hr). cbv zeta.
  rewrite Htgt, Z.eqb_refl, Hseek. unfold debounce.
  rewrite Hlast, Hnear. simpl. by rewrite orb_false_r.
Qed.

Lemma suppressed_kept self self1 printer_obj key r :
  touches_temps_only self self1 →
  ReportCache.temps (cache self1) !! key
    = ReportCache.temps (cache self) !! key →
  last_received_temps self1 !! key = last_received_temps self !! key →
  suppressed self printer_obj key r → suppressed self1 printer_obj key r.
Proof.
  intros Ht Hc Hl (Hr & Htgt & Hseek & last & Hlast & Hnear).
  split; [by rewrite (touches_reading self)|].
  split; [unfold last_temps in *; by rewrite Hc|].
  split; [by rewrite (touches_seeking self)|].
  exists last. by rewrite Hl.
Qed.

(** The loop over heaters with distinct report keys, one of which is
    suppressed in the state the loop starts from. *)
Lemma update_heaters_suppressed items printer_obj key r loc self :
  NoDup items.*2 →
  (printer_obj, key) ∈ items →
  suppressed self printer_obj key r →
  let res := update_heaters items loc self in
  touches_temps_only self res.2 ∧
  ReportCache.temps (cache res.2) !! key
    = ReportCache.temps (cache self) !! key ∧
  ∀ loc1, res.1 = Ok loc1 →
          temp_data loc1 !! key = temp_data loc !! key ∧
          last_received_temps res.2 !! key = None.
Proof.
  revert loc self. induction items as [|[obj1 key1] items IH];
    intros loc self Hnodup Hin Hsup; [by apply elem_of_nil in Hin|].
  simpl in Hnodup. apply NoDup_cons in Hnodup as [Hfresh Hnodup].
  cbv zeta. simpl. method_unfold.
  apply elem_of_cons in Hin as [[= <- <-]|Hin].
  - rewrite (suppressed_turn _ _ _ r) by done.
    destruct (update_heaters_keeps items key
                {| need_rapid_update := need_rapid_update loc;
                   temp_data := temp_data loc |}
                (set_last_received_temps
                   (delete key (last_received_temps self)) self) Hfresh)
      as (Ht & Hc & Hl & Hd).
    split; [eapply touches_trans; [apply touches_set_lr|exact Ht]|].
    split; [by rewrite Hc|].
    intros loc1 H1. split; [by rewrite (Hd _ H1)|].
    rewrite Hl. simpl. apply lookup_delete_eq.
  - assert (Hne : key1 ≠ key).
    { intros ->. apply Hfresh.
      by apply (list_elem_of_fmap_2 snd items (printer_obj, key)). }
    destruct (update_heater_keeps obj1 key1 key loc self Hne)
      as (Ht & Hc & Hl & Hd).
    destruct (update_heater obj1 key1 loc self) as [[loc1|e] self1];
      simpl in *; [|done].
    destruct (IH loc1 self1 Hnodup Hin) as (Ht1 & Hc1 & Hd1).
    { by apply (suppressed_kept self). }
    split; [by eapply touches_trans|]. split; [by rewrite Hc1|].
    intros loc2 H2. destruct (Hd1 _ H2) as [Hd2 Hl2].
    split; [|done]. rewrite Hd2. by apply Hd.
Qed.

(** [_update_temps] around its loop: before the next update time it does
    nothing; a raise of the loop is its raise; after the loop it touches
    neither the cache nor the last received temperatures and writes at
    most the frame of the collected [temp_data]. *)
Lemma update_temps_run eventtime self :
  let res := _update_temps eventtime self in
  if PrimFloat.ltb eventtime (next_temp_update_time self)
  then res = (Ok tt, self)
  else
    match update_heaters (heaters self)
            {| need_rapid_update := false; temp_data := ∅ |} self with
    | (Raise e, self1) => res = (Raise e, self1)
    | (Ok loc, self1) =>
        cache res.2 = cache self1 ∧
        last_received_temps res.2 = last_received_temps self1 ∧
        (sent res.2 = sent self1 ∨
         sent res.2 = sent self1 ++ [temps_frame (temp_data loc)])
    end.
Proof.
  cbv zeta. unfold _update_temps. method_unfold.
  destruct (PrimFloat.ltb _ _); [reflexivity|].
  destruct (update_heaters _ _ self) as [[loc|e] self1]; [|reflexivity].
  unfold interval. method_unfold. simpl.
  assert (Hemit : ∀ s0 : SimplyPrint.t,
            cache s0 = cache self1 →
            last_received_temps s0 = last_received_temps self1 →
            sent s0 = sent self1 →
            let res :=
              (if bool_decide (temp_data loc = ∅)
               then λ s : SimplyPrint.t, (Ok tt, s)
               else λ s : SimplyPrint.t,
                 (if is_set_up s
                  then λ s1 : SimplyPrint.t,
                    let (r0, s2) :=
                      _send_sp "temps" (temp_data_payload (temp_data loc))
                        s1 in
                    match r0 with
                    | Ok _ => (Ok tt, s2)
                    | Raise e => (Raise e, s2)
                    end
                  else λ s1 : SimplyPrint.t, (Ok tt, s1)) s) s0 in
            cache res.2 = cache self1 ∧
            last_received_temps res.2 = last_received_temps self1 ∧
            (sent res.2 = sent self1 ∨
             sent res.2 = sent self1 ++ [temps_frame (temp_data loc)])).
  { intros s0 Hc Hl Hs. cbv zeta.
    destruct (bool_decide _); simpl; [by auto|].
    destruct (is_set_up s0); simpl; [|by auto].
    rewrite StateFacts.send_sp_run.
    destruct (connected s0), (ws s0) eqn:Hws; simpl; auto.
    repeat split; auto. right. unfold sent in *. simpl.
    rewrite Hws in Hs. by rewrite Hs. }
  destruct (need_rapid_update loc).
  - destruct (intervals self1 !! "temps_target") as [secs|] eqn:Hi; simpl;
      [|by auto].
    destruct (PrimFloat.ltb secs _); simpl; rewrite ?Hi; simpl;
      by apply Hemit.
  - destruct (intervals self1 !! "temps") as [secs|]; simpl; [|by auto].
    by apply Hemit.
Qed.

Lemma compared_turn self printer_obj key r loc :
  heater_reading self printer_obj = Ok r →
  last_received_temps self !! key = None →
  touches_temps_only self (update_heater printer_obj key loc self).2 ∧
  compared self key r loc (update_heater printer_obj key loc self).
Proof.
  intros Hr Hnone. rewrite (update_heater_run _ _ _ _ r Hr). cbv zeta.
  unfold debounce, compared. rewrite Hnone.
  destruct (_ =? _); simpl; [destruct (_ =? _); simpl|].
  - split; [apply touches_set_lr|]. intros loc1 [= <-]. simpl.
    by rewrite lookup_insert_eq.
  - split; [eapply touches_trans;
              [apply touches_set_lr|apply touches_set_temps]|].
    intros loc1 [= <-]. simpl. by rewrite !lookup_insert_eq.
  - split; [eapply touches_trans;
              [apply touches_set_lr|apply touches_set_temps]|].
    intros loc1 [= <-]. simpl. by rewrite !lookup_insert_eq.
Qed.

(** The loop over heaters with distinct report keys, when the key of one
    of them has no last received reading. *)
Lemma update_heaters_compared items printer_obj key r loc self :
  NoDup items.*2 →
  (printer_obj, key) ∈ items →
  heater_reading self printer_obj = Ok r →
  last_received_temps self !! key = None →
  touches_temps_only self (update_heaters items loc self).2 ∧
  compared self key r loc (update_heaters items loc self).
Proof.
  revert loc self. induction items as [|[obj1 key1] items IH];
    intros loc self Hnodup Hin Hr Hnone; [by apply elem_of_nil in Hin|].
  simpl in Hnodup. apply NoDup_cons in Hnodup as [Hfresh Hnodup].
  simpl. method_unfold.
  apply elem_of_cons in Hin as [[= <- <-]|Hin].
  - destruct (compared_turn self printer_obj key r loc Hr Hnone)
      as [Ht Hcmp].
    destruct (update_heater printer_obj key loc self) as [[loc1|e] self1];
      simpl in *; [|split; [done|by intros ? [=]]].
    destruct (update_heaters_keeps items key loc1 self1 Hfresh)
      as (Ht1 & Hc1 & Hl1 & Hd1).
    split; [by eapply touches_trans|].
    intros loc2 H2. destruct (Hcmp loc1 eq_refl) as [Hl Hcase].
    rewrite Hl1, Hc1, (Hd1 _ H2). done.
  - assert (Hne : key1 ≠ key).
    { intros ->. apply Hfresh.
      by apply (list_elem_of_fmap_2 snd items (printer_obj, key)). }
    destruct (update_heater_keeps obj1 key1 key loc self Hne)
      as (Ht & Hc & Hl & Hd).
    destruct (update_heater obj1 key1 loc self) as [[loc1|e] self1];
      simpl in *; [|split; [done|by intros ? [=]]].
    destruct (IH loc1 self1 Hnodup Hin) as [Ht1 Hcmp].
    { by rewrite (touches_reading self). }
    { by rewrite Hl. }
    split; [by eapply touches_trans|].
    intros loc2 H2. destruct (Hcmp loc2 H2) as [Hl2 Hcase].
    split; [done|]. unfold last_temps in *. rewrite Hc in Hcase.
    by rewrite (Hd loc1 eq_refl) in Hcase.
Qed.

(** A due evaluation that returns and suppresses a heater drops the last
    received reading of its key. *)
Lemma suppression_drops_record eventtime self printer_obj key r :
  NoDup (heaters self).*2 →
  (printer_obj, key) ∈ heaters self →
  suppressed self printer_obj key r →
  PrimFloat.ltb eventtime (next_temp_update_time self) = false →
  Method.eval (_update_temps eventtime) self = Ok tt →
  last_received_temps (Method.exec (_update_temps eventtime) self) !! key
    = None.
Proof.
  intros Hnodup Hin Hsup Hdue Hret.
  pose proof (update_temps_run eventtime self) as Hrun. cbv zeta in Hrun.
  rewrite Hdue in Hrun. unfold Method.exec, Method.eval in *.
  pose proof (update_heaters_suppressed (heaters self) printer_obj key r
                {| need_rapid_update := false; temp_data := ∅ |} self
                Hnodup Hin Hsup) as Hloop. cbv zeta in Hloop.
  destruct (update_heaters _ _ self) as [[loc|e] selfl]; simpl in *.
  - destruct Hrun as (_ & Hl & _), Hloop as (_ & _ & Hloc).
    rewrite Hl. by destruct (Hloc loc eq_refl).
  - rewrite Hrun in Hret. done.
Qed.

(** C8, as the specification has it, fails. The hot end is idle at a
    cached 25 degrees with target 0. The first poll reads 25.5, within
    0.75 of the 25.0 last received, and is suppressed; the suppression
    drops the last received reading of the hot end. The next poll reads
    25.7: the rounded target is still the cached one, the hot end is not
    seeking, and the reading has drifted by 0.2 since the last poll, less
    than 0.75. Yet the evaluation writes a frame with the temperature of
    the hot end and changes its cache entry from (25, 0) to (26, 0). *)
Lemma drift_after_suppression_sent :
  let self1 := Method.exec (_update_temps 10%float) (printer first_poll) in
  let self2 := set_printer_status second_poll self1 in
  let self3 := Method.exec (_update_temps 11%float) self2 in
  heater_reading (printer first_poll) "extruder"
    = Ok {| reported_temp := 25.5%float; ret := (26, 0) |} ∧
  sent self1 = [temps_frame {["bed" := [61]]}] ∧
  last_received_temps self1 !! "tool0" = None ∧
  heater_reading self2 "extruder"
    = Ok {| reported_temp := 25.7%float; ret := (26, 0) |} ∧
  (last_temps self2 "tool0").2 = 0 ∧
  seeking self2 (26, 0) = false ∧
  PrimFloat.ltb (PrimFloat.abs (PrimFloat.sub 25.7%float 25.5%float))
                0.75%float = true ∧
  ReportCache.temps (cache self2) !! "tool0" = Some (25, 0) ∧
  sent self3 = sent self1 ++ [temps_frame {["tool0" := [26]]}] ∧
  ReportCache.temps (cache self3) !! "tool0" = Some (26, 0).
Proof. cbv zeta. repeat split; by vm_compute. Qed.

(** C8, amended. Take a heater of the heater map, whose report keys are
    distinct, with numeric readings; let its rounded target be the cached
    target, let it not be seeking, let a last received reading be on
    record under its key, and let its raw reading differ by less than
    0.75 from that reading. Then an evaluation leaves the cache entry of
    the key as it was, and the only frame it may write is a [temps] frame
    with no data under the key; and if the evaluation is due and returns,
    it drops the record, so that the next poll finds none to compare
    with. *)
Theorem update_temps_debounce (eventtime : float) (self : SimplyPrint.t)
    (printer_obj key : string) (r : reading) (last_reported : float) :
  NoDup (heaters self).*2 →
  (printer_obj, key) ∈ heaters self →
  heater_reading self printer_obj = Ok r →
  (ret r).2 = (last_temps self key).2 →
  seeking self (ret r) = false →
  last_received_temps self !! key = Some last_reported →
  PrimFloat.ltb (PrimFloat.abs (PrimFloat.sub (reported_temp r)
                                              last_reported))
                0.75%float = true →
  let self1 := Method.exec (_update_temps eventtime) self in
  ReportCache.temps (cache self1) !! key
    = ReportCache.temps (cache self) !! key ∧
  (sent self1 = sent self ∨
   ∃ temp_data, temp_data !! key = None ∧
                sent self1 = sent self ++ [temps_frame temp_data]) ∧
  (PrimFloat.ltb eventtime (next_temp_update_time self) = false →
   Method.eval (_update_temps eventtime) self = Ok tt →
   last_received_temps self1 !! key = None).
Proof.
  intros Hnodup Hin Hr Htgt Hseek Hlast Hnear. cbv zeta.
  assert (Hsup : suppressed self printer_obj key r).
  { split; [done|]. split; [done|]. split; [done|]. by exists last_reported. }
  match goal with
  | |- ?A ∧ ?B ∧ _ =>
      cut (A ∧ B);
      [ intros [HA HB]; split; [exact HA|]; split; [exact HB|];
        intros Hdue Hret;
        by apply (suppression_drops_record eventtime self printer_obj key r)
      | ]
  end.
  pose proof (update_temps_run eventtime self) as Hrun. cbv zeta in Hrun.
  unfold Method.exec.
  destruct (PrimFloat.ltb eventtime _); [rewrite Hrun; by auto|].
  pose proof (update_heaters_suppressed (heaters self) printer_obj key r
                {| need_rapid_update := false; temp_data := ∅ |} self
                Hnodup Hin Hsup) as Hloop. cbv zeta in Hloop.
  destruct (update_heaters _ _ self) as [[loc|e] self1]; simpl in *.
  - destruct Hrun as (Hc & _ & Hsent), Hloop as (Ht & Htemps & Hloc).
    destruct (Hloc loc eq_refl) as [Hdata _].
    rewrite Hc, Htemps, (touches_sent self self1 Ht) in *.
    split; [done|]. destruct Hsent as [->| ->]; [by left|].
    right. exists (temp_data loc). by rewrite Hdata.
  - rewrite Hrun. destruct Hloop as (Ht & Htemps & _). simpl.
    rewrite Htemps, (touches_sent self self1 Ht). by auto.
Qed.

(** The hot end drifts by 0.5 between polls while the bed moves by a
    degree: the frame that is written has the bed only. *)
Lemma update_temps_debounce_witness :
  let self := printer first_poll in
  let self1 := Method.exec (_update_temps 10%float) self in
  ReportCache.temps (cache self1) !! "tool0"
    = ReportCache.temps (cache self) !! "tool0" ∧
  (sent self1 = sent self ∨
   ∃ temp_data, temp_data !! "tool0" = None ∧
                sent self1 = sent self ++ [temps_frame temp_data]) ∧
  last_received_temps self1 !! "tool0" = None.
Proof.
  destruct (update_temps_debounce 10%float (printer first_poll)
              "extruder" "tool0"
              {| reported_temp := 25.5%float; ret := (26, 0) |} 25%float)
    as (Hcache & Hsent & Hdrop).
  - apply (bool_decide_unpack _). by vm_compute.
  - apply elem_of_cons. by left.
  - by vm_compute.
  - by vm_compute.
  - by vm_compute.
  - by vm_compute.
  - by vm_compute.
  - cbv zeta. split; [exact Hcache|]. split; [exact Hsent|].
    apply Hdrop; by vm_compute.
Defined.

Example first_poll_frame :
  let self1 := Method.exec (_update_temps 10%float) (printer first_poll) in
  sent self1 = [temps_frame {["bed" := [61]]}] ∧
  ReportCache.temps (cache self1) !! "tool0" = Some (25, 0) ∧
  ReportCache.temps (cache self1) !! "bed" = Some (61, 60).
Proof. repeat split; by vm_compute. Qed.

(** C10. Take an evaluation that is due (its time is not before the next
    update time), returns, and in which a heater is debounce-suppressed as
    in C8. It removes the entry of the heater's key from the last received
    temperatures. Whatever happens up to the next evaluation without
    writing that entry, the next evaluation that is due and returns does
    not suppress the heater: it records the new reading as the last
    received one, and the cache entry is decided by the integer
    comparisons with the cached pair: it stays when both rounded values
    are the cached ones, and becomes the new pair otherwise. *)
Theorem debounce_not_twice (t1 t2 : float) (self self2 : SimplyPrint.t)
    (printer_obj key : string) (r r2 : reading) (last_reported : float) :
  NoDup (heaters self).*2 →
  (printer_obj, key) ∈ heaters self →
  heater_reading self printer_obj = Ok r →
  (ret r).2 = (last_temps self key).2 →
  seeking self (ret r) = false →
  last_received_temps self !! key = Some last_reported →
  PrimFloat.ltb (PrimFloat.abs (PrimFloat.sub (reported_temp r)
                                              last_reported))
                0.75%float = true →
  PrimFloat.ltb t1 (next_temp_update_time self) = false →
  Method.eval (_update_temps t1) self = Ok tt →
  let self1 := Method.exec (_update_temps t1) self in
  NoDup (heaters self2).*2 →
  (printer_obj, key) ∈ heaters self2 →
  last_received_temps self2 !! key = last_received_temps self1 !! key →
  heater_reading self2 printer_obj = Ok r2 →
  PrimFloat.ltb t2 (next_temp_update_time self2) = false →
  Method.eval (_update_temps t2) self2 = Ok tt →
  let self3 := Method.exec (_update_temps t2) self2 in
  last_received_temps self1 !! key = None ∧
  last_received_temps self3 !! key = Some (reported_temp r2) ∧
  ReportCache.temps (cache self3) !! key =
    if ((ret r2).2 =? (last_temps self2 key).2)
       && ((ret r2).1 =? (last_temps self2 key).1)
    then ReportCache.temps (cache self2) !! key
    else Some (ret r2).
Proof.
  intros Hnodup Hin Hr Htgt Hseek Hlast Hnear Hdue Hret.
  cbv zeta. intros Hnodup2 Hin2 Hsame Hr2 Hdue2 Hret2.
  assert (Hsup : suppressed self printer_obj key r).
  { split; [done|]. split; [done|]. split; [done|]. by exists last_reported. }
  assert (H1 : last_received_temps (Method.exec (_update_temps t1) self)
                 !! key = None).
  { pose proof (update_temps_run t1 self) as Hrun. cbv zeta in Hrun.
    rewrite Hdue in Hrun. unfold Method.exec, Method.eval in *.
    pose proof (update_heaters_suppressed (heaters self) printer_obj key r
                  {| need_rapid_update := false; temp_data := ∅ |} self
                  Hnodup Hin Hsup) as Hloop. cbv zeta in Hloop.
    destruct (update_heaters _ _ self) as [[loc|e] selfl]; simpl in *.
    - destruct Hrun as (_ & Hl & _), Hloop as (_ & _ & Hloc).
      rewrite Hl. by destruct (Hloc loc eq_refl).
    - rewrite Hrun in Hret. done. }
  split; [done|]. rewrite H1 in Hsame.
  pose proof (update_temps_run t2 self2) as Hrun. cbv zeta in Hrun.
  rewrite Hdue2 in Hrun. unfold Method.exec, Method.eval in *.
  destruct (update_heaters_compared (heaters self2) printer_obj key r2
              {| need_rapid_update := false; temp_data := ∅ |} self2
              Hnodup2 Hin2 Hr2 Hsame) as [Ht Hcmp].
  destruct (update_heaters _ _ self2) as [[loc|e] selfl]; simpl in *.
  - destruct Hrun as (Hc & Hl & _).
    destruct (Hcmp loc eq_refl) as [Hrec Hcase].
    rewrite Hl, Hc. split; [done|].
    by destruct (_ && _); destruct Hcase.
  - rewrite Hrun in Hret2. done.
Qed.

(** The two polls of the hot end: 25.0, then 25.5 (suppressed), then 25.7
    (compared: the cached 25 becomes 26). *)
Lemma debounce_not_twice_witness :
  let self := printer first_poll in
  let self1 := Method.exec (_update_temps 10%float) self in
  let self2 := set_printer_status second_poll self1 in
  let self3 := Method.exec (_update_temps 11%float) self2 in
  last_received_temps self1 !! "tool0" = None ∧
  last_received_temps self3 !! "tool0" = Some 25.7%float ∧
  ReportCache.temps (cache self3) !! "tool0" =
    if (0 =? (last_temps self2 "tool0").2)
       && (26 =? (last_temps self2 "tool0").1)
    then ReportCache.temps (cache self2) !! "tool0"
    else Some (26, 0).
Proof.
  apply (debounce_not_twice 10%float 11%float (printer first_poll)
           (set_printer_status second_poll
              (Method.exec (_update_temps 10%float) (printer first_poll)))
           "extruder" "tool0"
           {| reported_temp := 25.5%float; ret := (26, 0) |}
           {| reported_temp := 25.7%float; ret := (26, 0) |} 25%float).
  - apply (bool_decide_unpack _). by vm_compute.
  - apply elem_of_cons. by left.
  - by vm_compute.
  - by vm_compute.
  - by vm_compute.
  - by vm_compute.
  - by vm_compute.
  - by vm_compute.
  - by vm_compute.
  - apply (bool_decide_unpack _). by vm_compute.
  - apply elem_of_cons. by left.
  - by vm_compute.
  - by vm_compute.
  - by vm_compute.
  - by vm_compute.
Defined.

Example second_poll_frame :
  let self1 := Method.exec (_update_temps 10%float) (printer first_poll) in
  let self3 := Method.exec (_update_temps 11%float)
                 (set_printer_status second_poll self1) in
  sent self3 = sent self1 ++ [temps_frame {["tool0" := [26]]}] ∧
  ReportCache.temps (cache self3) !! "tool0" = Some (26, 0).
Proof. repeat split; by vm_compute. Qed.

End TempFacts.

(** ** The job-progress tick *)

Module JobFacts.
Import SimplyPrint Statement Scenario.

(** Under [max(0, _)] truncation and rounding down agree. *)
Lemma trunc_floor_max (x : spec_float) (n : Z) :
  Py.trunc_SF x = Ok n →
  ∃ m, Py.floor_SF x = Ok m ∧ Z.max 0 n = Z.max 0 m.
Proof.
  destruct x as [s|s| |s m e]; simpl; try done.
  - intros [= <-]. by exists 0.
  - intros [= <-]. eexists. split; [reflexivity|].
    destruct e as [|p|p], s; try reflexivity.
    + rewrite !Z.shiftl_mul_pow2 by lia. f_equal. lia.
    + pose proof (proj2 (Z.shiftr_nonneg (Z.pos m) (Z.pos p))
                    ltac:(lia)) as H1.
      pose proof (proj2 (Z.shiftr_neg (Z.neg m) (Z.pos p))
                    ltac:(lia)) as H2.
      lia.
Qed.

Lemma int_floor_max (f : float) (n : Z) :
  Py.int f = Ok n → ∃ m, Py.floor f = Ok m ∧ Z.max 0 n = Z.max 0 m.
Proof. apply trunc_floor_max. Qed.

Lemma update_job_progress_run self job_info :
  job_progress_info self = Ok job_info →
  _update_job_progress self =
  (Ok tt,
   if negb (bool_decide (dom job_info = ∅))
   then Method.exec (_send_sp "job_info" (PDict job_info))
          (upd_cache (λ c, ReportCache.set_job_info
                             (job_info ∪ ReportCache.job_info c) c) self)
   else self).
Proof.
  intros Hinfo. unfold _update_job_progress. method_unfold. rewrite Hinfo.
  destruct (negb _); [|reflexivity]. simpl.
  rewrite StateFacts.send_sp_run. simpl.
  by destruct (connected self), (ws self).
Qed.

Lemma empty_dom_union (m1 m2 : gmap string pyval) :
  dom m1 = ∅ → m1 ∪ m2 = m2.
Proof. intros ->%dom_empty_inv_L. apply (left_id_L ∅ (∪)). Qed.

(** Outside a print the timer only reschedules itself. *)
Lemma info_timer_idle (eventtime : float) (self : SimplyPrint.t) :
  ReportCache.state (cache self) ≠ "printing" →
  Method.exec (_handle_printer_info_update eventtime) self = self.
Proof.
  intros Hstate. unfold Method.exec, _handle_printer_info_update, interval.
  method_unfold.
  destruct (String.eqb_spec (ReportCache.state (cache self)) "printing");
    [done|]. simpl.
  by destruct (intervals self !! "job").
Qed.

(** C9, as the specification has it, fails: a value is compared with the
    cached one, and a tick caches what it computes whether or not the
    frame is written. The first tick of the printing job writes layer 5.
    A tick without connection, the detector at layer 6, writes nothing
    and caches 6. With the connection back, a tick at layer 6 writes
    nothing, though 6 was never written; and a tick at layer 5 writes
    layer 5 again, though 5 is the layer that was written last. *)
Lemma written_layer_written_again :
  let tick := _handle_printer_info_update 100%float in
  let at_layer n :=
    set_layer_detect (LayerDetect.set_layer n LayerDetect.__init__) in
  let self1 := Method.exec tick printing_job in
  let self2 := Method.exec tick (at_layer 6 (set_connected false self1)) in
  sent self1 = [job_info_frame first_tick_info] ∧
  first_tick_info !! "layer" = Some (PInt 5) ∧
  sent self2 = sent self1 ∧
  ReportCache.job_info (cache self2) !! "layer" = Some (PInt 6) ∧
  sent (Method.exec tick (at_layer 6 (set_connected true self2)))
    = sent self1 ∧
  sent (Method.exec tick (at_layer 5 (set_connected true self2)))
    = sent self1 ++ [job_info_frame {["layer" := PInt 5]}].
Proof. cbv zeta. repeat split; by vm_compute. Qed.

(** C9, amended. A tick of the job info timer while the cached state is
    [printing], an estimated time is known and the arithmetic of the
    tick is defined. With [x] the float [est_time - duration + .5], the
    remaining time is [max(0, int(x))], which is [max(0, floor(x))]. It
    goes into [job_info] exactly when it is below 60 or at least 30 below
    the cached time, and is not the cached time. The percentage is
    [int(y)] for the float [y = progress * 100 + .5], which is
    [floor(y)] unless negative; it goes in exactly when a progress is
    reported and it is not the cached percentage (0 when none is
    cached); the layer index goes in exactly when it is not the cached
    one (-1 when none is cached); nothing else goes in. The cached values
    are those of the earlier ticks, written or not: the tick merges
    [job_info] into the cached job info in any case, and writes one
    [job_info] frame when [job_info] is not empty and the session is
    connected on a live socket, and no frame otherwise. It returns the
    time of the next tick. *)
Theorem job_progress_tick (eventtime : float) (self : SimplyPrint.t)
    (est_time secs : float) (job_info : gmap string pyval) :
  ReportCache.state (cache self) = "printing" →
  estimated_time (ReportCache.metadata (cache self)) = Some est_time →
  job_progress_info self = Ok job_info →
  intervals self !! "job" = Some secs →
  let x := PrimFloat.add (PrimFloat.sub est_time (print_duration (host self)))
                         0.5%float in
  let layer := LayerDetect.layer (layer_detect self) in
  let self1 := Method.exec (_handle_printer_info_update eventtime) self in
  (∃ n m tl diff,
     Py.int x = Ok n ∧ Py.floor x = Ok m ∧ Z.max 0 n = Z.max 0 m ∧
     let time_left := Z.max 0 m in
     Py.float_of_int time_left = Ok tl ∧
     let last_time_left :=
       cached_job_info self "time" (PFloat (PrimFloat.add tl 60%float)) in
     Val.sub_int last_time_left time_left = Ok diff ∧
     job_info !! "time" =
       if ((time_left <? 60) || Val.ge_int diff 30)
          && negb (Val.eq_int time_left last_time_left)
       then Some (PInt time_left) else None) ∧
  (match printer_status self !! "display_status" with
   | None => job_info !! "progress" = None
   | Some _ =>
       ∃ progress p pct fl,
         status_item self "display_status" "progress" = Ok progress ∧
         Val.to_float progress = Ok p ∧
         let y := PrimFloat.add (PrimFloat.mul p 100%float) 0.5%float in
         Py.int y = Ok pct ∧ Py.floor y = Ok fl ∧
         Z.max 0 pct = Z.max 0 fl ∧
         job_info !! "progress" =
           if negb (Val.eq_int pct (cached_job_info self "progress" (PInt 0)))
           then Some (PInt pct) else None
   end) ∧
  job_info !! "layer" =
    (if negb (Val.eq_int layer (cached_job_info self "layer" (PInt (-1))))
     then Some (PInt layer) else None) ∧
  (∀ k, k ≠ "time" → k ≠ "progress" → k ≠ "layer" → job_info !! k = None) ∧
  Method.eval (_handle_printer_info_update eventtime) self
    = Ok (PrimFloat.add eventtime secs) ∧
  ReportCache.job_info (cache self1)
    = job_info ∪ ReportCache.job_info (cache self) ∧
  sent self1 =
    sent self ++
    (if negb (bool_decide (dom job_info = ∅))
        && connected self && bool_decide (is_Some (ws self))
     then [job_info_frame job_info] else []).
Proof.
  intros Hstate Hest Hinfo Hjob. cbv zeta.
  assert (Hrun : _handle_printer_info_update eventtime self =
                 (Ok (PrimFloat.add eventtime secs),
                  (_update_job_progress self).2)).
  { unfold _handle_printer_info_update, interval. method_unfold.
    rewrite Hstate. simpl.
    rewrite (update_job_progress_run self job_info Hinfo). simpl.
    match goal with
    | |- context [intervals ?s1 !! "job"] =>
        assert (Hsame : intervals s1 = intervals self)
    end.
    { destruct (negb _); [|reflexivity]. unfold Method.exec.
      by rewrite (DispatchFacts.preserves_send_sp intervals
                    (λ _ _, eq_refl) (λ _ _, eq_refl)). }
    by rewrite Hsame, Hjob. }
  unfold Method.exec, Method.eval. rewrite Hrun. simpl.
  rewrite (update_job_progress_run self job_info Hinfo). simpl.
  repeat match goal with |- _ ∧ _ => split end.
  6: { destruct (negb _) eqn:Hne; simpl.
       - by rewrite StateFacts.send_sp_cache.
       - apply negb_false_iff, bool_decide_eq_true in Hne.
         by rewrite empty_dom_union. }
  6: { destruct (negb _); simpl; [|by rewrite app_nil_r].
       by rewrite StateFacts.send_sp_sent. }
  5: done.
  all: unfold job_progress_info in Hinfo; rewrite Hest in Hinfo;
    method_unfold; unfold job_time_entry in Hinfo; method_unfold.
  all: destruct (Py.int _) as [n|] eqn:Hn; [|done].
  all: destruct (Py.float_of_int (Z.max 0 n)) as [tl|] eqn:Htl; [|done].
  all: simpl in Hinfo.
  all: fold (cached_job_info self "time"
               (PFloat (PrimFloat.add tl 60%float))) in Hinfo.
  all: destruct (Val.sub_int _ (Z.max 0 n)) as [diff|] eqn:Hdiff; [|done].
  all: simpl in Hinfo.
  all: destruct (int_floor_max _ n Hn) as (m & Hm & Hmax).
  all: destruct (printer_status self !! "display_status") as [vals|] eqn:Hds.
  all: try (destruct (status_item self "display_status" "progress")
              as [progress|] eqn:Hp;
            [|by destruct (_ && _) in Hinfo]).
  all: try (destruct (percent progress) as [pct|] eqn:Hpct;
            [|by destruct (_ && _) in Hinfo]).
  all: try (unfold percent in Hpct; method_unfold;
            destruct (Val.to_float progress) as [p|] eqn:Hfloat; [|done];
            simpl in Hpct;
            destruct (int_floor_max _ pct Hpct) as (fl & Hfl & Hpmax)).
  all: simpl in Hinfo.
  all: try (exists n, m, tl, diff; rewrite <- Hmax;
            split; [done|]; split; [done|]; split; [done|];
            split; [done|]; split; [done|]).
  all: try (exists progress, p, pct, fl; cbv zeta;
            split; [done|]; split; [done|]; split; [done|];
            split; [done|]; split; [done|]).
  all: try intros k H1 H2 H3.
  all: repeat match type of Hinfo with
              | context [if ?b then _ else _] => destruct b; simpl in Hinfo
              end.
  all: injection Hinfo as <-; by simplify_map_eq.
Qed.

Lemma job_progress_tick_witness :
  let self1 :=
    Method.exec (_handle_printer_info_update 100%float) printing_job in
  job_progress_info printing_job = Ok first_tick_info ∧
  Method.eval (_handle_printer_info_update 100%float) printing_job
    = Ok 101%float ∧
  ReportCache.job_info (cache self1)
    = first_tick_info ∪ ReportCache.job_info (cache printing_job) ∧
  sent self1 = sent printing_job ++ [job_info_frame first_tick_info].
Proof.
  assert (Hinfo : job_progress_info printing_job = Ok first_tick_info)
    by by vm_compute.
  destruct (job_progress_tick 100%float printing_job 3600%float 1%float
              first_tick_info) as (_ & _ & _ & _ & Heval & Hcache & Hsent);
    [by vm_compute|by vm_compute|exact Hinfo|by vm_compute|].
  split; [exact Hinfo|]. split; [exact Heval|]. split; [exact Hcache|].
  exact Hsent.
Defined.

(** A second later nothing has changed enough: the remaining time is one
    second less than the one pushed, and no frame is written. *)
Example second_tick_silent :
  let self1 :=
    Method.exec (_handle_printer_info_update 100%float) printing_job in
  let self2 :=
    set_host {| loop_time := 1%float; klippy_connected := true;
                print_duration := 1235.56%float |} self1 in
  job_progress_info self2 = Ok ∅ ∧
  sent (Method.exec (_handle_printer_info_update 101%float) self2)
    = sent self1.
Proof. split; by vm_compute. Qed.

End JobFacts.

(** ** The queue bound as an invariant *)

Module InvariantFacts.
Import SimplyPrint Statement Scenario.

Lemma keeps_bounded_preserves {A} (m : Method.t SimplyPrint.t A) :
  preserves missed_job_events m → keeps_bounded m.
Proof. intros Hm self. unfold bounded. by rewrite Hm. Qed.

Lemma keeps_bounded_bind {A B} (m : Method.t SimplyPrint.t A)
    (k : A → Method.t SimplyPrint.t B) :
  keeps_bounded m → (∀ a, keeps_bounded (k a)) →
  keeps_bounded (a ← m; k a).
Proof.
  intros Hm Hk self Hb. method_unfold. specialize (Hm self Hb).
  destruct (m self) as [[a|e] self1]; simpl in *; [|done].
  by apply Hk.
Qed.

Lemma keeps_bounded_for_each {Y} (xs : list Y)
    (body : Y → Method.t SimplyPrint.t unit) :
  (∀ x, keeps_bounded (body x)) → keeps_bounded (Method.for_each xs body).
Proof.
  intros Hbody. induction xs as [|x xs IH]; simpl; [by intros self|].
  intros self Hb. unfold Method.bind. specialize (Hbody x self Hb).
  destruct (body x self) as [[[]|e] self1]; simpl in *; [|done].
  by apply IH.
Qed.

Ltac preserves_missed :=
  repeat first
    [ apply (DispatchFacts.preserves_send_sp missed_job_events
               (λ _ _, eq_refl) (λ _ _, eq_refl))
    | preserves_step ].

Lemma update_state_missed s : preserves missed_job_events (_update_state s).
Proof. unfold _update_state. preserves_missed. Qed.

Lemma update_heaters_missed items loc :
  preserves missed_job_events (update_heaters items loc).
Proof.
  revert loc. induction items as [|[printer_obj key] items IH]; intros loc.
  - by intros self.
  - simpl. apply preserves_bind; [|done].
    unfold update_heater. preserves_missed.
Qed.

Lemma update_temps_missed eventtime :
  preserves missed_job_events (_update_temps eventtime).
Proof.
  unfold _update_temps, interval.
  repeat first [ apply update_heaters_missed | preserves_missed ].
Qed.

Lemma info_timer_missed eventtime :
  preserves missed_job_events (_handle_printer_info_update eventtime).
Proof.
  unfold _handle_printer_info_update, _update_job_progress, interval.
  preserves_missed.
Qed.

Lemma process_demand_missed demand args :
  preserves missed_job_events (_process_demand demand args).
Proof. unfold _process_demand, create_task. preserves_missed. Qed.

Lemma replay_bounded curtime i :
  keeps_bounded (replay_missed_job_event curtime i).
Proof.
  intros self Hb. unfold replay_missed_job_event. method_unfold.
  destruct (missed_job_events self !! i) as [evt|]; [|done].
  destruct (evt !! "delay") as [v|]; [|done]. simpl.
  destruct (Val.to_float v) as [queued|]; [|done]. simpl.
  destruct (Py.int _) as [delay|]; [|done]. simpl.
  match goal with
  | |- context [_send_sp ?e ?d ?s] =>
      pose proof (DispatchFacts.preserves_send_sp missed_job_events
                    (λ _ _, eq_refl) (λ _ _, eq_refl) e d s) as Hs;
      destruct (_send_sp e d s) as [[b|err] s1]; simpl in *;
      unfold bounded; rewrite Hs; simpl; by rewrite length_insert
  end.
Qed.

Lemma push_initial_state_bounded : keeps_bounded _push_initial_state.
Proof.
  unfold _push_initial_state, create_task.
  apply keeps_bounded_bind; [by apply keeps_bounded_preserves|intros self0].
  do 5 (apply keeps_bounded_bind;
        [first [ apply keeps_bounded_for_each; intros ?; apply replay_bounded
               | apply keeps_bounded_preserves; preserves_missed ]
        |intros ?]).
  apply keeps_bounded_bind; [by intros self _; apply Nat.le_0_l|intros ?].
  apply keeps_bounded_preserves. preserves_missed.
Qed.

Lemma update_intervals_missed d :
  preserves missed_job_events (update_intervals d).
Proof. unfold update_intervals. preserves_missed. Qed.

Lemma process_message_bounded loaded :
  keeps_bounded (_process_message loaded).
Proof.
  unfold _process_message, _reset_keepalive, _save_item, local.
  apply keeps_bounded_bind; [apply keeps_bounded_preserves; preserves_missed
                            |intros _].
  destruct loaded as [packet|];
    [|apply keeps_bounded_preserves; preserves_missed].
  cbv zeta.
  apply keeps_bounded_bind; [apply keeps_bounded_preserves; preserves_missed
                            |intros event].
  apply keeps_bounded_bind; [apply keeps_bounded_preserves; preserves_missed
                            |intros data].
  destruct (Val.eq_str event "connected").
  - do 3 (apply keeps_bounded_bind;
          [apply keeps_bounded_preserves;
           repeat first [ apply update_intervals_missed | preserves_missed ]
          |intros ?]).
    apply keeps_bounded_bind;
      [apply keeps_bounded_preserves; preserves_missed|intros ?].
    apply push_initial_state_bounded.
  - apply keeps_bounded_preserves. unfold _set_ws_url.
    repeat first [ apply update_intervals_missed
                 | apply process_demand_missed
                 | preserves_missed ].
Qed.

Lemma send_job_event_keeps_bounded job_info :
  keeps_bounded (_send_job_event job_info).
Proof.
  intros self Hb. destruct (connected self) eqn:Hconn.
  - unfold _send_job_event. method_unfold. rewrite Hconn.
    match goal with
    | |- context [_send_sp ?e ?d ?s] =>
        pose proof (DispatchFacts.preserves_send_sp missed_job_events
                      (λ _ _, eq_refl) (λ _ _, eq_refl) e d s) as Hs;
        destruct (_send_sp e d s) as [[b|err] s1]; simpl in *;
        unfold bounded; by rewrite Hs
    end.
  - rewrite QueueFacts.send_job_event_run by done. unfold bounded. simpl.
    by apply QueueFacts.queue_step_bounded.
Qed.

Lemma call_bounded e : keeps_bounded (call e).
Proof.
  destruct e; simpl.
  - apply process_message_bounded.
  - apply send_job_event_keeps_bounded.
  - apply keeps_bounded_preserves, update_state_missed.
  - apply keeps_bounded_preserves, update_temps_missed.
  - apply keeps_bounded_preserves.
    apply preserves_bind; [apply info_timer_missed|intros ?].
    apply preserves_ret.
  - apply keeps_bounded_preserves. unfold _on_pause_requested.
    repeat first [apply update_state_missed | preserves_missed].
  - apply keeps_bounded_preserves. unfold _on_resume_requested.
    repeat first [apply update_state_missed | preserves_missed].
  - apply keeps_bounded_preserves. unfold _on_cancel_requested.
    repeat first [apply update_state_missed | preserves_missed].
Qed.

(** Whatever calls a component has taken since its construction, its
    queue of missed job events holds at most 10 entries. *)
Lemma queue_bounded_always (es : list entry) h sp_test connect_url database :
  bounded (after_calls es (__init__ h sp_test connect_url database)).
Proof.
  assert (Hinit : bounded (__init__ h sp_test connect_url database)).
  { unfold bounded, __init__. destruct connect_url; simpl; [lia|].
    unfold Method.exec.
    assert (Hurl : preserves missed_job_events _set_ws_url)
      by (unfold _set_ws_url; preserves_missed).
    rewrite Hurl. simpl. lia. }
  revert Hinit. generalize (__init__ h sp_test connect_url database).
  unfold after_calls. induction es as [|e es IH]; intros self Hb; simpl; [done|].
  apply IH. by apply call_bounded.
Qed.

End InvariantFacts.

(** ** The layer detector: hops, pauses, bounds and errors *)

Module LayerInvariants.
Import LayerDetect LayerScenario LayerRun.

Lemma updates_inactive (positions : list (list float)) (self : LayerDetect.t) :
  _active self = false →
  Method.for_each positions update self =
  (Ok tt, if positions is [] then self else set_check_next false self).
Proof.
  revert self. induction positions as [|p ps IH]; intros self Hoff; [done|].
  simpl. unfold Method.bind. rewrite LayerFacts.update_inactive by done.
  rewrite IH by done. by destruct ps.
Qed.

Lemma start_layer (metadata : Metadata) (self : LayerDetect.t) :
  _layer (Method.exec (start metadata) self) = 0.
Proof.
  unfold start, reset. method_unfold. simpl.
  destruct (layer_height metadata) as [lh|]; [|by destruct (first_layer_height metadata)].
  destruct (first_layer_height metadata) as [flh|]; simpl;
    (destruct (layer_count metadata); [reflexivity|]);
    (destruct (object_height metadata); [|reflexivity]);
    (destruct (Py.truediv _ _); [|reflexivity]); simpl;
    by destruct (Py.int _).
Qed.

Lemma step_bounded (o : op) (self : LayerDetect.t) :
  _layer self ≤ Z.max 0 (_layer_count self) →
  _layer (Method.exec (step o) self)
    ≤ Z.max 0 (_layer_count (Method.exec (step o) self)).
Proof.
  intros Hle. destruct o as [new_pos| |]; [|done..].
  unfold step, Method.exec. destruct (_active self) eqn:Hactive.
  - destruct (new_pos !! 2%nat) as [z|] eqn:Hz.
    + rewrite (LayerFacts.update_active self new_pos z) by done.
      destruct (PrimFloat.eqb _ z); [done|].
      destruct (negb _); [done|].
      destruct (Py.truediv _ _); [|done].
      destruct (Py.int _); [|done]. simpl. lia.
    + unfold update, item. method_unfold. by rewrite Hactive, Hz.
  - by rewrite LayerFacts.update_inactive.
Qed.

(** X1. A Z hop is filtered out: when an active detector with no change
    pending sees a position whose Z differs from the Z it last acted on
    and then a position back at that Z, neither call raises and the
    detector is exactly as before, layer index included. *)
Theorem zhop_filtered (self : LayerDetect.t) (hop back : list float)
    (z : float) :
  _active self = true →
  _check_next self = false →
  hop !! 2%nat = Some z →
  back !! 2%nat = Some (_layer_z self) →
  PrimFloat.eqb (_layer_z self) z = false →
  PrimFloat.eqb (_layer_z self) (_layer_z self) = true →
  Method.for_each [hop; back] update self = (Ok tt, self).
Proof.
  intros Hactive Hnext Hhop Hback Hne Hrefl. simpl. unfold Method.bind.
  rewrite (LayerFacts.update_active self hop z) by done.
  rewrite Hne, Hnext. simpl.
  rewrite (LayerFacts.update_active _ back (_layer_z self)) by done.
  simpl. rewrite Hrefl. unfold Method.ret.
  destruct self; simpl in *. by subst.
Qed.

Lemma zhop_filtered_witness :
  Method.for_each [at_z 1.3%float; at_z 0.7%float] update at_layer_3
  = (Ok tt, at_layer_3).
Proof.
  apply (zhop_filtered at_layer_3 _ _ 1.3%float); reflexivity.
Defined.

(** X2. The layer index never exceeds the layer count: from [start] on
    any metadata and any previous state, after any sequence of position
    updates, [stop]s and [resume]s, raising or not, the layer index is at
    most the layer count (at most 0 should the count be negative). *)
Theorem layer_at_most_count (metadata : Metadata) (self : LayerDetect.t)
    (ops : list op) :
  _layer (run ops (Method.exec (start metadata) self))
    ≤ Z.max 0 (_layer_count (run ops (Method.exec (start metadata) self))).
Proof.
  assert (Hstart : _layer (Method.exec (start metadata) self)
                     ≤ Z.max 0 (_layer_count (Method.exec (start metadata) self)))
    by (rewrite start_layer; lia).
  revert Hstart. generalize (Method.exec (start metadata) self).
  unfold run. induction ops as [|o ops IH]; intros s Hs; simpl; [done|].
  apply IH. by apply step_bounded.
Qed.

(** X3. Position updates during a pause do not move the layer: [stop],
    then any position updates (well-formed or not), then [resume] never
    raise and leave an active detector with the layer index, the Z last
    acted on, the heights and the count as before the pause; a change of
    Z noted before the pause is forgotten if any update came in. *)
Theorem pause_keeps_layer (self : LayerDetect.t)
    (positions : list (list float)) :
  (stop;; Method.for_each positions update;; resume) self =
  (Ok tt,
   set_active true
     (if positions is [] then self else set_check_next false self)).
Proof.
  unfold stop, resume. method_unfold.
  rewrite updates_inactive by done. by destruct positions.
Qed.

(** X4. How an update of an active detector fails. A position with fewer
    than three coordinates raises [IndexError] and leaves the detector
    untouched. With a layer height of 0, the update that would act on a
    noted change of Z raises [ZeroDivisionError]; the layer index and the
    Z last acted on stay, and the noted change is dropped. *)
Theorem update_failures (self : LayerDetect.t) (new_pos : list float) :
  _active self = true →
  ((length new_pos < 3)%nat →
   update new_pos self = (Raise IndexError, self)) ∧
  (∀ z, new_pos !! 2%nat = Some z →
        PrimFloat.eqb (_layer_z self) z = false →
        _check_next self = true →
        PrimFloat.eqb (_layer_height self) 0%float = true →
        update new_pos self
        = (Raise ZeroDivisionError, set_check_next false self)).
Proof.
  intros Hactive. split.
  - intros Hlen. unfold update, item. method_unfold.
    rewrite Hactive. simpl.
    by rewrite (lookup_ge_None_2 new_pos 2) by lia.
  - intros z Hz Hne Hnext Hzero.
    rewrite (LayerFacts.update_active self new_pos z) by done.
    rewrite Hne, Hnext. simpl. unfold Py.truediv. by rewrite Hzero.
Qed.

Lemma update_failures_witness :
  update [0%float; 0%float] zero_height = (Raise IndexError, zero_height) ∧
  update (at_z 0.4%float) zero_height
  = (Raise ZeroDivisionError, set_check_next false zero_height).
Proof.
  destruct (update_failures zero_height [0%float; 0%float] eq_refl)
    as [Hshort _].
  destruct (update_failures zero_height (at_z 0.4%float) eq_refl)
    as [_ Hzero].
  split.
  - apply Hshort. simpl. lia.
  - apply (Hzero 0.4%float); reflexivity.
Defined.

(** X5. [start] forgets the previous job: its outcome and the detector
    it leaves depend on the metadata only, not on the detector it is
    called on; and on metadata without a layer height that detector is
    the inactive one of [__init__]. *)
Theorem start_forgets (metadata : Metadata) (self self' : LayerDetect.t) :
  start metadata self = start metadata self' ∧
  (layer_height metadata = None →
   start metadata self = (Ok tt, __init__)).
Proof.
  split.
  - unfold start, reset. method_unfold. reflexivity.
  - intros Hlh. unfold start, reset. method_unfold. rewrite Hlh.
    by destruct (first_layer_height metadata).
Qed.

End LayerInvariants.

(** ** The diff helper and the receiver's copy *)

Section object_diff_merge.
Context {V : Type} {V_eq_dec : EqDecision V}.

(** X6. Applying the diff restores the new object: a receiver that holds
    [cached_obj] and merges [_get_object_diff new_obj cached_obj] into it
    ends up with [new_obj] merged into [cached_obj], that is with every
    entry of [new_obj] and with the entries of [cached_obj] whose keys
    [new_obj] lacks, which no diff removes; and the diff is empty exactly
    when every entry of [new_obj] is in [cached_obj] already. *)
Theorem diff_merge_round_trip (new_obj cached_obj : gmap string V) :
  _get_object_diff new_obj cached_obj ∪ cached_obj = new_obj ∪ cached_obj ∧
  (_get_object_diff new_obj cached_obj = ∅ ↔ new_obj ⊆ cached_obj).
Proof.
  unfold _get_object_diff.
  destruct (decide (cached_obj = ∅)) as [->|Hne].
  - split; [done|]. split.
    + intros ->. done.
    + intros Hsub. apply map_eq. intros k. rewrite lookup_empty.
      destruct (new_obj !! k) as [v|] eqn:Hk; [|done].
      eapply lookup_weaken in Hk; [|done]. by rewrite lookup_empty in Hk.
  - split.
    + apply map_eq. intros k. rewrite !lookup_union, diff_loop_lookup.
      destruct (new_obj !! k) as [v|] eqn:Hk; [|done].
      destruct (decide (cached_obj !! k = Some v)) as [Hc|Hc].
      * rewrite Hc. done.
      * by destruct (cached_obj !! k).
    + split.
      * intros Hempty. apply map_subseteq_spec. intros k v Hk.
        assert (Hl := diff_loop_lookup cached_obj new_obj k).
        rewrite Hempty, lookup_empty, Hk in Hl.
        by destruct (decide (cached_obj !! k = Some v)).
      * intros Hsub. apply map_eq. intros k.
        rewrite diff_loop_lookup, lookup_empty.
        destruct (new_obj !! k) as [v|] eqn:Hk; [|done].
        rewrite decide_True; [done|]. by eapply lookup_weaken.
Qed.
End object_diff_merge.

(** ** Inbound frames: what is dropped, tokens, intervals, demands *)

Module FrameFacts.
Import SimplyPrint Statement Scenario Inbound.

Lemma frame_type event data default :
  Val.get (frame event data) "type" default = Ok (PStr event).
Proof. by vm_compute. Qed.

Lemma frame_data event data default :
  Val.get (frame event data) "data" default = Ok data.
Proof. by vm_compute. Qed.

Lemma eqb_other (event other : string) :
  event ≠ other → String.eqb event other = false.
Proof. intros. by apply String.eqb_neq. Qed.

(** X7. The frames that [_process_message] drops. Text that is not JSON,
    a frame whose type is none of the six known ones, a [new_token],
    [set_up] or [demand] frame without data, a [new_token] frame whose
    token is not a string and an [interval_change] frame whose data is no
    object all return normally and change nothing but the keepalive
    timer, which every inbound text restarts; JSON that is not an object
    raises [AttributeError], with the same effect on the state. *)
Theorem frames_dropped (self : SimplyPrint.t) :
  _process_message None self = (Ok tt, only_keepalive self) ∧
  (∀ v, ¬ is_dict v →
        _process_message (Some v) self
        = (Raise AttributeError, only_keepalive self)) ∧
  (∀ event data, event ∉ known_events →
        _process_message (Some (frame event data)) self
        = (Ok tt, only_keepalive self)) ∧
  (∀ event, event ∈ ["new_token"; "set_up"; "demand"] →
        _process_message (Some (frame event PNone)) self
        = (Ok tt, only_keepalive self)) ∧
  (∀ d, ¬ (∃ token, d !! "token" = Some token ∧ is_str token) →
        _process_message (Some (frame "new_token" (PDict d))) self
        = (Ok tt, only_keepalive self)) ∧
  (∀ data, ¬ is_dict data →
        _process_message (Some (frame "interval_change" data)) self
        = (Ok tt, only_keepalive self)).
Proof.
  split; [reflexivity|]. split; [|split; [|split; [|split]]].
  - intros v Hv. unfold _process_message, _reset_keepalive. method_unfold.
    destruct v; try reflexivity. by destruct Hv.
  - intros event data Hin. unfold known_events in Hin.
    rewrite !not_elem_of_cons in Hin.
    destruct Hin as (H1 & H2 & H3 & H4 & H5 & H6 & _).
    unfold _process_message, _reset_keepalive. method_unfold.
    rewrite frame_type, frame_data. simpl.
    by rewrite !eqb_other.
  - intros event Hin. unfold _process_message, _reset_keepalive.
    method_unfold. rewrite frame_type, frame_data.
    repeat (apply elem_of_cons in Hin as [->|Hin]; [reflexivity|]).
    by apply elem_of_nil in Hin.
  - intros d Htoken. unfold _process_message, _reset_keepalive, local.
    method_unfold. rewrite frame_type, frame_data. simpl.
    destruct (d !! "token") as [token|] eqn:Hd; [|reflexivity].
    destruct token; try reflexivity.
    destruct Htoken. by eexists.
  - intros data Hdata. unfold _process_message, _reset_keepalive.
    method_unfold. rewrite frame_type, frame_data. simpl.
    destruct data; try reflexivity. by destruct Hdata.
Qed.

Lemma set_ws_url_run (self : SimplyPrint.t) :
  _set_ws_url self =
  let ep := if test self then TEST_ENDPOINT else PROD_ENDPOINT in
  match sp_info self !! "printer_token" with
  | Some PNone | None =>
      (Ok tt, set_connect_url (EndpointUrl ep (PStr "0") (PStr "0")) self)
  | Some token =>
      match sp_info self !! "printer_id" with
      | Some PNone | None =>
          (Ok tt, set_connect_url (EndpointUrl ep (PStr "0") token) self)
      | Some printer_id =>
          (Ok tt, set_connect_url (EndpointUrl ep printer_id token)
                    (set_is_set_up true self))
      end
  end.
Proof.
  unfold _set_ws_url. method_unfold. simpl.
  destruct (sp_info self !! "printer_token") as [[]|]; try reflexivity;
    destruct (sp_info self !! "printer_id") as [[]|]; reflexivity.
Qed.

(** X8. A [new_token] frame with a string token persists the token and
    re-derives the connect url. The token is stored under
    [printer_token] in the database and in its in-memory copy; the
    connect url becomes the endpoint url with that token, with the
    printer id when one is persisted and with [0] otherwise, also when
    the url had been configured; the component counts as set up from
    then on exactly if it did before or a printer id is persisted; and
    no frame is written, the session, cache and queue staying as they
    were. *)
Theorem new_token_persisted (self : SimplyPrint.t) (d : gmap string pyval)
    (token : string) :
  d !! "token" = Some (PStr token) →
  ∃ self',
    _process_message (Some (frame "new_token" (PDict d))) self
    = (Ok tt, self') ∧
    spdb self' = <["printer_token" := PStr token]> (spdb self) ∧
    sp_info self' = <["printer_token" := PStr token]> (sp_info self) ∧
    (let ep := if test self then TEST_ENDPOINT else PROD_ENDPOINT in
     match sp_info self !! "printer_id" with
     | Some PNone | None =>
         connect_url self' = EndpointUrl ep (PStr "0") (PStr token) ∧
         is_set_up self' = is_set_up self
     | Some printer_id =>
         connect_url self' = EndpointUrl ep printer_id (PStr token) ∧
         is_set_up self' = true
     end) ∧
    ws self' = ws self ∧ connected self' = connected self ∧
    cache self' = cache self ∧
    missed_job_events self' = missed_job_events self ∧
    reconnect_delay self' = reconnect_delay self.
Proof.
  intros Hd.
  destruct (sp_info self !! "printer_id") as [[]|] eqn:Hid;
    (eexists; split;
     [ unfold _process_message, _reset_keepalive, local, _save_item;
       method_unfold; rewrite frame_type, frame_data; simpl; rewrite Hd;
       simpl; rewrite set_ws_url_run; simpl;
       rewrite lookup_insert_eq;
       rewrite (lookup_insert_ne (sp_info self)) by done;
       rewrite Hid; reflexivity
     | repeat split; reflexivity ]).
Qed.

Lemma new_token_persisted_witness :
  ∃ self',
    _process_message
      (Some (frame "new_token" (PDict {["token" := PStr "abcd"]})))
      (__init__ (host fresh) true (Some "ws://localhost:8000") ∅)
    = (Ok tt, self') ∧
    spdb self' = {["printer_token" := PStr "abcd"]} ∧
    connect_url self' = EndpointUrl TEST_ENDPOINT (PStr "0") (PStr "abcd").
Proof.
  destruct (new_token_persisted
              (__init__ (host fresh) true (Some "ws://localhost:8000") ∅)
              {["token" := PStr "abcd"]} "abcd")
    as (self' & Hrun & Hdb & _ & Hurl & _); [by vm_compute|].
  exists self'. split; [exact Hrun|]. split; [exact Hdb|].
  apply Hurl.
Defined.

Lemma update_intervals_loop (l : list (string * pyval)) (self : SimplyPrint.t) :
  NoDup l.*1 →
  Forall (λ kv, milliseconds kv.2 = true) l →
  ∃ m,
    Method.for_each l (λ kv,
      secs ← Method.lift (Val.div_float kv.2 1000%float);
      Method.modify (λ self,
        set_intervals (<[kv.1 := secs]> (intervals self)) self)) self
    = (Ok tt, set_intervals m self) ∧
    ∀ k, m !! k = match (list_to_map l : gmap string pyval) !! k with
                  | Some v => seconds v
                  | None => intervals self !! k
                  end.
Proof.
  revert self. induction l as [|[k0 v0] l IH]; intros self Hnodup Hnum.
  - exists (intervals self). split; [by destruct self|]. intros k.
    simpl. by rewrite lookup_empty.
  - apply NoDup_cons in Hnodup as [Hfresh Hnodup].
    apply Forall_cons in Hnum as [Hv0 Hnum]. simpl in Hv0.
    unfold milliseconds in Hv0.
    destruct (Val.div_float v0 1000%float) as [s0|] eqn:Hdiv; [|done].
    destruct (IH (set_intervals (<[k0 := s0]> (intervals self)) self)
                Hnodup Hnum) as (m & Hrun & Hm).
    exists m. split.
    + set (body := λ kv : string * pyval, mbind _ _) in *.
      change (Method.for_each ((k0, v0) :: l) body self)
        with (Method.bind (body (k0, v0))
                (λ _, Method.for_each l body) self).
      unfold Method.bind.
      assert (Hbody : body (k0, v0) self
                      = (Ok tt, set_intervals (<[k0 := s0]> (intervals self))
                                  self)).
      { subst body. method_unfold. simpl. by rewrite Hdiv. }
      rewrite Hbody. exact Hrun.
    + intros k. rewrite Hm. simpl.
      destruct (decide (k = k0)) as [->|Hne].
      * rewrite lookup_insert_eq.
        rewrite (not_elem_of_list_to_map_1 _ _ Hfresh).
        rewrite lookup_insert_eq. unfold seconds. by rewrite Hdiv.
      * rewrite (lookup_insert_ne (list_to_map l)) by done.
        destruct (list_to_map l !! k); [done|].
        by rewrite lookup_insert_ne.
Qed.

Lemma update_intervals_run (d : gmap string pyval) (self : SimplyPrint.t) :
  (∀ k v, d !! k = Some v → milliseconds v = true) →
  ∃ m,
    update_intervals d self = (Ok tt, set_intervals m self) ∧
    ∀ k, m !! k = match d !! k with
                  | Some v => seconds v
                  | None => intervals self !! k
                  end.
Proof.
  intros Hnum.
  destruct (update_intervals_loop (map_to_list d) self) as (m & Hrun & Hm).
  - apply NoDup_fst_map_to_list.
  - apply Forall_forall. intros [k v] Hkv. simpl.
    apply (Hnum k). by apply elem_of_map_to_list.
  - exists m. split; [exact Hrun|]. intros k.
    by rewrite Hm, list_to_map_to_list.
Qed.

(** X9. An [interval_change] frame whose values are numbers returns
    normally; afterwards every key of the frame has its value divided by
    1000 as interval, every other interval is as before (keys the
    component does not know are stored as well), and nothing else
    changes but the keepalive timer. *)
Theorem interval_change_applied (self : SimplyPrint.t)
    (d : gmap string pyval) :
  (∀ k v, d !! k = Some v → milliseconds v = true) →
  ∃ m,
    _process_message (Some (frame "interval_change" (PDict d))) self
    = (Ok tt, set_intervals m (only_keepalive self)) ∧
    ∀ k, m !! k = match d !! k with
                  | Some v => seconds v
                  | None => intervals self !! k
                  end.
Proof.
  intros Hnum.
  destruct (update_intervals_run d (only_keepalive self) Hnum)
    as (m & Hrun & Hm).
  exists m. split; [|exact Hm].
  unfold _process_message, _reset_keepalive. method_unfold.
  rewrite frame_type, frame_data. simpl. exact Hrun.
Qed.

Lemma interval_change_applied_witness :
  ∃ m,
    _process_message
      (Some (frame "interval_change"
               (PDict (<["temps" := PInt 5000]> {["ai" := PFloat 250%float]}))))
      fresh
    = (Ok tt, set_intervals m (only_keepalive fresh)) ∧
    m !! "temps" = Some 5%float ∧ m !! "ai" = Some 0.25%float ∧
    m !! "job" = Some 1%float.
Proof.
  destruct (interval_change_applied fresh
              (<["temps" := PInt 5000]> {["ai" := PFloat 250%float]}))
    as (m & Hrun & Hm).
  - intros k v Hk.
    destruct (decide (k = "temps")) as [->|Hne].
    + rewrite lookup_insert_eq in Hk. injection Hk as <-. by vm_compute.
    + rewrite lookup_insert_ne in Hk by done.
      apply lookup_singleton_Some in Hk as [_ <-]. by vm_compute.
  - exists m. split; [exact Hrun|]. rewrite !Hm. split; [|split].
    + rewrite lookup_insert_eq. by vm_compute.
    + rewrite lookup_insert_ne by done. rewrite lookup_singleton_eq.
      by vm_compute.
    + rewrite lookup_insert_ne by done. rewrite lookup_singleton_ne by done.
      by vm_compute.
Defined.

Lemma join_strs (lines : list string) :
  Val.join_lines (PList (PStr <$> lines))
  = Ok (String.concat Val.newline lines).
Proof.
  unfold Val.join_lines.
  assert (Hiter : Val.iter_strs (PList (PStr <$> lines)) = Ok lines).
  { unfold Val.iter_strs. induction lines as [|s ss IH]; [done|].
    rewrite fmap_cons. cbn [foldr]. by rewrite IH. }
  by rewrite Hiter.
Qed.

Lemma demand_frame_run (demand : string) (args : gmap string pyval)
    (self : SimplyPrint.t) :
  _process_message (Some (demand_frame demand args)) self
  = _process_demand (PStr demand) (PDict (delete "demand" args))
      (only_keepalive self).
Proof.
  unfold _process_message, _reset_keepalive, demand_frame. method_unfold.
  rewrite frame_type, frame_data. simpl.
  rewrite lookup_insert_eq. simpl.
  by rewrite delete_insert_eq.
Qed.

(** X10. What a [demand] frame does. While Klipper is not connected
    every demand is dropped. With Klipper connected: a [gcode] demand
    with a non-empty list of strings hands one task to the event loop
    that runs the lines joined by newlines, and one without a list hands
    over none; a [terminal] demand with an [enabled] entry stores that
    entry as the terminal switch; a demand that is none of pause, resume,
    cancel, terminal and gcode is dropped. None of them writes a frame or
    changes anything else but the keepalive timer. *)
Theorem demand_frames (self : SimplyPrint.t) (args : gmap string pyval) :
  (klippy_connected (host self) = false →
   ∀ demand, _process_message (Some (demand_frame demand args)) self
             = (Ok tt, only_keepalive self)) ∧
  (klippy_connected (host self) = true →
   (∀ lines, lines ≠ [] → args !! "list" = Some (PList (PStr <$> lines)) →
      _process_message (Some (demand_frame "gcode" args)) self
      = (Ok tt, set_tasks
                  (tasks self ++ [RunGcode (String.concat Val.newline lines)])
                  (only_keepalive self))) ∧
   (args !! "list" = None →
      _process_message (Some (demand_frame "gcode" args)) self
      = (Ok tt, only_keepalive self)) ∧
   (∀ enabled, args !! "enabled" = Some enabled →
      _process_message (Some (demand_frame "terminal" args)) self
      = (Ok tt, set_gcode_terminal_enabled enabled (only_keepalive self))) ∧
   (∀ demand,
      demand ∉ ["pause"; "resume"; "cancel"; "terminal"; "gcode"] →
      _process_message (Some (demand_frame demand args)) self
      = (Ok tt, only_keepalive self))).
Proof.
  split.
  - intros Hoff demand. rewrite demand_frame_run.
    unfold _process_demand. method_unfold. simpl. by rewrite Hoff.
  - intros Hon. split; [|split; [|split]].
    + intros lines Hlines Hlist. rewrite demand_frame_run.
      unfold _process_demand, create_task. method_unfold. simpl.
      rewrite Hon. simpl.
      rewrite lookup_delete_ne by done. rewrite Hlist.
      assert (Htruthy : Val.truthy (PList (PStr <$> lines)) = true)
        by (by destruct lines).
      rewrite Htruthy, join_strs. reflexivity.
    + intros Hlist. rewrite demand_frame_run.
      unfold _process_demand. method_unfold. simpl. rewrite Hon. simpl.
      rewrite lookup_delete_ne by done. by rewrite Hlist.
    + intros enabled Henabled. rewrite demand_frame_run.
      unfold _process_demand. method_unfold. simpl. rewrite Hon. simpl.
      rewrite lookup_delete_ne by done. by rewrite Henabled.
    + intros demand Hin. rewrite !not_elem_of_cons in Hin.
      destruct Hin as (H1 & H2 & H3 & H4 & H5 & _).
      rewrite demand_frame_run.
      unfold _process_demand. method_unfold. simpl. rewrite Hon. simpl.
      by rewrite !eqb_other.
Qed.

End FrameFacts.

(** ** Temperatures: set-up, target changes and the next evaluation *)

Module TempSchedule.
Import SimplyPrint Statement Scenario Heating.

Lemma update_heater_touches printer_obj key loc self :
  touches_temps_only self (update_heater printer_obj key loc self).2.
Proof.
  destruct (heater_reading self printer_obj) as [r|e] eqn:Hr.
  - rewrite (TempFacts.update_heater_run _ _ _ _ r Hr). cbv zeta.
    repeat match goal with
           | |- context [if ?b then _ else _] => destruct b
           end; simpl;
      try apply TempFacts.touches_set_lr;
      (eapply TempFacts.touches_trans;
       [apply TempFacts.touches_set_lr|apply TempFacts.touches_set_temps]).
  - rewrite (TempFacts.update_heater_raise _ _ _ _ e Hr).
    apply TempFacts.touches_refl.
Qed.

Lemma update_heaters_touches items loc self :
  touches_temps_only self (update_heaters items loc self).2.
Proof.
  revert loc self. induction items as [|[obj key] items IH]; intros loc self.
  - apply TempFacts.touches_refl.
  - simpl. method_unfold.
    pose proof (update_heater_touches obj key loc self) as Ht.
    destruct (update_heater obj key loc self) as [[loc1|e] self1];
      simpl in *; [|done].
    eapply TempFacts.touches_trans; [exact Ht|apply IH].
Qed.

Lemma touches_set_up self self1 :
  touches_temps_only self self1 →
  is_set_up self1 = is_set_up self ∧ ws self1 = ws self ∧
  connected self1 = connected self ∧ intervals self1 = intervals self.
Proof. by intros (lr & ct & ->). Qed.

(** X11. No temperatures go out before the printer is set up: while
    [is_set_up] is false, an evaluation of the temperatures writes no
    frame, whatever the heaters read and whether it returns or raises. *)
Theorem no_temps_before_set_up (eventtime : float) (self : SimplyPrint.t) :
  is_set_up self = false →
  ws (Method.exec (_update_temps eventtime) self) = ws self ∧
  is_set_up (Method.exec (_update_temps eventtime) self) = false.
Proof.
  intros Hsetup. unfold Method.exec, _update_temps. method_unfold.
  destruct (PrimFloat.ltb _ _); [done|].
  pose proof (update_heaters_touches (heaters self)
                {| need_rapid_update := false; temp_data := ∅ |} self) as Ht.
  destruct (update_heaters _ _ self) as [[loc|e] self1]; simpl in *;
    apply touches_set_up in Ht as (Hs & Hw & _ & _); rewrite Hsetup in Hs;
    [|by rewrite Hw].
  rewrite <- Hw. unfold interval. method_unfold. simpl.
  assert (Hemit : ∀ s0 : SimplyPrint.t,
            is_set_up s0 = false →
            (if bool_decide (temp_data loc = ∅)
             then λ s : SimplyPrint.t, (Ok tt, s)
             else λ s : SimplyPrint.t,
               (if is_set_up s
                then λ s1 : SimplyPrint.t,
                  let (r0, s2) :=
                    _send_sp "temps" (temp_data_payload (temp_data loc))
                      s1 in
                  match r0 with
                  | Ok _ => (Ok tt, s2)
                  | Raise e => (Raise e, s2)
                  end
                else λ s1 : SimplyPrint.t, (Ok tt, s1)) s) s0
            = (Ok tt, s0)).
  { intros s0 Hs0. destruct (bool_decide _); [done|]. by rewrite Hs0. }
  destruct (need_rapid_update loc).
  - destruct (intervals self1 !! "temps_target") as [secs|] eqn:Hi; simpl;
      [|done].
    destruct (PrimFloat.ltb secs _); simpl; rewrite ?Hi; simpl;
      by rewrite Hemit.
  - destruct (intervals self1 !! "temps") as [secs|]; simpl; [|done].
    by rewrite Hemit.
Qed.

Lemma no_temps_before_set_up_witness :
  ws (Method.exec (_update_temps 1%float) not_set_up) = ws not_set_up ∧
  is_set_up (Method.exec (_update_temps 1%float) not_set_up) = false.
Proof. apply (no_temps_before_set_up 1%float not_set_up). reflexivity. Defined.

Lemma update_temps_exact eventtime self loc self1 t_temps t_target :
  PrimFloat.ltb eventtime (next_temp_update_time self) = false →
  update_heaters (heaters self)
    {| need_rapid_update := false; temp_data := ∅ |} self = (Ok loc, self1) →
  intervals self1 !! "temps" = Some t_temps →
  intervals self1 !! "temps_target" = Some t_target →
  _update_temps eventtime self =
  let next :=
    if need_rapid_update loc then
      if PrimFloat.ltb t_target 0.2501%float then 0%float
      else PrimFloat.add eventtime t_target
    else PrimFloat.add eventtime t_temps in
  let self2 := set_next_temp_update_time next self1 in
  if bool_decide (temp_data loc = ∅) then (Ok tt, self2)
  else if is_set_up self1 then
    (Ok tt,
     Method.exec (_send_sp "temps" (temp_data_payload (temp_data loc))) self2)
  else (Ok tt, self2).
Proof.
  intros Hdue Hloop Htemps Htarget. unfold _update_temps, interval.
  method_unfold. rewrite Hdue, Hloop. simpl.
  destruct (need_rapid_update loc); rewrite ?Htarget, ?Htemps; simpl;
    [destruct (PrimFloat.ltb t_target _); simpl; rewrite ?Htarget; simpl|];
    (destruct (bool_decide _); [reflexivity|]); simpl;
    (destruct (is_set_up self1); [|reflexivity]);
    rewrite StateFacts.send_sp_run; simpl;
    destruct (connected self1), (ws self1); reflexivity.
Qed.

Lemma existsb_agree {A} (f g : A → bool) (l : list A) :
  (∀ x, x ∈ l → f x = g x) → existsb f l = existsb g l.
Proof.
  induction l as [|x l IH]; intros Hfg; [done|]. simpl.
  rewrite (Hfg x) by by left. f_equal. apply IH.
  intros y Hy. apply Hfg. by right.
Qed.

Lemma seeks_target_kept self self1 obj key :
  touches_temps_only self self1 →
  ReportCache.temps (cache self1) !! key
    = ReportCache.temps (cache self) !! key →
  seeks_target self1 (obj, key) = seeks_target self (obj, key).
Proof.
  intros Ht Hc. unfold seeks_target, last_temps. simpl.
  rewrite (TempFacts.touches_reading self self1 obj Ht), Hc.
  destruct (heater_reading self obj); [|done].
  by rewrite (TempFacts.touches_seeking self self1 _ Ht).
Qed.

(** With distinct keys and readable heaters the loop returns, and it asks
    for the rapid update exactly if some heater seeks its target. *)
Lemma update_heaters_rapid items loc self :
  NoDup items.*2 →
  Forall (readable self) items →
  ∃ loc1 self1,
    update_heaters items loc self = (Ok loc1, self1) ∧
    need_rapid_update loc1
    = need_rapid_update loc || existsb (seeks_target self) items.
Proof.
  revert loc self. induction items as [|[obj key] items IH];
    intros loc self Hnodup Hread.
  - exists loc, self. split; [done|]. simpl. by rewrite orb_false_r.
  - simpl in Hnodup. apply NoDup_cons in Hnodup as [Hfresh Hnodup].
    apply Forall_cons in Hread as [[r Hr] Hread]. simpl in Hr.
    pose proof (update_heater_touches obj key loc self) as Ht.
    assert (Hkeeps : ∀ item, item ∈ items →
              keeps item.2 loc self (update_heater obj key loc self)).
    { intros [obj2 key2] Hin. apply TempFacts.update_heater_keeps.
      intros ->. apply Hfresh.
      by apply (list_elem_of_fmap_2 snd items (obj2, key2)). }
    assert (Hrapid : ∃ loc1 self1,
              update_heater obj key loc self = (Ok loc1, self1) ∧
              need_rapid_update loc1
              = need_rapid_update loc || seeks_target self (obj, key)).
    { rewrite (TempFacts.update_heater_run _ _ _ _ r Hr). cbv zeta.
      unfold seeks_target. simpl. rewrite Hr.
      destruct ((ret r).2 =? (last_temps self key).2); simpl;
        [|eexists _, _; split; [reflexivity|]; simpl; by rewrite orb_false_r].
      destruct (debounce _ _ _ _); [by eexists _, _|].
      destruct ((ret r).1 =? _); by eexists _, _. }
    destruct Hrapid as (loc1 & self1 & Hturn & Hr1).
    rewrite Hturn in Ht, Hkeeps. simpl in Ht.
    destruct (IH loc1 self1 Hnodup) as (loc2 & self2 & Hrest & Hr2).
    { apply Forall_forall. intros [obj2 key2] Hin.
      rewrite Forall_forall in Hread. destruct (Hread _ Hin) as [r2 Hr2].
      exists r2. simpl in *.
      by rewrite (TempFacts.touches_reading self self1 obj2 Ht). }
    exists loc2, self2. split.
    + simpl. method_unfold. by rewrite Hturn.
    + rewrite Hr2, Hr1. simpl. rewrite <- orb_assoc. do 2 f_equal.
      apply existsb_agree. intros [obj2 key2] Hin.
      destruct (Hkeeps (obj2, key2) Hin) as (_ & Hc & _).
      by apply seeks_target_kept.
Qed.

(** X12. When the next evaluation of the temperatures is due. With
    distinct keys, readable heaters and the [temps] and [temps_target]
    intervals present, an evaluation that is not early returns, and it
    plans the next one at the event time plus the [temps] interval if no
    heater is seeking an unchanged target; if one is, at the event time
    plus the [temps_target] interval, or at time 0, which lets every
    later evaluation in, when that interval is below 0.2501 s. *)
Theorem temps_next_evaluation (eventtime : float) (self : SimplyPrint.t)
    (t_temps t_target : float) :
  NoDup (heaters self).*2 →
  Forall (readable self) (heaters self) →
  intervals self !! "temps" = Some t_temps →
  intervals self !! "temps_target" = Some t_target →
  PrimFloat.ltb eventtime (next_temp_update_time self) = false →
  Method.eval (_update_temps eventtime) self = Ok tt ∧
  next_temp_update_time (Method.exec (_update_temps eventtime) self) =
    if existsb (seeks_target self) (heaters self) then
      if PrimFloat.ltb t_target 0.2501%float then 0%float
      else PrimFloat.add eventtime t_target
    else PrimFloat.add eventtime t_temps.
Proof.
  intros Hnodup Hread Htemps Htarget Hdue.
  destruct (update_heaters_rapid (heaters self)
              {| need_rapid_update := false; temp_data := ∅ |} self
              Hnodup Hread) as (loc & self1 & Hloop & Hrapid).
  pose proof (update_heaters_touches (heaters self)
                {| need_rapid_update := false; temp_data := ∅ |} self) as Ht.
  rewrite Hloop in Ht. simpl in *.
  apply touches_set_up in Ht as (_ & _ & _ & Hi).
  unfold Method.eval, Method.exec.
  rewrite (update_temps_exact eventtime self loc self1 t_temps t_target)
    by (by rewrite ?Hi).
  cbv zeta. rewrite Hrapid.
  destruct (bool_decide _); [done|].
  destruct (is_set_up self1); [|done].
  split; [done|]. simpl. unfold Method.exec.
  by rewrite (DispatchFacts.preserves_send_sp next_temp_update_time
                (λ _ _, eq_refl) (λ _ _, eq_refl)).
Qed.

Lemma temps_next_evaluation_witness :
  Method.eval (_update_temps 4%float) heating_up = Ok tt ∧
  next_temp_update_time (Method.exec (_update_temps 4%float) heating_up)
  = 5%float.
Proof.
  destruct (temps_next_evaluation 4%float heating_up 1%float 0.25%float)
    as [Hret Hnext].
  - apply (bool_decide_unpack _). by vm_compute.
  - repeat constructor; eexists; by vm_compute.
  - by vm_compute.
  - by vm_compute.
  - reflexivity.
  - split; [exact Hret|]. rewrite Hnext. by vm_compute.
Defined.

(** The turn of a heater whose rounded target is not the cached one
    records the full pair, and the rest of the loop leaves it. *)
Lemma update_heaters_changed items printer_obj key r loc self loc1 self1 :
  NoDup items.*2 →
  (printer_obj, key) ∈ items →
  heater_reading self printer_obj = Ok r →
  ((ret r).2 =? (last_temps self key).2) = false →
  update_heaters items loc self = (Ok loc1, self1) →
  temp_data loc1 !! key = Some [(ret r).1; (ret r).2] ∧
  ReportCache.temps (cache self1) !! key = Some (ret r) ∧
  last_received_temps self1 !! key = Some (reported_temp r).
Proof.
  revert loc self. induction items as [|[obj1 key1] items IH];
    intros loc self Hnodup Hin Hr Hchanged Hrun;
    [by apply elem_of_nil in Hin|].
  simpl in Hnodup. apply NoDup_cons in Hnodup as [Hfresh Hnodup].
  simpl in Hrun. method_unfold.
  apply elem_of_cons in Hin as [[= <- <-]|Hin].
  - rewrite (TempFacts.update_heater_run _ _ _ _ r Hr) in Hrun.
    cbv zeta in Hrun. rewrite Hchanged in Hrun.
    match type of Hrun with
    | update_heaters items ?l ?s = _ =>
        destruct (TempFacts.update_heaters_keeps items key l s Hfresh)
          as (_ & Hc & Hl & Hd)
    end.
    rewrite Hrun in Hc, Hl, Hd. simpl in *.
    rewrite Hc, Hl, (Hd loc1 eq_refl), !lookup_insert_eq. done.
  - assert (Hne : key1 ≠ key).
    { intros ->. apply Hfresh.
      by apply (list_elem_of_fmap_2 snd items (printer_obj, key)). }
    destruct (TempFacts.update_heater_keeps obj1 key1 key loc self Hne)
      as (Ht & Hc & _).
    destruct (update_heater obj1 key1 loc self) as [[loc0|e] self0];
      simpl in *; [|done].
    apply (IH loc0 self0); try done.
    + by rewrite (TempFacts.touches_reading self).
    + unfold last_temps in *. by rewrite Hc.
Qed.

(** X13. A changed target is reported in full. With distinct keys,
    readable heaters and both intervals present, in a session that is
    set up and connected on a live socket, an evaluation that is not
    early and meets a heater whose rounded target differs from the cached
    one returns, caches the heater's new pair of rounded temperature and
    target, and writes exactly one frame, of type [temps], in which the
    heater's key carries both the temperature and the target. *)
Theorem target_change_reported (eventtime : float) (self : SimplyPrint.t)
    (printer_obj key : string) (r : reading) (t_temps t_target : float)
    (written : list packet) :
  NoDup (heaters self).*2 →
  Forall (readable self) (heaters self) →
  intervals self !! "temps" = Some t_temps →
  intervals self !! "temps_target" = Some t_target →
  PrimFloat.ltb eventtime (next_temp_update_time self) = false →
  is_set_up self = true → connected self = true → ws self = Some written →
  (printer_obj, key) ∈ heaters self →
  heater_reading self printer_obj = Ok r →
  (ret r).2 ≠ (last_temps self key).2 →
  ∃ temp_data,
    Method.eval (_update_temps eventtime) self = Ok tt ∧
    ws (Method.exec (_update_temps eventtime) self)
    = Some (written ++ [temps_frame temp_data]) ∧
    temp_data !! key = Some [(ret r).1; (ret r).2] ∧
    ReportCache.temps (cache (Method.exec (_update_temps eventtime) self))
      !! key = Some (ret r).
Proof.
  intros Hnodup Hread Htemps Htarget Hdue Hsetup Hconn Hws Hin Hr Hne.
  destruct (update_heaters_rapid (heaters self)
              {| need_rapid_update := false; temp_data := ∅ |} self
              Hnodup Hread) as (loc & self1 & Hloop & _).
  pose proof (update_heaters_touches (heaters self)
                {| need_rapid_update := false; temp_data := ∅ |} self) as Ht.
  rewrite Hloop in Ht. simpl in Ht.
  apply touches_set_up in Ht as (Hs & Hw & Hc & Hi).
  apply Z.eqb_neq in Hne.
  destruct (update_heaters_changed _ _ _ _ _ _ _ _ Hnodup Hin Hr Hne Hloop)
    as (Hdata & Hcache & _).
  exists (temp_data loc).
  unfold Method.eval, Method.exec.
  rewrite (update_temps_exact eventtime self loc self1 t_temps t_target)
    by (by rewrite ?Hi).
  cbv zeta. rewrite bool_decide_false, Hs, Hsetup.
  2:{ intros Hempty. by rewrite Hempty, lookup_empty in Hdata. }
  unfold Method.exec. rewrite StateFacts.send_sp_run. simpl.
  rewrite Hc, Hconn, Hw, Hws. simpl. done.
Qed.

Lemma target_change_reported_witness :
  ∃ temp_data,
    Method.eval (_update_temps 4%float) heating_up = Ok tt ∧
    ws (Method.exec (_update_temps 4%float) heating_up)
    = Some ([] ++ [temps_frame temp_data]) ∧
    temp_data !! "tool0" = Some [26; 210] ∧
    ReportCache.temps (cache (Method.exec (_update_temps 4%float) heating_up))
      !! "tool0" = Some (26, 210).
Proof.
  apply (target_change_reported 4%float heating_up "extruder" "tool0"
           {| reported_temp := 25.5%float; ret := (26, 210) |}
           1%float 0.25%float []).
  - apply (bool_decide_unpack _). by vm_compute.
  - repeat constructor; eexists; by vm_compute.
  - by vm_compute.
  - by vm_compute.
  - reflexivity.
  - reflexivity.
  - reflexivity.
  - reflexivity.
  - by left.
  - by vm_compute.
  - by vm_compute.
Defined.

End TempSchedule.

(** ** The push after a connection *)

Module ReplayFacts.
Import SimplyPrint Statement Scenario Replay.

Lemma send_live evt d (self : SimplyPrint.t) written :
  connected self = true → ws self = Some written →
  _send_sp evt d self =
  (Ok true,
   set_ws (Some (written ++ [{| evt_name := evt; data := d |}]))
     (set_keepalive_hdl (Some KEEPALIVE_TIME) self)).
Proof. intros Hc Hw. by rewrite StateFacts.send_sp_run, Hc, Hw. Qed.

Lemma replay_turn curtime (self : SimplyPrint.t) pre evt evt' rest written :
  connected self = true → ws self = Some written →
  keepalive_hdl self = Some KEEPALIVE_TIME →
  missed_job_events self = pre ++ evt :: rest →
  replayed curtime evt = Some evt' →
  replay_missed_job_event curtime (length pre) self =
  (Ok tt,
   set_missed_job_events (pre ++ evt' :: rest)
     (set_ws (Some (written ++ [job_info_frame evt'])) self)).
Proof.
  intros Hc Hw Hk Hq Hrep. unfold replay_missed_job_event, replayed in *.
  method_unfold. simpl. rewrite Hq.
  rewrite list_lookup_middle by done.
  destruct (evt !! "delay") as [v|]; [|done]. simpl.
  destruct (Val.to_float v) as [queued|]; [|done]. simpl.
  destruct (Py.int _) as [delay|]; [|done]. simpl.
  injection Hrep as <-.
  rewrite (send_live _ _ _ written) by done. simpl.
  rewrite Hq, insert_app_r_alt, Nat.sub_diag by done. simpl.
  destruct self; simpl in *. by subst.
Qed.

Lemma replay_loop curtime evs : ∀ evs' pre (self : SimplyPrint.t) written,
  connected self = true → ws self = Some written →
  keepalive_hdl self = Some KEEPALIVE_TIME →
  missed_job_events self = pre ++ evs →
  Forall2 (λ evt evt', replayed curtime evt = Some evt') evs evs' →
  Method.for_each (seq (length pre) (length evs))
    (replay_missed_job_event curtime) self =
  (Ok tt,
   set_missed_job_events (pre ++ evs')
     (set_ws (Some (written ++ (job_info_frame <$> evs'))) self)).
Proof.
  induction evs as [|evt rest IH];
    intros evs' pre self written Hc Hw Hk Hq Hall.
  - apply Forall2_nil_inv_l in Hall as ->. simpl. unfold Method.ret.
    rewrite !app_nil_r in *. destruct self; simpl in *. by subst.
  - apply Forall2_cons_inv_l in Hall as (evt' & rest' & Hrep & Hall & ->).
    simpl. unfold Method.bind.
    rewrite (replay_turn curtime self pre evt evt' rest written) by done.
    replace (S (length pre)) with (length (pre ++ [evt']))
      by (rewrite length_app; simpl; lia).
    rewrite (IH rest' (pre ++ [evt']) _ (written ++ [job_info_frame evt']));
      try done.
    + simpl. rewrite <- !app_assoc. reflexivity.
    + simpl. by rewrite <- app_assoc.
Qed.

Lemma replay_queue curtime evs evs' (self : SimplyPrint.t) written :
  connected self = true → ws self = Some written →
  keepalive_hdl self = Some KEEPALIVE_TIME →
  missed_job_events self = evs →
  Forall2 (λ evt evt', replayed curtime evt = Some evt') evs evs' →
  Method.for_each (seq 0 (length evs)) (replay_missed_job_event curtime) self
  = (Ok tt,
     set_missed_job_events evs'
       (set_ws (Some (written ++ (job_info_frame <$> evs'))) self)).
Proof. apply (replay_loop curtime evs evs' [] self written). Qed.

Ltac send_live_step :=
  rewrite (send_live _ _ _ _) by (simpl; first [eassumption | reflexivity]);
  simpl.

(** [_push_initial_state] on a live session, as one equation. *)
Lemma push_initial_state_run (self : SimplyPrint.t) (written : list packet)
    (events : list (gmap string pyval)) :
  connected self = true →
  ws self = Some written →
  Forall2 (λ evt evt', replayed (loop_time (host self)) evt = Some evt')
    (missed_job_events self) events →
  _push_initial_state self =
  (Ok tt,
   set_tasks (tasks self ++ [SendMachineData])
     (set_missed_job_events []
        (set_ws (Some (written ++ initial_frames self events))
           (set_keepalive_hdl (Some KEEPALIVE_TIME) self)))).
Proof.
  intros Hc Hw Hall. unfold _push_initial_state, initial_frames, create_task.
  method_unfold. send_live_step.
  set (temps := negb (bool_decide (ReportCache.temps (cache self) = ∅))
                && is_set_up self).
  set (fw := negb (bool_decide
                     (dom (ReportCache.firmware_info (cache self)) = ∅))).
  set (tool := negb (String.eqb
                       (ReportCache.active_extruder (cache self)) "")).
  set (cpu := negb (bool_decide
                      (dom (ReportCache.cpu_info (cache self)) = ∅))).
  destruct temps; [send_live_step|]; simpl;
    (destruct fw; [send_live_step|]; simpl);
    match goal with
    | |- context [Method.for_each _ _ ?s] =>
        match s with
        | context [set_ws (Some ?w) _] =>
            rewrite (replay_queue (loop_time (host self))
                       (missed_job_events self) events s w)
              by (simpl; first [assumption | reflexivity])
        end
    end; simpl;
    (destruct tool; [send_live_step|]; simpl);
    (destruct cpu; [send_live_step|]; simpl);
    send_live_step; rewrite <- ?app_assoc; reflexivity.
Qed.

(** X14. What a connection pushes, and in which order. In a connected
    session on a live socket, with every queued event carrying the time
    it was queued at, [_push_initial_state] returns and writes, in this
    order: the cached state; the cached temperatures if there are any and
    the printer is set up; the cached firmware info if there is any;
    every queued job event, oldest first, its [delay] replaced by the
    whole seconds it waited; the active tool if one is cached; the cached
    cpu info if there is any; the ambient temperature. It leaves the
    queue empty, restarts the keepalive timer, hands the machine data
    task to the event loop, and changes nothing else. *)
Theorem initial_push (self : SimplyPrint.t) (written : list packet)
    (events : list (gmap string pyval)) :
  connected self = true →
  ws self = Some written →
  Forall2 (λ evt evt', replayed (loop_time (host self)) evt = Some evt')
    (missed_job_events self) events →
  _push_initial_state self =
  (Ok tt,
   set_tasks (tasks self ++ [SendMachineData])
     (set_missed_job_events []
        (set_ws (Some (written ++ initial_frames self events))
           (set_keepalive_hdl (Some KEEPALIVE_TIME) self)))).
Proof.
  intros Hconn Hws Hall.
  rewrite (push_initial_state_run self written events) by done.
  reflexivity.
Qed.

Lemma initial_push_witness :
  _push_initial_state reconnected =
  (Ok tt,
   set_tasks [SendMachineData]
     (set_missed_job_events []
        (set_ws
           (Some [ state_change "offline";
                   job_info_frame (<["cancelled" := PBool true]>
                                     {["delay" := PInt 17]});
                   job_info_frame (<["finished" := PBool true]>
                                     {["delay" := PInt 12]});
                   {| evt_name := "ambient";
                      data := new_payload (PInt 85) |} ])
           (set_keepalive_hdl (Some KEEPALIVE_TIME) reconnected)))).
Proof.
  apply (initial_push reconnected []
           [ <["cancelled" := PBool true]> {["delay" := PInt 17]};
             <["finished" := PBool true]> {["delay" := PInt 12]} ]).
  - reflexivity.
  - reflexivity.
  - repeat constructor; by vm_compute.
Defined.

(** X15. A job event that could not be sent is delivered with the next
    connection. If the session is not connected and the queue is empty,
    [_send_job_event] queues the event; when the socket has been opened
    again and a [connected] frame without intervals and name arrives,
    the push that follows carries that event once, merged with the job
    info cached when it was queued, its [delay] being the whole seconds
    between the two loop times; the queue is empty afterwards, the
    reconnect delay is 1 and the session counts as connected. *)
Theorem missed_event_delivered (self : SimplyPrint.t)
    (job_info d : gmap string pyval) (later : Host)
    (written : list packet) (delay : Z) :
  connected self = false →
  missed_job_events self = [] →
  d !! "interval" = None → d !! "name" = None →
  Py.int (PrimFloat.add
            (PrimFloat.sub (loop_time later) (loop_time (host self)))
            0.5%float) = Ok delay →
  let reopened :=
    set_ws (Some written)
      (set_host later (Method.exec (_send_job_event job_info) self)) in
  let evt := <["delay" := PInt delay]> (queued job_info self) in
  _process_message (Some (frame "connected" (PDict d))) reopened =
  (Ok tt,
   set_tasks (tasks self ++ [SendMachineData])
     (set_missed_job_events []
        (set_ws (Some (written ++ initial_frames self [evt]))
           (set_keepalive_hdl (Some KEEPALIVE_TIME)
              (set_reconnect_delay 1%float
                 (set_reconnect_token
                    (match d !! "reconnect_token" with
                     | Some token => token
                     | None => PNone
                     end)
                    (set_connected true (set_host later self)))))))).
Proof.
  intros Hconn Hempty Hinterval Hname Hdelay. cbv zeta.
  unfold Method.exec. rewrite QueueFacts.send_job_event_run by done.
  rewrite Hempty. simpl.
  unfold _process_message, _reset_keepalive. method_unfold.
  rewrite FrameFacts.frame_type, FrameFacts.frame_data. simpl.
  rewrite Hinterval, Hname. simpl.
  match goal with
  | |- _push_initial_state ?s = _ =>
      rewrite (push_initial_state_run s written
                 [<["delay" := PInt delay]> (queued job_info self)])
  end.
  - reflexivity.
  - reflexivity.
  - reflexivity.
  - simpl. repeat constructor. unfold replayed, queued.
    rewrite lookup_insert_eq. simpl. by rewrite Hdelay.
Qed.

Lemma missed_event_delivered_witness :
  _process_message (Some (frame "connected" (PDict ∅)))
    (set_ws (Some [])
       (set_host {| loop_time := 112.3%float; klippy_connected := true;
                    print_duration := 0%float |}
          (Method.exec (_send_job_event {["finished" := PBool true]})
             fresh)))
  = (Ok tt,
     set_tasks [SendMachineData]
       (set_ws
          (Some [ state_change "offline";
                  job_info_frame (<["delay" := PInt 112]>
                                    {["finished" := PBool true]});
                  {| evt_name := "ambient";
                     data := new_payload (PInt 85) |} ])
          (set_keepalive_hdl (Some KEEPALIVE_TIME)
             (set_connected true
                (set_host {| loop_time := 112.3%float;
                             klippy_connected := true;
                             print_duration := 0%float |}
                   fresh))))).
Proof.
  rewrite (missed_event_delivered fresh {["finished" := PBool true]} ∅
             {| loop_time := 112.3%float; klippy_connected := true;
                print_duration := 0%float |} [] 112);
    [|reflexivity|reflexivity|reflexivity|reflexivity|by vm_compute].
  by vm_compute.
Defined.

End ReplayFacts.

(** ** Job and machine events *)

Module EventFacts.
Import SimplyPrint Statement Scenario JobEnd.

Lemma substring_all (s : string) : String.substring 0 (String.length s) s = s.
Proof. induction s as [|c s IH]; [done|]. simpl. by rewrite IH. Qed.

Lemma from_8_suffix (suffix : string) :
  from_8 (String.append "extruder" suffix) = suffix.
Proof. unfold from_8. simpl. rewrite Nat.sub_0_r. apply substring_all. Qed.

Lemma update_state_sent (self : SimplyPrint.t) s :
  sent (Method.exec (_update_state s) self) =
  sent self ++
  (if negb (String.eqb (ReportCache.state (cache self)) s)
      && connected self && bool_decide (is_Some (ws self))
   then [state_change s] else []).
Proof.
  rewrite StateFacts.update_state_exec.
  destruct (String.eqb _ s); simpl; [by rewrite app_nil_r|].
  by rewrite StateFacts.send_sp_sent.
Qed.

Lemma update_state_cache (self : SimplyPrint.t) s :
  cache (Method.exec (_update_state s) self)
  = ReportCache.set_state s (cache self).
Proof.
  rewrite StateFacts.update_state_exec.
  destruct (String.eqb _ s) eqn:Heq.
  - apply String.eqb_eq in Heq as <-. by destruct (cache self).
  - by rewrite StateFacts.send_sp_cache.
Qed.

Lemma active_extruder_run (new_extruder : string) (self : SimplyPrint.t) :
  _send_active_extruder new_extruder self =
  let tool := if String.eqb new_extruder "extruder" then "T0"
              else String.append "T" (from_8 new_extruder) in
  if String.eqb tool (ReportCache.active_extruder (cache self))
  then (Ok tt, self)
  else (Ok tt,
        Method.exec (_send_sp "tool" (new_payload (PStr tool)))
          (upd_cache (ReportCache.set_active_extruder tool) self)).
Proof.
  unfold _send_active_extruder. method_unfold. cbv zeta.
  destruct (String.eqb _ (ReportCache.active_extruder _)); [reflexivity|].
  rewrite StateFacts.send_sp_run. simpl.
  by destruct (connected self), (ws self).
Qed.

(** X16. The active tool is named after the extruder and reported on
    change only. For the extruder [extruder] the tool is [T0], for
    [extruder] followed by a suffix it is [T] followed by that suffix.
    [_send_active_extruder] returns, caches the tool, and writes a [tool]
    frame with it exactly if it differs from the cached tool and the
    session is connected on a live socket; a second call with the same
    extruder changes nothing. *)
Theorem active_extruder_reported (self : SimplyPrint.t)
    (new_extruder tool : string) :
  (new_extruder = "extruder" ∧ tool = "T0") ∨
  (∃ suffix, suffix ≠ "" ∧ new_extruder = String.append "extruder" suffix ∧
             tool = String.append "T" suffix) →
  Method.eval (_send_active_extruder new_extruder) self = Ok tt ∧
  ReportCache.active_extruder
    (cache (Method.exec (_send_active_extruder new_extruder) self)) = tool ∧
  sent (Method.exec (_send_active_extruder new_extruder) self) =
    sent self ++
    (if negb (String.eqb tool (ReportCache.active_extruder (cache self)))
        && connected self && bool_decide (is_Some (ws self))
     then [{| evt_name := "tool"; data := new_payload (PStr tool) |}]
     else []) ∧
  _send_active_extruder new_extruder
    (Method.exec (_send_active_extruder new_extruder) self)
  = (Ok tt, Method.exec (_send_active_extruder new_extruder) self).
Proof.
  intros Hname.
  assert (Htool : (if String.eqb new_extruder "extruder" then "T0"
                   else String.append "T" (from_8 new_extruder)) = tool).
  { destruct Hname as [[-> ->]|(suffix & Hne & -> & ->)]; [done|].
    rewrite from_8_suffix. by destruct suffix. }
  unfold Method.eval, Method.exec. rewrite !active_extruder_run.
  cbv zeta. rewrite Htool.
  destruct (String.eqb tool _) eqn:Heq; simpl.
  - apply String.eqb_eq in Heq. rewrite Heq, String.eqb_refl.
    by rewrite app_nil_r.
  - unfold Method.exec.
    rewrite (DispatchFacts.preserves_send_sp cache
               (λ _ _, eq_refl) (λ _ _, eq_refl)).
    simpl. rewrite String.eqb_refl.
    split; [done|]. split; [done|]. split; [|done].
    apply (StateFacts.send_sp_sent
             (upd_cache (ReportCache.set_active_extruder tool) self)).
Qed.

Lemma active_extruder_reported_witness :
  Method.eval (_send_active_extruder "extruder1") online = Ok tt ∧
  ReportCache.active_extruder
    (cache (Method.exec (_send_active_extruder "extruder1") online)) = "T1" ∧
  sent (Method.exec (_send_active_extruder "extruder1") online) =
    [{| evt_name := "tool"; data := new_payload (PStr "T1") |}].
Proof.
  destruct (active_extruder_reported online "extruder1" "T1")
    as (Hret & Hcache & Hsent & _).
  - right. by exists "1".
  - split; [exact Hret|]. split; [exact Hcache|]. rewrite Hsent.
    reflexivity.
Defined.

Lemma send_sp_link (self : SimplyPrint.t) evt d :
  connected (Method.exec (_send_sp evt d) self) = connected self ∧
  bool_decide (is_Some (ws (Method.exec (_send_sp evt d) self)))
  = bool_decide (is_Some (ws self)).
Proof.
  unfold Method.exec. rewrite StateFacts.send_sp_run.
  destruct (connected self) eqn:Hc, (ws self) eqn:Hw; simpl;
    rewrite ?Hc, ?Hw; done.
Qed.

Lemma update_state_keeps {X} (f : SimplyPrint.t → X) (self : SimplyPrint.t) s :
  (∀ v self, f (set_ws v self) = f self) →
  (∀ v self, f (set_keepalive_hdl v self) = f self) →
  (∀ g self, f (upd_cache g self) = f self) →
  f (Method.exec (_update_state s) self) = f self.
Proof.
  intros Hws Hk Hc. rewrite StateFacts.update_state_exec.
  destruct (String.eqb _ s); [done|]. unfold Method.exec.
  by rewrite (DispatchFacts.preserves_send_sp f Hws Hk), Hc.
Qed.

Lemma send_job_event_live (job_info : gmap string pyval) self :
  connected self = true →
  _send_job_event job_info self =
  (Ok tt, Method.exec (_send_sp "job_info" (PDict job_info)) self).
Proof.
  intros Hc. unfold _send_job_event. method_unfold. rewrite Hc.
  rewrite StateFacts.send_sp_run, Hc. by destruct (ws self).
Qed.

(** What the handlers of the end of a job share after the event. *)
Lemma job_end_tail (kstate : string) (self : SimplyPrint.t) :
  (_update_state_from_klippy kstate;;
   Method.modify (upd_cache (ReportCache.set_job_info ∅));;
   on_layer_detect LayerDetect.stop) self =
  let self1 := Method.exec (_update_state (reported_state kstate)) self in
  (Ok tt,
   set_layer_detect (LayerDetect.set_active false (layer_detect self1))
     (upd_cache (ReportCache.set_job_info ∅) self1)).
Proof.
  unfold _update_state_from_klippy, on_layer_detect, LayerDetect.stop.
  change (if String.eqb kstate "ready" then "operational"
          else if existsb (String.eqb kstate) ["error"; "shutdown"]
               then "error" else "offline")
    with (reported_state kstate).
  method_unfold. cbv zeta.
  rewrite StateFacts.update_state_run.
  destruct (String.eqb _ (reported_state kstate)); reflexivity.
Qed.

Lemma handler_unfold (e : job_end) (kstate : string) :
  handler e kstate =
  (_send_job_event {[flag e := PBool true]};;
   _update_state_from_klippy kstate;;
   Method.modify (upd_cache (ReportCache.set_job_info ∅));;
   on_layer_detect LayerDetect.stop).
Proof. by destruct e. Qed.

(** X17. How the end of a job is reported. The handlers of a cancelled,
    a failed and a finished job return; each leaves the cached job info
    empty, the cached state the one that Klipper's state maps to, and the
    layer detector stopped at its layer. In a connected session on a live
    socket the event with the handler's flag is written, followed by the
    change of state if the state changed; the event then carries the flag
    only. In a session that is not connected nothing is written and the
    event is queued, merged with the job info cached up to then (the
    event is made before the cache is cleared), the oldest entry of a
    full queue making room. *)
Theorem job_end_reported (e : job_end) (kstate : string)
    (self : SimplyPrint.t) :
  let evt : gmap string pyval := {[flag e := PBool true]} in
  let s := reported_state kstate in
  let res := handler e kstate self in
  res.1 = Ok tt ∧
  cache res.2 = ReportCache.set_job_info ∅
                  (ReportCache.set_state s (cache self)) ∧
  layer_detect res.2 = LayerDetect.set_active false (layer_detect self) ∧
  (connected self = true →
   missed_job_events res.2 = missed_job_events self ∧
   sent res.2 =
     sent self ++
     (if bool_decide (is_Some (ws self))
      then job_info_frame evt
           :: (if negb (String.eqb (ReportCache.state (cache self)) s)
               then [state_change s] else [])
      else [])) ∧
  (connected self = false →
   sent res.2 = sent self ∧
   missed_job_events res.2 =
     let q := missed_job_events self ++ [queued evt self] in
     if (10 <? length q)%nat then tail q else q).
Proof.
  cbv zeta. rewrite handler_unfold.
  change ((_send_job_event {[flag e := PBool true]};;
           _update_state_from_klippy kstate;;
           Method.modify (upd_cache (ReportCache.set_job_info ∅));;
           on_layer_detect LayerDetect.stop) self)
    with (Method.bind (_send_job_event {[flag e := PBool true]})
            (λ _, _update_state_from_klippy kstate;;
                  Method.modify (upd_cache (ReportCache.set_job_info ∅));;
                  on_layer_detect LayerDetect.stop) self).
  unfold Method.bind.
  destruct (connected self) eqn:Hc.
  - rewrite send_job_event_live by done. rewrite job_end_tail. cbv zeta.
    set (self0 := Method.exec (_send_sp _ _) self).
    destruct (send_sp_link self "job_info" (PDict {[flag e := PBool true]}))
      as [Hc0 Hw0]. fold self0 in Hc0, Hw0.
    assert (Hcache0 : cache self0 = cache self)
      by apply StateFacts.send_sp_cache.
    simpl. split; [done|]. split; [|split; [|split; [|done]]].
    + by rewrite update_state_cache, Hcache0.
    + rewrite (update_state_keeps layer_detect) by done.
      unfold self0, Method.exec.
      by rewrite (DispatchFacts.preserves_send_sp layer_detect
                    (λ _ _, eq_refl) (λ _ _, eq_refl)).
    + intros _. split.
      * rewrite (update_state_keeps missed_job_events) by done.
        unfold self0, Method.exec.
        by rewrite (DispatchFacts.preserves_send_sp missed_job_events
                      (λ _ _, eq_refl) (λ _ _, eq_refl)).
      * change (sent (Method.exec (_update_state (reported_state kstate))
                        self0) = sent self ++
                (if bool_decide (is_Some (ws self))
                 then job_info_frame {[flag e := PBool true]}
                      :: (if negb (String.eqb (ReportCache.state (cache self))
                                     (reported_state kstate))
                          then [state_change (reported_state kstate)]
                          else [])
                 else [])).
        rewrite update_state_sent, Hcache0, Hc0, Hw0. unfold self0.
        rewrite StateFacts.send_sp_sent, Hc. simpl.
        destruct (bool_decide (is_Some (ws self))); simpl.
        -- rewrite !andb_true_r, <- app_assoc. reflexivity.
        -- by rewrite !andb_false_r, !app_nil_r.
  - rewrite QueueFacts.send_job_event_run by done. rewrite job_end_tail.
    cbv zeta. simpl. split; [done|]. split; [|split; [|split; [done|]]].
    + by rewrite update_state_cache.
    + by rewrite (update_state_keeps layer_detect).
    + intros _. split.
      * change (sent (Method.exec (_update_state (reported_state kstate))
                        (set_missed_job_events
                           (let q := missed_job_events self ++
                                     [queued {[flag e := PBool true]} self] in
                            if (10 <? length q)%nat then tail q else q) self))
                = sent self).
        rewrite update_state_sent. simpl. rewrite Hc.
        by rewrite andb_false_r, app_nil_r.
      * by rewrite (update_state_keeps missed_job_events).
Qed.

Example job_end_offline :
  missed_job_events (Method.exec (handler Finished "ready") printing_offline)
  = [<["delay" := PFloat 0%float]>
       (<["filename" := PStr "benchy.gcode"]>
          (<["time" := PFloat 3600%float]> {["finished" := PBool true]}))].
Proof. by vm_compute. Qed.

End EventFacts.

(** ** The start of a job *)

Module StartFacts.
Import SimplyPrint Statement Scenario JobStart.

(** [_on_print_start] up to the start of the layer detector. *)
Lemma print_start_run (new_stats : gmap string pyval) (metadata : Metadata)
    (need_start_event : bool) (filename : pyval)
    (job_info : gmap string pyval) (self : SimplyPrint.t) :
  new_stats !! "filename" = Some filename →
  start_info filename metadata = Some job_info →
  _on_print_start new_stats metadata need_start_event self =
  let self1 :=
    upd_cache (λ c, ReportCache.set_job_info
                      (job_info ∪ ReportCache.job_info c)
                      (ReportCache.set_metadata metadata c))
      (Method.exec (_update_state "printing") self) in
  match LayerDetect.start metadata (layer_detect self1) with
  | (Ok _, detector) =>
      _send_job_event
        (if need_start_event then <["started" := PBool true]> job_info
         else job_info)
        (set_layer_detect detector self1)
  | (Raise e, detector) => (Raise e, set_layer_detect detector self1)
  end.
Proof.
  intros Hfile Hinfo. unfold _on_print_start, on_layer_detect, start_info in *.
  method_unfold. rewrite StateFacts.update_state_run.
  assert (Hstate : ∀ s1 : SimplyPrint.t,
            (if String.eqb (ReportCache.state (cache self)) "printing"
             then (Ok tt, self) else (Ok tt, s1))
            = (Ok tt, if String.eqb (ReportCache.state (cache self)) "printing"
                      then self else s1))
    by (intros; by destruct (String.eqb _ _)).
  rewrite Hstate. clear Hstate. rewrite Hfile. simpl.
  destruct (filament_total metadata) as [filament|]; simpl in *.
  - destruct (Py.round filament) as [n|]; [|done]. simpl in *.
    injection Hinfo as <-. cbv zeta.
    by destruct (LayerDetect.start metadata _) as [[[]|e] detector].
  - injection Hinfo as <-. cbv zeta.
    by destruct (LayerDetect.start metadata _) as [[[]|e] detector].
Qed.

Lemma update_state_link (self : SimplyPrint.t) s :
  connected (Method.exec (_update_state s) self) = connected self ∧
  bool_decide (is_Some (ws (Method.exec (_update_state s) self)))
  = bool_decide (is_Some (ws self)).
Proof.
  rewrite StateFacts.update_state_exec.
  destruct (String.eqb _ s); [done|].
  apply (EventFacts.send_sp_link (upd_cache (ReportCache.set_state s) self)).
Qed.

(** X18. How the start of a job is reported. When the stats name the
    file, the filament can be rounded and the layer detector starts on
    the metadata, [_on_print_start] returns; the cached state is
    [printing], the cache holds the metadata and the file name, the
    filament rounded to an int and the estimated time merged into the job
    info, and the layer detector is the started one. The event carries
    these entries, with [started] when a start event is asked for, which
    is not cached. In a connected session on a live socket the change of
    state, if any, and then the event are written; in a session that is
    not connected nothing is written and the event is queued, merged with
    the cached job info. *)
Theorem print_start_reported (new_stats : gmap string pyval)
    (metadata : Metadata) (need_start_event : bool) (filename : pyval)
    (job_info : gmap string pyval) (detector : LayerDetect.t)
    (self : SimplyPrint.t) :
  new_stats !! "filename" = Some filename →
  start_info filename metadata = Some job_info →
  LayerDetect.start metadata (layer_detect self) = (Ok tt, detector) →
  let evt := if need_start_event then <["started" := PBool true]> job_info
             else job_info in
  let cached := job_info ∪ ReportCache.job_info (cache self) in
  let res := _on_print_start new_stats metadata need_start_event self in
  res.1 = Ok tt ∧
  cache res.2 = ReportCache.set_job_info cached
                  (ReportCache.set_metadata metadata
                     (ReportCache.set_state "printing" (cache self))) ∧
  layer_detect res.2 = detector ∧
  (connected self = true →
   missed_job_events res.2 = missed_job_events self ∧
   sent res.2 =
     sent self ++
     (if bool_decide (is_Some (ws self))
      then (if negb (String.eqb (ReportCache.state (cache self)) "printing")
            then [state_change "printing"] else [])
           ++ [job_info_frame evt]
      else [])) ∧
  (connected self = false →
   sent res.2 = sent self ∧
   missed_job_events res.2 =
     let q := missed_job_events self ++
              [<["delay" := PFloat (loop_time (host self))]> (cached ∪ evt)] in
     if (10 <? length q)%nat then tail q else q).
Proof.
  intros Hfile Hinfo Hstart. cbv zeta.
  rewrite (print_start_run _ _ _ filename job_info) by done. cbv zeta.
  set (self0 := Method.exec (_update_state "printing") self).
  assert (Hld : layer_detect self0 = layer_detect self)
    by (by apply EventFacts.update_state_keeps).
  assert (Hmissed : missed_job_events self0 = missed_job_events self)
    by (by apply EventFacts.update_state_keeps).
  assert (Hhost : host self0 = host self)
    by (by apply EventFacts.update_state_keeps).
  assert (Hcache : cache self0
                   = ReportCache.set_state "printing" (cache self))
    by apply EventFacts.update_state_cache.
  assert (Hsent := EventFacts.update_state_sent self "printing").
  destruct (update_state_link self "printing") as [Hconn Hlive].
  fold self0 in Hsent, Hconn, Hlive.
  simpl. rewrite Hld, Hstart.
  set (self1 := set_layer_detect detector (upd_cache _ self0)).
  destruct (connected self) eqn:Hc.
  - rewrite EventFacts.send_job_event_live by (by rewrite <- Hconn).
    simpl. split; [done|]. split; [|split; [|split; [|done]]].
    + rewrite StateFacts.send_sp_cache. unfold self1. simpl.
      by rewrite Hcache.
    + unfold Method.exec.
      by rewrite (DispatchFacts.preserves_send_sp layer_detect
                    (λ _ _, eq_refl) (λ _ _, eq_refl)).
    + intros _. split.
      * unfold Method.exec.
        by rewrite (DispatchFacts.preserves_send_sp missed_job_events
                      (λ _ _, eq_refl) (λ _ _, eq_refl)).
      * rewrite StateFacts.send_sp_sent.
        change (sent self1) with (sent self0).
        change (connected self1) with (connected self0).
        change (ws self1) with (ws self0).
        rewrite Hsent, Hconn, Hlive.
        destruct (bool_decide (is_Some (ws self))); simpl.
        -- by rewrite !andb_true_r, <- app_assoc.
        -- by rewrite !andb_false_r, !app_nil_r.
  - rewrite QueueFacts.send_job_event_run by (by rewrite <- Hconn).
    simpl. split; [done|]. split; [|split; [done|split; [done|]]].
    + by rewrite Hcache.
    + intros _. split.
      * change (sent self0 = sent self). rewrite Hsent, ?Hc. simpl.
        by rewrite ?andb_false_r, app_nil_r.
      * unfold queued. simpl. by rewrite Hcache, Hmissed, Hhost.
Qed.

Lemma print_start_reported_witness :
  let res := _on_print_start benchy_stats benchy true online in
  res.1 = Ok tt ∧
  sent res.2 =
    [ state_change "printing";
      job_info_frame
        (<["started" := PBool true]>
           (<["time" := PFloat 3600%float]>
              (<["filament" := PInt 1234]>
                 {["filename" := PStr "benchy.gcode"]}))) ] ∧
  ReportCache.job_info (cache res.2) !! "started" = None.
Proof.
  destruct (print_start_reported benchy_stats benchy true
              (PStr "benchy.gcode")
              (<["time" := PFloat 3600%float]>
                 (<["filament" := PInt 1234]>
                    {["filename" := PStr "benchy.gcode"]}))
              (Method.exec (LayerDetect.start benchy) LayerDetect.__init__)
              online)
    as (Hret & Hcache & _ & Hlive & _); [by vm_compute..|].
  cbv zeta. split; [exact Hret|]. split.
  - destruct Hlive as [_ ->]; [reflexivity|]. by vm_compute.
  - rewrite Hcache. by vm_compute.
Defined.

Lemma start_zero_height (metadata : Metadata) (detector : LayerDetect.t)
    (lh h : float) :
  layer_height metadata = Some lh →
  PrimFloat.eqb lh 0%float = true →
  layer_count metadata = None →
  object_height metadata = Some h →
  (LayerDetect.start metadata detector).1 = Raise ZeroDivisionError.
Proof.
  intros Hlh Hzero Hcount Hheight.
  unfold LayerDetect.start, LayerDetect.reset, Py.truediv. method_unfold.
  rewrite Hlh, Hcount, Hheight. simpl.
  destruct (first_layer_height metadata); simpl; by rewrite Hzero.
Qed.

(** X19. A file with layer height 0 loses its start event. When the
    metadata has layer height 0 and an object height but no layer count,
    starting the layer detector divides by zero: [_on_print_start] raises
    [ZeroDivisionError] after it has pushed the state [printing] and
    cached the job info, and before the event; so no [job_info] frame is
    written and nothing is queued. *)
Theorem print_start_event_lost (new_stats : gmap string pyval)
    (metadata : Metadata) (need_start_event : bool) (filename : pyval)
    (job_info : gmap string pyval) (lh h : float) (self : SimplyPrint.t) :
  new_stats !! "filename" = Some filename →
  start_info filename metadata = Some job_info →
  layer_height metadata = Some lh →
  PrimFloat.eqb lh 0%float = true →
  layer_count metadata = None →
  object_height metadata = Some h →
  let res := _on_print_start new_stats metadata need_start_event self in
  res.1 = Raise ZeroDivisionError ∧
  missed_job_events res.2 = missed_job_events self ∧
  sent res.2 =
    sent self ++
    (if negb (String.eqb (ReportCache.state (cache self)) "printing")
        && connected self && bool_decide (is_Some (ws self))
     then [state_change "printing"] else []) ∧
  ReportCache.state (cache res.2) = "printing" ∧
  ReportCache.job_info (cache res.2)
  = job_info ∪ ReportCache.job_info (cache self).
Proof.
  intros Hfile Hinfo Hlh Hzero Hcount Hheight. cbv zeta.
  rewrite (print_start_run _ _ _ filename job_info) by done. cbv zeta.
  set (self0 := Method.exec (_update_state "printing") self).
  assert (Hmissed : missed_job_events self0 = missed_job_events self)
    by (by apply EventFacts.update_state_keeps).
  assert (Hcache : cache self0
                   = ReportCache.set_state "printing" (cache self))
    by apply EventFacts.update_state_cache.
  assert (Hsent := EventFacts.update_state_sent self "printing").
  fold self0 in Hsent.
  match goal with
  | |- context [LayerDetect.start metadata ?d] =>
      pose proof (start_zero_height metadata d lh h Hlh Hzero Hcount Hheight)
        as Hraise;
      destruct (LayerDetect.start metadata d) as [[[]|e] detector]
  end; simpl in Hraise; [done|]. injection Hraise as ->.
  simpl. rewrite Hcache. done.
Qed.

Lemma print_start_event_lost_witness :
  let res := _on_print_start benchy_stats flat true online in
  res.1 = Raise ZeroDivisionError ∧
  missed_job_events res.2 = [] ∧
  sent res.2 = [state_change "printing"].
Proof.
  destruct (print_start_event_lost benchy_stats flat true
              (PStr "benchy.gcode") {["filename" := PStr "benchy.gcode"]}
              0%float 10%float online)
    as (Hret & Hmissed & Hsent & _); [by vm_compute..|].
  cbv zeta. split; [exact Hret|]. split; [exact Hmissed|].
  rewrite Hsent. reflexivity.
Defined.

End StartFacts.

(** ** The ambient temperature *)

Module AmbientFacts.
Import SimplyPrint Component Statement Lifetime.

Lemma on_sp_run {A} (m : Method.t SimplyPrint.t A) (self : Component.t) :
  on_sp m self = ((m (sp self)).1, set_sp (m (sp self)).2 self).
Proof. unfold on_sp. by destruct (m (sp self)). Qed.

Lemma set_sp_same (self : Component.t) : set_sp (sp self) self = self.
Proof. by destruct self. Qed.

Lemma ambient_changed_run (new_ambient : Z) (self : SimplyPrint.t) :
  _on_ambient_changed new_ambient self =
  (Ok tt,
   Method.exec (_send_sp "ambient" (new_payload (PInt new_ambient)))
     (set_spdb (<["ambient_temp" := PInt new_ambient]> (spdb self))
        (set_sp_info (<["ambient_temp" := PInt new_ambient]> (sp_info self))
           self))).
Proof.
  unfold _on_ambient_changed, _save_item. method_unfold. simpl.
  match goal with
  | |- context [_send_sp ?evt ?d ?s] =>
      pose proof (StateFacts.send_sp_run s evt d) as Hsend;
      destruct (_send_sp evt d s) as [[b|e] s1]
  end; simpl; [reflexivity|].
  simpl in Hsend. by destruct (connected self), (ws self).
Qed.

(** X20. Starting the ambient detector takes a colder hot end as the
    estimate. [start] on a detector whose timer is not running returns
    and starts the timer. If a hot-end temperature is cached and it is
    below the estimate, it becomes the estimate, is persisted under
    [ambient_temp] and, in a connected session on a live socket, is
    reported in one [ambient] frame; otherwise nothing else changes. In
    either case the estimate afterwards is at most the previous one, and a
    second [start] changes nothing. *)
Theorem ambient_start (self : Component.t) :
  _detect_timer self = false →
  let old := AmbientDetect.ambient (amb_detect (sp self)) in
  let res := Ambient.start self in
  res.1 = Ok tt ∧
  _detect_timer res.2 = true ∧
  AmbientDetect.ambient (amb_detect (sp res.2)) ≤ old ∧
  match ReportCache.temps (cache (sp self)) !! "tool0" with
  | Some (cur_temp, _) =>
      if cur_temp <? old then
        AmbientDetect.ambient (amb_detect (sp res.2)) = cur_temp ∧
        spdb (sp res.2) !! "ambient_temp" = Some (PInt cur_temp) ∧
        sent (sp res.2) =
          sent (sp self) ++
          (if connected (sp self) && bool_decide (is_Some (ws (sp self)))
           then [ambient_frame cur_temp] else [])
      else res.2 = set_detect_timer true self
  | None => res.2 = set_detect_timer true self
  end ∧
  Ambient.start res.2 = (Ok tt, res.2).
Proof.
  intros Hstopped. cbv zeta. unfold Ambient.start, Ambient.set_ambient.
  method_unfold. rewrite Hstopped.
  destruct (ReportCache.temps (cache (sp self)) !! "tool0")
    as [[cur_temp target]|] eqn:Htemps; simpl; [|by repeat split; try lia].
  destruct (cur_temp <? _) eqn:Hlt; simpl; [|by repeat split; try lia].
  rewrite !on_sp_run. simpl. rewrite ambient_changed_run. simpl.
  apply Z.ltb_lt in Hlt.
  repeat split.
  - unfold Method.exec.
    rewrite (DispatchFacts.preserves_send_sp amb_detect
               (λ _ _, eq_refl) (λ _ _, eq_refl)). simpl.
    unfold AmbientDetect.ambient in *. lia.
  - unfold Method.exec.
    by rewrite (DispatchFacts.preserves_send_sp amb_detect
                  (λ _ _, eq_refl) (λ _ _, eq_refl)).
  - unfold Method.exec.
    rewrite (DispatchFacts.preserves_send_sp spdb
               (λ _ _, eq_refl) (λ _ _, eq_refl)). simpl.
    by rewrite lookup_insert_eq.
  - by rewrite StateFacts.send_sp_sent.
Qed.

Lemma ambient_start_witness :
  let res := Ambient.start (with_temps {["tool0" := (22, 0)]} live) in
  res.1 = Ok tt ∧
  AmbientDetect.ambient (amb_detect (sp res.2)) = 22 ∧
  spdb (sp res.2) !! "ambient_temp" = Some (PInt 22) ∧
  sent (sp res.2) = [ambient_frame 22].
Proof.
  destruct (ambient_start (with_temps {["tool0" := (22, 0)]} live) eq_refl)
    as (Hret & _ & _ & Hcase & _).
  cbv zeta. split; [exact Hret|].
  change (ReportCache.temps
            (cache (sp (with_temps {["tool0" := (22, 0)]} live))) !! "tool0")
    with (({["tool0" := (22, 0)]} : gmap string (Z * Z)) !! "tool0") in Hcase.
  rewrite lookup_singleton_eq in Hcase.
  destruct Hcase as (Hamb & Hdb & Hsent).
  split; [exact Hamb|]. split; [exact Hdb|]. rewrite Hsent. reflexivity.
Defined.

Lemma tick_not_idle (eventtime : float) (self : Component.t) :
  not_idle self →
  ∃ self1,
    Ambient._handle_detect_timer eventtime self
    = (Ok (PrimFloat.add eventtime Ambient.CHECK_INTERVAL), self1) ∧
    sp self1 = sp self ∧ _initial_sample self1 = -1000 ∧
    _detect_timer self1 = _detect_timer self.
Proof.
  unfold not_idle, Ambient._handle_detect_timer. method_unfold. intros Hbusy.
  destruct (ReportCache.temps (cache (sp self)) !! "tool0")
    as [[temp target]|]; [|by eexists].
  apply Z.eqb_neq in Hbusy. rewrite Hbusy. simpl. by eexists.
Qed.

(** X21. No new estimate while the hot end is not idle. Any number of
    calls of the ambient timer handler, at any times, made while the
    cached hot end has a nonzero target or no hot end is cached, return
    and leave the estimate, the database, the socket and everything else
    of the session as they were, and any pending first sample is
    discarded. *)
Theorem ambient_kept_while_not_idle (self : Component.t)
    (times : list float) :
  not_idle self →
  (ticks times self).1 = Ok tt ∧
  sp (ticks times self).2 = sp self ∧
  (times ≠ [] → _initial_sample (ticks times self).2 = -1000).
Proof.
  revert self. unfold ticks.
  induction times as [|eventtime times IH]; intros self Hbusy; [done|].
  destruct (tick_not_idle eventtime self Hbusy)
    as (self1 & Hrun & Hsp & Hsample & _).
  assert (Hbusy1 : not_idle self1) by (unfold not_idle; by rewrite Hsp).
  destruct (IH self1 Hbusy1) as (Hret & Hsp1 & Hsample1).
  simpl. method_unfold. rewrite Hrun. simpl.
  split; [exact Hret|]. split; [by rewrite Hsp1|].
  intros _. destruct times as [|t times]; [exact Hsample|].
  by apply Hsample1.
Qed.

Lemma ambient_kept_while_not_idle_witness :
  (ticks [300%float; 305%float; 4000%float] heating).1 = Ok tt ∧
  sp (ticks [300%float; 305%float; 4000%float] heating).2 = sp heating.
Proof.
  destruct (ambient_kept_while_not_idle heating
              [300%float; 305%float; 4000%float])
    as (Hret & Hsp & _).
  - unfold not_idle.
    change (ReportCache.temps (cache (sp heating)) !! "tool0")
      with (({["tool0" := (205, 210)]} : gmap string (Z * Z)) !! "tool0").
    by rewrite lookup_singleton_eq.
  - by split.
Defined.

Lemma sums_checked : forallb average_is_quot sums = true.
Proof. by vm_compute. Qed.

Lemma average_quot (x : Z) :
  -202 ≤ x ≤ 2002 →
  ∃ avg, Py.half x = Ok avg ∧
         Py.int (PrimFloat.add avg 0.5%float) = Ok (Z.quot (x + 1) 2).
Proof.
  intros Hx.
  assert (Hin : In x sums).
  { unfold sums. apply in_map_iff. exists (Z.to_nat (x + 202)).
    split; [lia|]. apply in_seq. lia. }
  pose proof (proj1 (forallb_forall _ _) sums_checked x Hin) as Hok.
  unfold average_is_quot in Hok.
  destruct (Py.half x) as [avg|]; [|done]. exists avg. split; [done|].
  destruct (Py.int _) as [n|]; [|done].
  apply Z.eqb_eq in Hok. by rewrite Hok.
Qed.

(** X22. The new estimate is the average of two samples. When the cached
    hot end is idle (target 0), the check is due, a first sample is
    pending and the hot end reads within 2 degrees of it, the timer
    handler returns the time of its next call, 5 s on, and sets the
    estimate to [int((temp + sample) / 2 + .5)], which for temperatures
    between -100 and 1000 is the quotient of [temp + sample + 1] by 2
    rounded toward zero; the pending sample is discarded and the next
    check is due [AMBIENT_CHECK_TIME] after this call. If the estimate
    changed, it is persisted under [ambient_temp] and, in a connected
    session on a live socket, reported in one [ambient] frame; if not,
    the session is left as it was. *)
Theorem ambient_estimate (self : Component.t) (eventtime : float)
    (temp : Z) :
  ReportCache.temps (cache (sp self)) !! "tool0" = Some (temp, 0) →
  PrimFloat.ltb (PrimFloat.sub eventtime (_last_sample_time self))
                (_update_interval self) = false →
  _initial_sample self ≠ -1000 →
  Z.abs (temp - _initial_sample self) ≤ 2 →
  -100 ≤ temp ≤ 1000 →
  let new_ambient := Z.quot (temp + _initial_sample self + 1) 2 in
  let res := Ambient._handle_detect_timer eventtime self in
  res.1 = Ok (PrimFloat.add eventtime Ambient.CHECK_INTERVAL) ∧
  AmbientDetect.ambient (amb_detect (sp res.2)) = new_ambient ∧
  _initial_sample res.2 = -1000 ∧
  _last_sample_time res.2 = eventtime ∧
  _update_interval res.2 = AMBIENT_CHECK_TIME ∧
  if new_ambient =? AmbientDetect.ambient (amb_detect (sp self)) then
    sp res.2 = sp self
  else
    spdb (sp res.2) !! "ambient_temp" = Some (PInt new_ambient) ∧
    sent (sp res.2) =
      sent (sp self) ++
      (if connected (sp self) && bool_decide (is_Some (ws (sp self)))
       then [ambient_frame new_ambient] else []).
Proof.
  intros Htemps Hdue Hsample Hnear Hrange. cbv zeta.
  destruct (average_quot (temp + _initial_sample self)) as (avg & Hhalf & Hint);
    [lia|].
  unfold Ambient._handle_detect_timer, Ambient.set_ambient. method_unfold.
  rewrite Htemps. simpl. rewrite Hdue.
  apply Z.eqb_neq in Hsample. rewrite Hsample.
  apply Z.leb_le in Hnear. rewrite Hnear.
  rewrite Hhalf. simpl. rewrite Hint. simpl.
  rewrite ?on_sp_run. simpl.
  set (new_ambient := Z.quot (temp + _initial_sample self + 1) 2).
  rewrite (Z.eqb_sym (AmbientDetect.ambient _) new_ambient).
  destruct (new_ambient =? AmbientDetect.ambient (amb_detect (sp self)))
    eqn:Hsame; simpl.
  - repeat split. apply Z.eqb_eq in Hsame. rewrite Hsame.
    destruct (sp self) as [? ? ? ? ? ? ? []]; reflexivity.
  - rewrite ?on_sp_run. simpl. rewrite ambient_changed_run. simpl.
    repeat split.
    + unfold Method.exec.
      by rewrite (DispatchFacts.preserves_send_sp amb_detect
                    (λ _ _, eq_refl) (λ _ _, eq_refl)).
    + unfold Method.exec.
      rewrite (DispatchFacts.preserves_send_sp spdb
                 (λ _ _, eq_refl) (λ _ _, eq_refl)). simpl.
      by rewrite lookup_insert_eq.
    + by rewrite StateFacts.send_sp_sent.
Qed.

Lemma ambient_estimate_witness :
  let res := Ambient._handle_detect_timer 330%float sampled in
  res.1 = Ok 335%float ∧
  AmbientDetect.ambient (amb_detect (sp res.2)) = 22 ∧
  spdb (sp res.2) !! "ambient_temp" = Some (PInt 22) ∧
  sent (sp res.2) = [ambient_frame 22].
Proof.
  assert (Htemps : ReportCache.temps (cache (sp sampled)) !! "tool0"
                   = Some (22, 0)).
  { change (ReportCache.temps (cache (sp sampled)) !! "tool0")
      with (({["tool0" := (22, 0)]} : gmap string (Z * Z)) !! "tool0").
    by rewrite lookup_singleton_eq. }
  destruct (ambient_estimate sampled 330%float 22 Htemps)
    as (Hret & Hamb & _ & _ & _ & Hcase).
  - reflexivity.
  - by vm_compute.
  - by vm_compute.
  - lia.
  - cbv zeta. split; [rewrite Hret; reflexivity|].
    split; [rewrite Hamb; reflexivity|].
    change (Z.quot (22 + _initial_sample sampled + 1) 2
            =? AmbientDetect.ambient (amb_detect (sp sampled)))
      with false in Hcase.
    destruct Hcase as [Hdb Hsent]. split; [exact Hdb|].
    rewrite Hsent. reflexivity.
Defined.

End AmbientFacts.

(** ** Klipper and the socket going away *)

Module HandlerFacts.
Import SimplyPrint Component Statement Lifetime Handlers.



Lemma process_message_closing loaded :
  preserves is_closing (_process_message loaded).
Proof.
  unfold _process_message, _reset_keepalive, _save_item, local, _set_ws_url,
    update_intervals, _process_demand, create_task.
  repeat first
    [ apply (DispatchFacts.preserves_push_initial_state is_closing
               (λ _ _, eq_refl) (λ _ _, eq_refl) (λ _ _, eq_refl)
               (λ _ _, eq_refl))
    | preserves_step ].
Qed.

Lemma closed_reconnect_hdl (self : Component.t) :
  is_closing (sp self) = false →
  reconnect_hdl (_on_ws_message Closed self).2 =
    Some match reconnect_hdl self with
         | Some hdl => hdl
         | None => {| hdl_delay := reconnect_delay (sp self);
                      hdl_cancelled := false |}
         end.
Proof.
  intros Hclosing. unfold _on_ws_message, on_sp. method_unfold.
  rewrite Hclosing. simpl.
  destruct (reconnect_hdl self) as [hdl|] eqn:Hh,
           (keepalive_hdl (sp self)) as [secs|]; simpl; by rewrite ?Hh.
Qed.

(** X24. What the loss of the socket leaves behind. When tornado reports
    the socket closed and the component is not closing, the handler
    returns; the session is no longer connected, there is no socket and
    no keepalive timer; a reconnect is pending, the one that was pending
    or else a new one after the reconnect delay of that moment; cache,
    queue and reconnect delay are as they were. A job event sent after
    that is queued and not written. *)
Theorem socket_closed (self : Component.t) :
  is_closing (sp self) = false →
  let res := _on_ws_message Closed self in
  res.1 = Ok tt ∧
  connected (sp res.2) = false ∧ ws (sp res.2) = None ∧
  keepalive_hdl (sp res.2) = None ∧
  reconnect_hdl res.2 =
    Some match reconnect_hdl self with
         | Some hdl => hdl
         | None => {| hdl_delay := reconnect_delay (sp self);
                      hdl_cancelled := false |}
         end ∧
  cache (sp res.2) = cache (sp self) ∧
  missed_job_events (sp res.2) = missed_job_events (sp self) ∧
  reconnect_delay (sp res.2) = reconnect_delay (sp self) ∧
  ∀ job_info,
    let queue := on_sp (_send_job_event job_info) res.2 in
    queue.1 = Ok tt ∧ ws (sp queue.2) = None ∧
    missed_job_events (sp queue.2) =
      let q := missed_job_events (sp self) ++ [queued job_info (sp self)] in
      if (10 <? length q)%nat then tail q else q.
Proof.
  intros Hclosing. cbv zeta. unfold _on_ws_message, on_sp. method_unfold.
  rewrite Hclosing. simpl.
  destruct (reconnect_hdl self) as [hdl|] eqn:Hh,
           (keepalive_hdl (sp self)) as [secs|] eqn:Hk; simpl;
    rewrite ?Hh, ?Hk;
    (do 8 (split; [done|]); intros job_info;
     rewrite QueueFacts.send_job_event_run by done; done).
Qed.

Lemma socket_closed_witness :
  let res := _on_ws_message Closed live in
  res.1 = Ok tt ∧ connected (sp res.2) = false ∧ ws (sp res.2) = None ∧
  reconnect_hdl res.2
  = Some {| hdl_delay := 1%float; hdl_cancelled := false |}.
Proof.
  destruct (socket_closed live eq_refl) as (Hret & Hconn & Hws & _ & Hhdl & _).
  cbv zeta. split; [exact Hret|]. split; [exact Hconn|].
  split; [exact Hws|]. rewrite Hhdl. reflexivity.
Defined.

(** X25. The reconnect after a loss of the socket waits for the delay
    that the last frame left. With no reconnect pending and the component
    not closing: if an [error] frame is processed and then the socket is
    reported closed, the reconnect is scheduled after 30 s; if a
    [connected] frame with data as the protocol has it is processed and
    then the socket is reported closed, it is scheduled after 1 s. *)
Theorem reconnect_backoff (self : Component.t) (pk : gmap string pyval) :
  is_closing (sp self) = false →
  reconnect_hdl self = None →
  let lost :=
    Method.exec (_on_ws_message Closed)
      (Method.exec (_on_ws_message (Text (Some (PDict pk)))) self) in
  (pk !! "type" = Some (PStr "error") →
   reconnect_hdl lost
   = Some {| hdl_delay := 30%float; hdl_cancelled := false |}) ∧
  (pk !! "type" = Some (PStr "connected") →
   connected_data (match pk !! "data" with Some v => v | None => PNone end)
     = true →
   reconnect_hdl lost
   = Some {| hdl_delay := 1%float; hdl_cancelled := false |}).
Proof.
  intros Hclosing Hnone. cbv zeta.
  set (self1 := Method.exec (_on_ws_message (Text (Some (PDict pk)))) self).
  assert (Hsp : sp self1
                = Method.exec (_process_message (Some (PDict pk))) (sp self)).
  { unfold self1, Method.exec. simpl. rewrite AmbientFacts.on_sp_run.
    reflexivity. }
  assert (Hhdl : reconnect_hdl self1 = reconnect_hdl self).
  { unfold self1, Method.exec. simpl. rewrite AmbientFacts.on_sp_run.
    reflexivity. }
  assert (Hclosing1 : is_closing (sp self1) = false).
  { rewrite Hsp. unfold Method.exec.
    by rewrite process_message_closing. }
  pose proof (closed_reconnect_hdl self1 Hclosing1) as Hlost.
  change (Method.exec (_on_ws_message Closed) self1)
    with (_on_ws_message Closed self1).2.
  rewrite Hlost, Hhdl, Hnone, Hsp. split.
  - intros Htype. unfold Method.exec.
    by rewrite DispatchFacts.process_error_run.
  - intros Htype Hdata.
    by rewrite DispatchFacts.process_connected_delay.
Qed.

Lemma reconnect_backoff_witness :
  reconnect_hdl
    (Method.exec (_on_ws_message Closed)
       (Method.exec (_on_ws_message (Text (Some Scenario.error_frame)))
          live))
  = Some {| hdl_delay := 30%float; hdl_cancelled := false |}.
Proof.
  destruct (reconnect_backoff live
              (<["type" := PStr "error"]> {["data" := PNone]})
              eq_refl eq_refl) as [Herror _].
  apply Herror. by vm_compute.
Defined.

(** X26. Closing is final. [close] writes a [shutdown] frame if the
    session is connected on a live socket and then awaits the write. When
    it is resumed, in whatever state, the rest returns: both timers are
    stopped, the component is closing, the keepalive timer is gone and a
    pending reconnect is cancelled; the socket and the connected flag are
    left as they are. From then on a report that the socket has closed
    changes nothing, so no reconnect is scheduled. *)
Theorem close_is_final (self : Component.t) :
  ∃ rest,
    close self =
    (Ok rest,
     set_sp (Method.exec (_send_sp "shutdown" PNone) (sp self)) self) ∧
    ∀ resumed : Component.t,
      let res := rest resumed in
      res.1 = Ok tt ∧
      is_closing (sp res.2) = true ∧
      _detect_timer res.2 = false ∧ printer_info_timer res.2 = false ∧
      keepalive_hdl (sp res.2) = None ∧
      reconnect_hdl res.2 =
        (λ hdl, {| hdl_delay := hdl_delay hdl; hdl_cancelled := true |})
          <$> reconnect_hdl resumed ∧
      ws (sp res.2) = ws (sp resumed) ∧
      connected (sp res.2) = connected (sp resumed) ∧
      _on_ws_message Closed res.2 = (Ok tt, res.2).
Proof.
  unfold close, Ambient.stop, on_sp. method_unfold.
  pose proof (StateFacts.send_sp_run (sp self) "shutdown" PNone) as Hsend.
  unfold Method.exec.
  destruct (_send_sp "shutdown" PNone (sp self)) as [r s1].
  assert (Hok : ∃ b, r = Ok b)
    by (destruct (connected (sp self)), (ws (sp self));
        injection Hsend as -> _; by eexists).
  destruct Hok as [b ->]. simpl. eexists. split; [reflexivity|].
  intros resumed. simpl.
  destruct (reconnect_hdl resumed) as [hdl|] eqn:Hh,
           (keepalive_hdl (sp resumed)) as [secs|] eqn:Hk; simpl;
    rewrite ?Hh, ?Hk;
    repeat split; try done; unfold _on_ws_message; by method_unfold.
Qed.

End HandlerFacts.

(** ** The queue of missed events over the life of the component *)

Module LifetimeFacts.
Import SimplyPrint Component Statement Lifetime Handlers.

Lemma on_layer_detect_missed {A} (m : Method.t LayerDetect.t A) :
  preserves missed_job_events (on_layer_detect m).
Proof.
  intros self. unfold on_layer_detect.
  by destruct (m (layer_detect self)).
Qed.

Ltac missed_step :=
  first [ apply InvariantFacts.update_state_missed
        | apply on_layer_detect_missed
        | apply (DispatchFacts.preserves_send_sp missed_job_events
                   (λ _ _, eq_refl) (λ _ _, eq_refl))
        | preserves_step ].

Ltac bounded_step :=
  first [ apply InvariantFacts.send_job_event_keeps_bounded
        | apply InvariantFacts.keeps_bounded_preserves; repeat missed_step
        | apply InvariantFacts.keeps_bounded_bind; [|intros ?]
        | match goal with
          | |- keeps_bounded (match ?x with _ => _ end) => destruct x
          | |- keeps_bounded (if ?b then _ else _) => destruct b
          | |- keeps_bounded (let _ := _ in _) => cbv zeta
          end ].

Lemma print_start_bounded new_stats metadata need_start_event :
  keeps_bounded (_on_print_start new_stats metadata need_start_event).
Proof.
  unfold _on_print_start.
  apply InvariantFacts.keeps_bounded_bind;
    [apply InvariantFacts.keeps_bounded_preserves,
       InvariantFacts.update_state_missed|intros _].
  apply InvariantFacts.keeps_bounded_bind;
    [apply InvariantFacts.keeps_bounded_preserves; repeat missed_step
    |intros filename].
  apply InvariantFacts.keeps_bounded_bind;
    [apply InvariantFacts.keeps_bounded_preserves; repeat missed_step
    |intros job_info].
  apply InvariantFacts.keeps_bounded_bind;
    [apply InvariantFacts.keeps_bounded_preserves; repeat missed_step
    |intros _].
  apply InvariantFacts.keeps_bounded_bind;
    [apply InvariantFacts.keeps_bounded_preserves; repeat missed_step
    |intros _].
  apply InvariantFacts.keeps_bounded_bind;
    [apply InvariantFacts.keeps_bounded_preserves, on_layer_detect_missed
    |intros _].
  apply InvariantFacts.send_job_event_keeps_bounded.
Qed.

Lemma job_end_tail_missed kstate :
  preserves missed_job_events
    (_update_state_from_klippy kstate;;
     Method.modify (upd_cache (ReportCache.set_job_info ∅));;
     on_layer_detect LayerDetect.stop).
Proof. unfold _update_state_from_klippy. repeat missed_step. Qed.

Lemma job_end_bounded e kstate : keeps_bounded (JobEnd.handler e kstate).
Proof.
  rewrite EventFacts.handler_unfold.
  apply InvariantFacts.keeps_bounded_bind;
    [apply InvariantFacts.send_job_event_keeps_bounded|intros _].
  apply InvariantFacts.keeps_bounded_preserves, job_end_tail_missed.
Qed.

Lemma on_sp_bounded {A} (m : Method.t SimplyPrint.t A) (self : Component.t) :
  keeps_bounded m → bounded (sp self) → bounded (sp (on_sp m self).2).
Proof.
  intros Hm Hb. rewrite AmbientFacts.on_sp_run. simpl. by apply Hm.
Qed.

Lemma on_sp_missed {A} (m : Method.t SimplyPrint.t A) :
  preserves missed_job_events m →
  preserves (λ self : Component.t, missed_job_events (sp self)) (on_sp m).
Proof.
  intros Hm self. rewrite AmbientFacts.on_sp_run. simpl. apply Hm.
Qed.

Lemma ambient_changed_missed new_ambient :
  preserves missed_job_events (_on_ambient_changed new_ambient).
Proof. unfold _on_ambient_changed, _save_item. repeat missed_step. Qed.

Ltac component_step :=
  first [ apply on_sp_missed;
          first [ apply ambient_changed_missed
                | apply InvariantFacts.update_state_missed
                | repeat missed_step ]
        | preserves_step ].

Lemma detect_timer_missed eventtime :
  preserves (λ self : Component.t, missed_job_events (sp self))
    (Ambient._handle_detect_timer eventtime).
Proof.
  unfold Ambient._handle_detect_timer, Ambient.set_ambient.
  repeat component_step.
Qed.

Lemma ambient_start_missed :
  preserves (λ self : Component.t, missed_job_events (sp self))
    Ambient.start.
Proof. unfold Ambient.start, Ambient.set_ambient. repeat component_step. Qed.

Lemma klippy_disconnected_missed :
  preserves (λ self : Component.t, missed_job_events (sp self))
    _on_klippy_disconnected.
Proof.
  unfold _on_klippy_disconnected, Ambient.stop. repeat component_step.
Qed.

Lemma closing_missed :
  preserves (λ self : Component.t, missed_job_events (sp self))
    (rest ← close; rest).
Proof.
  intros self. unfold close, Ambient.stop, on_sp. method_unfold.
  pose proof (DispatchFacts.preserves_send_sp missed_job_events
                (λ _ _, eq_refl) (λ _ _, eq_refl) "shutdown" PNone (sp self))
    as Hsend.
  pose proof (StateFacts.send_sp_run (sp self) "shutdown" PNone) as Hrun.
  destruct (_send_sp "shutdown" PNone (sp self)) as [r s1].
  assert (Hok : ∃ b, r = Ok b)
    by (destruct (connected (sp self)), (ws (sp self));
        injection Hrun as -> _; by eexists).
  destruct Hok as [b ->]. simpl in *.
  destruct (reconnect_hdl self), (keepalive_hdl s1); simpl; exact Hsend.
Qed.

Lemma handle_bounded (ev : event) (self : Component.t) :
  bounded (sp self) → bounded (sp (Method.exec (handle ev) self)).
Proof.
  intros Hb. unfold Method.exec.
  assert (Hkeep : ∀ {A} (m : Method.t Component.t A),
            preserves (λ self : Component.t, missed_job_events (sp self)) m →
            bounded (sp (m self).2)).
  { intros A m Hm. unfold bounded. by rewrite (Hm self). }
  destruct ev as [e|new_stats metadata need| | |e kstate|kstate|new_extruder
                 | | | |eventtime| | |msg| ]; simpl.
  - by apply on_sp_bounded; [apply InvariantFacts.call_bounded|].
  - by apply on_sp_bounded; [apply print_start_bounded|].
  - apply Hkeep, on_sp_missed. unfold _on_print_paused. repeat missed_step.
  - apply Hkeep, on_sp_missed. unfold _on_print_resumed. repeat missed_step.
  - by apply on_sp_bounded; [apply job_end_bounded|].
  - apply Hkeep, on_sp_missed, job_end_tail_missed.
  - apply Hkeep, on_sp_missed. unfold _send_active_extruder.
    repeat missed_step.
  - apply Hkeep, on_sp_missed. unfold _send_mesh_data. repeat missed_step.
  - apply Hkeep, on_sp_missed. unfold _on_klippy_shutdown.
    repeat missed_step.
  - apply Hkeep, on_sp_missed. unfold _do_keepalive. repeat missed_step.
  - apply Hkeep. apply preserves_bind; [apply detect_timer_missed|intros ?].
    apply preserves_ret.
  - apply Hkeep, ambient_start_missed.
  - apply Hkeep, klippy_disconnected_missed.
  - destruct msg as [loaded| |].
    + by apply on_sp_bounded; [apply InvariantFacts.process_message_bounded|].
    + done.
    + apply Hkeep. unfold _on_ws_message. repeat component_step.
  - apply Hkeep, closing_missed.
Qed.

(** X27. The queue of missed events never holds more than 10 entries.
    From its construction on, whatever the event loop calls in whatever
    order (frames from the socket, job, state and machine events, status
    evaluations, the timers, the loss of the socket or of Klipper, the
    shutdown), and whether the handlers return or raise, the queue of the
    component holds at most 10 events. *)
Theorem queue_bounded_lifetime (evs : list event) h sp_test connect_url
    database :
  bounded (sp (after_events evs
                 (Component.__init__ h sp_test connect_url database))).
Proof.
  assert (Hinit : bounded (sp (Component.__init__ h sp_test connect_url
                                 database)))
    by apply (InvariantFacts.queue_bounded_always []).
  revert Hinit.
  generalize (Component.__init__ h sp_test connect_url database).
  unfold after_events. induction evs as [|ev evs IH]; intros self Hb; [done|].
  simpl. apply IH. by apply handle_bounded.
Qed.

End LifetimeFacts.
